(** * Marketplace-Web: the listing scraper ([scraper.py])

    A shallow embedding of the text and price utilities, the four
    extractors, the filter engine and the aggregator of [scraper.py],
    followed by the properties the specification states about them and
    by further properties of the code.

    Modelling conventions.
    - Text is a [string] of 8-bit characters; the character classes of
      Python ([str.isspace], [\d], [str.lower]) are modelled on the ASCII
      range, and every other byte is an ordinary character.  The zone
      names and the query URLs of the Infocasas, Properati and Doomos
      extractors are accented text: there (module [Latin1]) a character
      is a code point below 256, with the classes and the lowering that
      Python gives these code points, and a literal of the source is read
      from its UTF-8 bytes.
    - Integers are unbounded ([Z]), as Python's are; [int] is modelled
      without the interpreter's limit on the number of digits of a
      literal.  A numeric column of a frame holds exact integers (pandas
      holds a column of integers and nulls as 64-bit floats, which are
      exact up to [2^53]).
    - A [pandas.DataFrame] is the sequence of its rows.  A row carries the
      eight canonical text columns as a record and every further column
      (helper columns of the filters, the columns stamped by the
      aggregator) in a finite map from column name to cell.  Index labels
      are not modelled; an empty frame stands for any frame without rows.
    - Objects live in a store: a frame is referred to by its location, a
      copy allocates a new location, an in-place update rewrites one.
    - Exceptions are the [Exception] subclasses, which is what the
      handlers of the aggregator catch.  The log of the aggregator is
      modelled, one constructor per message; the log messages of the
      extractor are not.
    - The network, the HTML parser, the regular expressions of the
      Nestoria extractor, the clock and the random source are parameters:
      every statement holds for all of their behaviours.  A parsed page
      is given by what its queries return. *)

From Stdlib Require Import ZArith Lia Ascii String.
From stdpp Require Import base option list gmap strings pretty.

#[local] Set Warnings "-clear-no-such-hyp".
Local Open Scope Z_scope.

(* ===================================================================== *)
(** * Python strings *)
(* ===================================================================== *)

Module PyStr.

Definition code (c : ascii) : N := N_of_ascii c.

(** [c.isdigit()] / the regex class [\d], on ASCII. *)
Definition isdigit (c : ascii) : bool :=
  ((48 <=? code c) && (code c <=? 57))%N.

(** [c.isspace()] / the regex class [\s]: TAB, LF, VT, FF, CR, the four
    separators FS, GS, RS, US, and the space. *)
Definition isspace (c : ascii) : bool :=
  ((9 <=? code c) && (code c <=? 13) || (28 <=? code c) && (code c <=? 32))%N.

Definition isupper (c : ascii) : bool :=
  ((65 <=? code c) && (code c <=? 90))%N.

Definition lower_char (c : ascii) : ascii :=
  if isupper c then ascii_of_N (code c + 32) else c.

(** [s.lower()] *)
Fixpoint lower (s : string) : string :=
  match s with
  | EmptyString => EmptyString
  | String c s' => String (lower_char c) (lower s')
  end.

(** [s.lstrip()] *)
Fixpoint lstrip (s : string) : string :=
  match s with
  | EmptyString => EmptyString
  | String c s' => if isspace c then lstrip s' else s
  end.

(** [s.rstrip()] *)
Fixpoint rstrip (s : string) : string :=
  match s with
  | EmptyString => EmptyString
  | String c s' =>
      match rstrip s' with
      | EmptyString => if isspace c then EmptyString else String c EmptyString
      | r => String c r
      end
  end.

(** [s.strip()] *)
Definition strip (s : string) : string := rstrip (lstrip s).

(** [s.startswith(p)] *)
Fixpoint startswith (p s : string) : bool :=
  match p, s with
  | EmptyString, _ => true
  | String a p', String b s' => bool_decide (a = b) && startswith p' s'
  | String _ _, EmptyString => false
  end.

(** [p in s] *)
Fixpoint str_in (p s : string) : bool :=
  startswith p s ||
  match s with
  | EmptyString => false
  | String _ s' => str_in p s'
  end.

(** [s.replace(a, b)] for one-character [a] and [b]. *)
Fixpoint replace_char (a b : ascii) (s : string) : string :=
  match s with
  | EmptyString => EmptyString
  | String c s' => String (if bool_decide (c = a) then b else c) (replace_char a b s')
  end.

(** [s[:n]] *)
Fixpoint take (n : nat) (s : string) : string :=
  match n, s with
  | O, _ => EmptyString
  | S _, EmptyString => EmptyString
  | S n', String c s' => String c (take n' s')
  end.

(** [s.split()]: the maximal runs of non-whitespace characters.  [cur]
    is the run being read, most recent character first. *)
Fixpoint split_go (cur : option string) (s : string) : list string :=
  match s with
  | EmptyString => option_list (String.rev <$> cur)
  | String c s' =>
      if isspace c
      then option_list (String.rev <$> cur) ++ split_go None s'
      else split_go (Some (String c (default EmptyString cur))) s'
  end.

Definition split (s : string) : list string := split_go None s.

(** [re.sub(r"[^\d]", "", s)] *)
Fixpoint re_sub_non_digits (s : string) : string :=
  match s with
  | EmptyString => EmptyString
  | String c s' =>
      if isdigit c then String c (re_sub_non_digits s') else re_sub_non_digits s'
  end.

(** [re.sub(r"\s+", " ", s)]: every maximal run of whitespace becomes one
    space.  [in_run] says that the previous character was whitespace. *)
Fixpoint re_sub_spaces_go (in_run : bool) (s : string) : string :=
  match s with
  | EmptyString => EmptyString
  | String c s' =>
      if isspace c
      then (if in_run then re_sub_spaces_go true s'
            else String " "%char (re_sub_spaces_go true s'))
      else String c (re_sub_spaces_go false s')
  end.

Definition re_sub_spaces (s : string) : string := re_sub_spaces_go false s.

(** The maximal run of digits at the head of [s]. *)
Fixpoint digit_run (s : string) : string :=
  match s with
  | EmptyString => EmptyString
  | String c s' => if isdigit c then String c (digit_run s') else EmptyString
  end.

(** [m = re.search(r"(\d+)", s)] then [m.group(1)]: the leftmost, longest
    run of digits; [None] when [s] has no digit. *)
Fixpoint re_search_digits (s : string) : option string :=
  match s with
  | EmptyString => None
  | String c s' => if isdigit c then Some (digit_run s) else re_search_digits s'
  end.

Definition digit_val (c : ascii) : Z := Z.of_N (code c) - 48.

(** The value of a string of decimal digits, most significant first. *)
Fixpoint int_acc (acc : Z) (s : string) : Z :=
  match s with
  | EmptyString => acc
  | String c s' => int_acc (10 * acc + digit_val c) s'
  end.

(** The body of an integer literal: digits, with single underscores
    allowed between two digits. *)
Fixpoint int_body (after_digit : bool) (s : string) : bool :=
  match s with
  | EmptyString => after_digit
  | String c s' =>
      if isdigit c then int_body true s'
      else if bool_decide (c = "_"%char) then after_digit && int_body false s'
      else false
  end.

(** [int(s)] for a string: surrounding whitespace is ignored, one sign is
    allowed; [None] stands for [ValueError]. *)
Definition py_int (s : string) : option Z :=
  let t := strip s in
  let '(sign, body) :=
    match t with
    | String "+"%char r => (1, r)
    | String "-"%char r => (-1, r)
    | _ => (1, t)
    end in
  if int_body false body then Some (sign * int_acc 0 (re_sub_non_digits body))
  else None.

End PyStr.

(* ===================================================================== *)
(** * Accented text, URL quoting and dictionaries *)
(* ===================================================================== *)

(** Zone names, and several literals of the extractors, are accented
    Spanish text.  In the code that handles them a character is a code
    point below 256, with the classes that Python gives to these code
    points. *)
Module Latin1.

Definition code (c : ascii) : N := N_of_ascii c.

(** [c.isspace()] / the regex class [\s]: the ASCII ones, NEL (133) and
    the no-break space (160). *)
Definition isspace (c : ascii) : bool :=
  PyStr.isspace c || (code c =? 133)%N || (code c =? 160)%N.

(** The letters that [str.lower] changes: A to Z, and the capitals from
    192 to 222 but the multiplication sign (215). *)
Definition isupper (c : ascii) : bool :=
  PyStr.isupper c
  || ((192 <=? code c) && (code c <=? 222) && negb (code c =? 215))%N.

Definition lower_char (c : ascii) : ascii :=
  if isupper c then ascii_of_N (code c + 32) else c.

(** [s.lower()] *)
Fixpoint lower (s : string) : string :=
  match s with
  | EmptyString => EmptyString
  | String c s' => String (lower_char c) (lower s')
  end.

(** [s.lstrip()] *)
Fixpoint lstrip (s : string) : string :=
  match s with
  | EmptyString => EmptyString
  | String c s' => if isspace c then lstrip s' else s
  end.

(** [s.rstrip()] *)
Fixpoint rstrip (s : string) : string :=
  match s with
  | EmptyString => EmptyString
  | String c s' =>
      match rstrip s' with
      | EmptyString => if isspace c then EmptyString else String c EmptyString
      | r => String c r
      end
  end.

(** [s.strip()] *)
Definition strip (s : string) : string := rstrip (lstrip s).

(** [s and s.strip()] as a condition. *)
Definition nonblank (s : string) : bool :=
  negb (bool_decide (s = "")) && negb (bool_decide (strip s = "")).

(** [s.split()]; [cur] is the run being read, most recent character
    first. *)
Fixpoint split_go (cur : option string) (s : string) : list string :=
  match s with
  | EmptyString => option_list (String.rev <$> cur)
  | String c s' =>
      if isspace c
      then option_list (String.rev <$> cur) ++ split_go None s'
      else split_go (Some (String c (default EmptyString cur))) s'
  end.

Definition split (s : string) : list string := split_go None s.

(** A text literal of the source file, as the code points it denotes.
    The file is UTF-8: a code point from 128 to 255 is written as two
    bytes, 194 or 195 and then a byte from 128 to 191. *)
Fixpoint lit (s : string) : string :=
  match s with
  | EmptyString => EmptyString
  | String a t =>
      match t with
      | String b r =>
          if (code a =? 194)%N then String b (lit r)
          else if (code a =? 195)%N then String (ascii_of_N (code b + 64)) (lit r)
          else String a (lit t)
      | EmptyString => String a EmptyString
      end
  end.

(** [s.encode("utf-8")] *)
Fixpoint encode_utf8 (s : string) : string :=
  match s with
  | EmptyString => EmptyString
  | String c s' =>
      if (code c <? 128)%N then String c (encode_utf8 s')
      else String (ascii_of_N (192 + code c / 64))
             (String (ascii_of_N (128 + code c mod 64)) (encode_utf8 s'))
  end.

(** [str.maketrans(x, y)] for [x] and [y] of one length: the pairs of
    the table, a later pair overriding an earlier one. *)
Definition maketrans (x y : string) : list (ascii * ascii) :=
  zip (list_ascii_of_string x) (list_ascii_of_string y).

Definition translate_char (table : list (ascii * ascii)) (c : ascii) : ascii :=
  foldl (λ r p, if bool_decide (p.1 = c) then p.2 else r) c table.

(** [s.translate(table)] *)
Fixpoint translate (table : list (ascii * ascii)) (s : string) : string :=
  match s with
  | EmptyString => EmptyString
  | String c s' => String (translate_char table c) (translate table s')
  end.

(** [re.sub(r"\s+", rep, s)] for a one-character [rep]; [in_run] says
    that the previous character was whitespace. *)
Fixpoint re_sub_spaces_go (rep : ascii) (in_run : bool) (s : string) : string :=
  match s with
  | EmptyString => EmptyString
  | String c s' =>
      if isspace c
      then (if in_run then re_sub_spaces_go rep true s'
            else String rep (re_sub_spaces_go rep true s'))
      else String c (re_sub_spaces_go rep false s')
  end.

Definition re_sub_spaces (rep : ascii) (s : string) : string :=
  re_sub_spaces_go rep false s.

(** The class [[a-z0-9\-]]. *)
Definition slug_char (c : ascii) : bool :=
  ((97 <=? code c) && (code c <=? 122))%N || PyStr.isdigit c
  || bool_decide (c = "-"%char).

(** [re.sub(r"[^a-z0-9\-]", "", s)] *)
Fixpoint re_sub_non_slug (s : string) : string :=
  match s with
  | EmptyString => EmptyString
  | String c s' =>
      if slug_char c then String c (re_sub_non_slug s') else re_sub_non_slug s'
  end.

(** The first maximal run of digits of [s] that is followed, after any
    whitespace, by [word]:
    [m = re.search(r"(\d+)\s*" + word, s)] then [m.group(1)], for a
    literal [word] that begins with neither a digit nor whitespace.
    [run] is the run of digits being read, most recent digit first. *)
Fixpoint re_search_count_go (word : string) (run : string) (s : string) : option string :=
  match s with
  | EmptyString => None
  | String c s' =>
      if PyStr.isdigit c then re_search_count_go word (String c run) s'
      else
        match run with
        | EmptyString => re_search_count_go word EmptyString s'
        | _ =>
            if PyStr.startswith word (lstrip s) then Some (String.rev run)
            else re_search_count_go word EmptyString s'
        end
  end.

Definition re_search_count (word : string) (s : string) : option string :=
  re_search_count_go word EmptyString s.

End Latin1.

(** ** [requests.utils.quote] *)

(** The characters that [quote] never escapes: letters, digits, and
    [_.-~]. *)
Definition always_safe (c : ascii) : bool :=
  let n := PyStr.code c in
  ((65 <=? n) && (n <=? 90) || (97 <=? n) && (n <=? 122) || (48 <=? n) && (n <=? 57))%N
  || bool_decide (c = "_"%char) || bool_decide (c = "."%char)
  || bool_decide (c = "-"%char) || bool_decide (c = "~"%char).

(** One hexadecimal digit, in upper case. *)
Definition hex_digit (n : N) : ascii :=
  if (n <? 10)%N then ascii_of_N (48 + n) else ascii_of_N (55 + n).

(** [quote_from_bytes(bs, safe="/")]: a byte that is not safe becomes
    [%XX]. *)
Fixpoint quote_from_bytes (bs : string) : string :=
  match bs with
  | EmptyString => EmptyString
  | String c r =>
      if always_safe c || bool_decide (c = "/"%char) then String c (quote_from_bytes r)
      else String "%"%char
             (String (hex_digit (PyStr.code c / 16))
                (String (hex_digit (PyStr.code c mod 16)) (quote_from_bytes r)))
  end.

(** [requests.utils.quote(s)], which is [urllib.parse.quote(s)]: the
    UTF-8 bytes of [s], quoted. *)
Definition quote (s : string) : string := quote_from_bytes (Latin1.encode_utf8 s).

(** ** Dictionaries with text keys and values *)

(** A dictionary as the sequence of its items, in insertion order. *)
Definition dict : Type := list (string * string).

(** [d.get(k)] *)
Fixpoint dict_lookup (k : string) (d : dict) : option string :=
  match d with
  | [] => None
  | (k', v) :: rest => if bool_decide (k' = k) then Some v else dict_lookup k rest
  end.

(** [d.get(k, default)] *)
Definition dict_get (k : string) (d : dict) (default : string) : string :=
  match dict_lookup k d with
  | Some v => v
  | None => default
  end.

(** [d[k] = v]: the value of an existing key is replaced in place, a new
    key goes last. *)
Fixpoint dict_set (k v : string) (d : dict) : dict :=
  match d with
  | [] => [(k, v)]
  | (k', v') :: rest =>
      if bool_decide (k' = k) then (k, v) :: rest else (k', v') :: dict_set k v rest
  end.

(** A dictionary display [{k1: v1, ...}] whose texts are literals of the
    source file. *)
Definition dict_lit (items : list (string * string)) : dict :=
  foldl (λ d p, dict_set (Latin1.lit p.1) (Latin1.lit p.2) d) [] items.

(* ===================================================================== *)
(** * Text and price utilities *)
(* ===================================================================== *)

(** [parse_precio_con_moneda(precio_str)]: the currency tag ("S" for
    soles, "USD" for dollars) and the integer made of all the digits. *)
Definition parse_precio_con_moneda (precio_str : string) : option string * option Z :=
  match precio_str with
  | EmptyString => (None, None)
  | s =>
      let moneda :=
        if PyStr.str_in "S/" s || PyStr.startswith "S/" (PyStr.strip s) then Some "S"
        else if PyStr.str_in "$" s then Some "USD"
        else None in
      let nums := PyStr.re_sub_non_digits s in
      match nums with
      | EmptyString => (moneda, None)
      | _ => (moneda, PyStr.py_int nums)
      end
  end.

(** A Python value held in a cell of a frame or passed to the utilities:
    a string, an integer, or [None] / [NaN]. *)
Inductive cell : Type :=
  | CStr (s : string)
  | CInt (n : Z)
  | CNull.

Global Instance cell_eq_dec : EqDecision cell.
Proof. solve_decision. Defined.

(** [str(v)] *)
Definition py_str (v : cell) : string :=
  match v with
  | CStr s => s
  | CInt n => pretty n
  | CNull => "None"
  end.

(** An optional integer as a cell: [None] is the null cell. *)
Definition cell_of_int (v : option Z) : cell :=
  match v with
  | Some n => CInt n
  | None => CNull
  end.

(** [_extract_int_from_text(s)] *)
Definition _extract_int_from_text (s : cell) : option Z :=
  match s with
  | CNull => None
  | _ =>
      let text := PyStr.strip (py_str s) in
      let text := PyStr.re_sub_spaces text in
      match PyStr.re_search_digits text with
      | Some g => PyStr.py_int g
      | None => None
      end
  end.

(** [_parse_price_soles(s)] *)
Definition _parse_price_soles (s : cell) : option Z :=
  let '(moneda, val) := parse_precio_con_moneda (py_str s) in
  if bool_decide (moneda = Some "S") then val else None.

(** [slugify_zone(zona)] *)
Definition slugify_zone (zona : string) : string :=
  if bool_decide (zona = "") then ""
  else
    let s := Latin1.strip (Latin1.lower zona) in
    let trans := Latin1.maketrans (Latin1.lit "áéíóúñü") "aeiounu" in
    let s := Latin1.translate trans s in
    let s := Latin1.re_sub_spaces "-" s in
    Latin1.re_sub_non_slug s.

(* ===================================================================== *)
(** * Nestoria: zone slug *)
(* ===================================================================== *)

Definition EXCEPCIONES : list string :=
  ["miraflores"; "tarapoto"; "la molina"; "magdalena"; "lambayeque";
   "ventanilla"; "la victoria"].

(** [build_zona_slug_nestoria(zona_input)] *)
Definition build_zona_slug_nestoria (zona_input : string) : string :=
  if bool_decide (zona_input = "") || bool_decide (PyStr.strip zona_input = "")
  then "lima"
  else
    let z := PyStr.replace_char " " "-" (PyStr.lower (PyStr.strip zona_input)) in
    if bool_decide (z ∉ (PyStr.lower <$> EXCEPCIONES)) then z
    else "lima_" +:+ z.

(* ===================================================================== *)
(** * Exceptions *)
(* ===================================================================== *)

(** The exceptions ([Exception] subclasses) that the modelled code can
    raise or receive. *)
Inductive exn : Type :=
  | ValueError
  | KeyError (key : string)
  | RuntimeError (msg : string).

(** The outcome of a computation that may raise. *)
Inductive res (A : Type) : Type :=
  | Ok (a : A)
  | Raise (e : exn).
Arguments Ok {A} a.
Arguments Raise {A} e.

Global Instance res_ret : MRet res := λ A a, Ok a.
Global Instance res_bind : MBind res := λ A B f m,
  match m with
  | Ok a => f a
  | Raise e => Raise e
  end.

(* ===================================================================== *)
(** * Listing records *)
(* ===================================================================== *)

(** The dictionary every extractor appends to [results]: the eight
    canonical columns, all text. *)
Record Listing : Type := mkListing {
  titulo : string;
  precio : string;
  m2 : string;
  dormitorios : string;
  banos : string;          (* column "baños" *)
  descripcion : string;
  link : string;
  imagen_url : string;
}.

(** [x or y] on values that are [None] or a string: the empty string is
    falsy. *)
Definition str_or (x : option string) (y : option string) : option string :=
  match x with
  | Some (String _ _) => x
  | _ => y
  end.

(** [sep.join(parts)] *)
Fixpoint str_join (sep : string) (parts : list string) : string :=
  match parts with
  | [] => ""
  | [p] => p
  | p :: ps => p +:+ sep +:+ str_join sep ps
  end.

(* ===================================================================== *)
(** * Nestoria: the extractor *)
(* ===================================================================== *)

Module Nestoria.

(** A BeautifulSoup element as the extractor reads it: [tag.get(attr)] and
    [tag.get_text(" ", strip=True)]. *)
Record Tag : Type := mkTag {
  tag_get : string → option string;
  tag_text : string;
}.

(** A candidate node [li]: [li.select_one(css)], which may fail on a
    malformed node, and [li.get_text(" ", strip=True)]. *)
Record Node : Type := mkNode {
  select_one : string → res (option Tag);
  node_text : string;
}.

(** A parsed page: [soup.select(css)], [soup.find_all("li")] and the last,
    class-based [soup.find_all([...], class_=...)] query. *)
Record Soup : Type := mkSoup {
  soup_select : string → list Node;
  soup_find_all_li : list Node;
  soup_find_all_by_class : list Node;
}.

(** [a or b] on the results of two [select_one] calls; an element is
    always truthy, and the second call is made only when needed. *)
Definition first_of (a b : res (option Tag)) : res (option Tag) :=
  x ← a; match x with Some t => Ok (Some t) | None => b end.

(** [[li for li in lis if li.select_one(css)]] *)
Fixpoint nodes_having (css : string) (lis : list Node) : res (list Node) :=
  match lis with
  | [] => Ok []
  | li :: rest =>
      hit ← select_one li css;
      keep ← nodes_having css rest;
      Ok (if hit is Some _ then li :: keep else keep)
  end.

(** Lines 85-90 read [price_min] and [price_max] as conditions: [None] and
    [0] are falsy. *)
Definition int_truthy (n : option Z) : bool :=
  match n with
  | Some v => negb (v =? 0)
  | None => false
  end.

(** The early price test of lines 122-128, on the price text of a node:
    [true] when one of the three [continue] statements is reached. *)
Definition nestoria_price_excluded (price_min price_max : option Z) (price_text : string) : bool :=
  let '(moneda, precio_val) := parse_precio_con_moneda price_text in
  if (match price_max, precio_val with
      | Some pmax, Some v => bool_decide (moneda = Some "S") && (pmax <? v)
      | _, _ => false
      end) then true
  else if (match price_min, precio_val with
           | Some pmin, Some v => bool_decide (moneda = Some "S") && (v <? pmin)
           | _, _ => false
           end) then true
  else bool_decide (moneda = Some "USD") && (bool_decide (is_Some price_max) || bool_decide (is_Some price_min)).

Section Extractor.

(** The network: [get_page_content(url)], [None] on any failure. *)
Variable get_page_content : string → option Soup.

(** [m = re.search(pattern, text, flags=re.I)] followed by [m.group(1)],
    [None] when there is no match. *)
Variable re_search_group1 : string → string → option string.

(** Lines 78-90: the query URL. *)
Definition nestoria_url (zona dormitorios banos : string)
  (price_min price_max : option Z) : string :=
  let zona_slug := build_zona_slug_nestoria zona in
  let base_url := "https://www.nestoria.pe/" +:+ zona_slug +:+ "/inmuebles/alquiler" in
  let base_url :=
    if negb (bool_decide (dormitorios = "")) && negb (bool_decide (dormitorios = "0"))
    then base_url +:+ "/dormitorios-" +:+ dormitorios else base_url in
  let params :=
    (if negb (bool_decide (banos = "")) && negb (bool_decide (banos = "0"))
     then ["bathrooms=" +:+ banos] else []) ++
    (match price_min with
     | Some v => if int_truthy price_min && negb (bool_decide (pretty v = "0"))
                 then ["price_min=" +:+ pretty v] else []
     | None => []
     end) ++
    (match price_max with
     | Some v => if int_truthy price_max && negb (bool_decide (pretty v = "0"))
                 then ["price_max=" +:+ pretty v] else []
     | None => []
     end) in
  if params is [] then base_url else base_url +:+ "?" +:+ str_join "&" params.

(** Lines 98-102: the candidate nodes, by the first query that finds
    some. *)
Definition nestoria_items (soup : Soup) : res (list Node) :=
  let items :=
    if soup_select soup "li.rating__new" is [] then soup_select soup "ul#main__listing_res > li"
    else soup_select soup "li.rating__new" in
  items ← (if items is [] then nodes_having ".result__details__price" (soup_find_all_li soup)
           else Ok items);
  Ok (if items is [] then soup_find_all_by_class soup else items).

(** Lines 107-164: the body of the [try] for one node.  [Ok None] is a
    [continue]; [Ok (Some r)] is the record appended to [results]. *)
Definition nestoria_item (price_min price_max : option Z)
  (seen_links : gset string) (li : Node) : res (option Listing) :=
  a_tag ← first_of (select_one li "a.results__link") (select_one li "a[href]");
  match a_tag with
  | None => Ok None
  | Some a_tag =>
    let link := default "" (str_or (tag_get a_tag "data-href")
                              (str_or (tag_get a_tag "href") (Some ""))) in
    let link := if negb (bool_decide (link = "")) && PyStr.startswith "/" link
                then "https://www.nestoria.pe" +:+ link else link in
    if bool_decide (link = "") || bool_decide (link ∈ seen_links) then Ok None
    else
      title_elem ← first_of (select_one li ".listing__title__text")
                     (first_of (select_one li ".listing__title") (Ok (Some a_tag)));
      let title := match title_elem with
                   | Some e => tag_text e
                   | None => PyStr.take 140 (tag_text a_tag)
                   end in
      price_elem ← first_of (select_one li ".result__details__price span")
                     (first_of (select_one li ".result__details__price")
                        (select_one li ".price"));
      let price_text := match price_elem with Some e => tag_text e | None => "" end in
      if nestoria_price_excluded price_min price_max price_text then Ok None
      else
        desc_elem ← first_of (select_one li ".listing__description")
                      (first_of (select_one li ".result__summary") (Ok None));
        let desc := match desc_elem with
                    | Some e => tag_text e
                    | None => PyStr.take 800 (node_text li)
                    end in
        let text_content := PyStr.lower (node_text li) in
        let dormitorios_text :=
          default "" (re_search_group1 "(\d+)\s*dormitori" text_content) in
        let banos_text :=
          default "" (re_search_group1 "(\d+)\s*bañ" text_content) in
        let m2_text :=
          default "" (re_search_group1 "(\d{1,4})\s*(m²|m2)" text_content) in
        img_tag ← select_one li "img";
        let img_url :=
          match img_tag with
          | None => ""
          | Some img =>
              let u := default "" (str_or (tag_get img "src")
                                     (str_or (tag_get img "data-src") (Some ""))) in
              let u := if negb (bool_decide (u = "")) && PyStr.startswith "//" u
                       then "https:" +:+ u else u in
              PyStr.strip u
          end in
        Ok (Some {| titulo := title; precio := price_text; m2 := m2_text;
                    dormitorios := dormitorios_text; banos := banos_text;
                    descripcion := desc; link := link; imagen_url := img_url |})
  end.

(** Lines 104-168: the loop.  The state is [(results, seen_links)]; a
    node that raises is logged and skipped. *)
Fixpoint nestoria_loop (price_min price_max : option Z) (items : list Node)
  (results : list Listing) (seen_links : gset string) : list Listing :=
  match items with
  | [] => results
  | li :: rest =>
    match nestoria_item price_min price_max seen_links li with
    | Ok (Some r) =>
        nestoria_loop price_min price_max rest (results ++ [r]) ({[link r]} ∪ seen_links)
    | Ok None | Raise _ =>
        nestoria_loop price_min price_max rest results seen_links
    end
  end.

(** [scrape_nestoria(zona, dormitorios, banos, price_min, price_max)]:
    the rows of the returned frame.  ([palabras_clave] and
    [max_results_per_zone] are not read by the function.) *)
Definition scrape_nestoria (zona dormitorios banos : string)
  (price_min price_max : option Z) : res (list Listing) :=
  match get_page_content (nestoria_url zona dormitorios banos price_min price_max) with
  | None => Ok []
  | Some soup =>
    items ← nestoria_items soup;
    Ok (nestoria_loop price_min price_max items [] ∅)
  end.

End Extractor.

End Nestoria.

(* ===================================================================== *)
(** * The fetcher *)
(* ===================================================================== *)

(** [get_page_content(url)]: the parsed page, [None] when the request
    raises.  [fetch url] stands for [requests.get(url, ...)], the check
    of the status and the parse of the body. *)
Definition get_page_content {Page : Type} (fetch : string → res Page) (url : string)
    : option Page :=
  match fetch url with
  | Ok page => Some page
  | Raise _ => None
  end.

(** [s and s != "0"], the condition on a requested count. *)
Definition asked (s : string) : bool :=
  negb (bool_decide (s = "")) && negb (bool_decide (s = "0")).

(** [f"{v}"] for an optional integer. *)
Definition fmt (v : option Z) : string := py_str (cell_of_int v).

(** The image address of an [img] element, as [scrape_infocasas] (lines
    267-270) and [scrape_doomos] (lines 521-524) read it. *)
Definition img_src (img_tag : Nestoria.Tag) : string :=
  let img_url := default "" (str_or (Nestoria.tag_get img_tag "src")
                               (str_or (Nestoria.tag_get img_tag "data-src") (Some ""))) in
  let img_url := if negb (bool_decide (img_url = "")) && PyStr.startswith "//" img_url
                 then "https:" +:+ img_url else img_url in
  Latin1.strip img_url.

(* ===================================================================== *)
(** * Infocasas: the extractor *)
(* ===================================================================== *)

Module Infocasas.
Import Nestoria.

Definition ZONA_MAPEO_INFOCASAS : dict :=
  dict_lit
    [("ancón", "ancon"); ("ate", "ate"); ("barranco", "barranco");
     ("breña", "breña"); ("carabayllo", "carabayllo"); ("chaclacayo", "chaclacayo");
     ("chorrillos", "chorrillos"); ("cieneguilla", "cieneguilla");
     ("comas", "comas"); ("el agustino", "el-agustino");
     ("independencia", "independencia"); ("jesús maría", "jesus-maria");
     ("la molina", "la-molina"); ("la victoria", "la-victoria");
     ("lima", "lima-cercado"); ("lince", "lince"); ("los olivos", "los-olivos");
     ("lurigancho", "lurigancho"); ("lurín", "lurin");
     ("magdalena del mar", "magdalena-del-mar"); ("miraflores", "miraflores");
     ("pachacámac", "pachacamac"); ("pucusana", "pucusana");
     ("pueblo libre", "pueblo-libre"); ("puente piedra", "puente-piedra");
     ("punta hermosa", "punta-hermosa"); ("punta negra", "punta-negra");
     ("rímac", "rimac"); ("san bartolo", "san-bartolo"); ("san borja", "san-borja");
     ("san isidro", "san-isidro");
     ("san juan de lurigancho", "san-juan-de-lurigancho");
     ("san juan de miraflores", "san-juan-de-miraflores"); ("san luis", "san-luis");
     ("san martín de porres", "san-martin-de-porres"); ("san miguel", "san-miguel");
     ("santa anita", "santa-anita"); ("santa maría del mar", "santa-maria-del-mar");
     ("santa rosa", "santa-rosa"); ("santiago de surco", "santiago-de-surco");
     ("surquillo", "surquillo"); ("villa el salvador", "villa-el-salvador");
     ("villa maría del triunfo", "villa-maria-del-triunfo")].

(** Lines 198-218: the query URL. *)
Definition infocasas_url (zona dormitorios banos : string)
    (price_min price_max : option Z) (palabras_clave : string) : string :=
  let base :=
    if Latin1.nonblank zona then
      let zona_lower := Latin1.lower (Latin1.strip zona) in
      let zone_slug := dict_get zona_lower ZONA_MAPEO_INFOCASAS (slugify_zone zona) in
      "https://www.infocasas.com.pe/alquiler/casas-y-departamentos/lima/" +:+ zone_slug
    else "https://www.infocasas.com.pe/alquiler/casas-y-departamentos" in
  let base :=
    if asked dormitorios && asked banos
       && bool_decide (is_Some price_min) && bool_decide (is_Some price_max)
    then base +:+ "/" +:+ dormitorios +:+ "-dormitorio/" +:+ banos +:+ "-bano/desde-"
           +:+ fmt price_min +:+ "/hasta-" +:+ fmt price_max +:+ "?&IDmoneda=6"
    else if asked dormitorios && asked banos
    then base +:+ "/" +:+ dormitorios +:+ "-dormitorio/" +:+ banos +:+ "-bano"
    else if asked dormitorios
    then base +:+ "/" +:+ dormitorios +:+ "-dormitorio"
    else if asked banos
    then base +:+ "/" +:+ banos +:+ "-bano"
    else base in
  if Latin1.nonblank palabras_clave then
    if PyStr.str_in "?" base
    then base +:+ "&searchstring=" +:+ quote (Latin1.strip palabras_clave)
    else base +:+ "?searchstring=" +:+ quote (Latin1.strip palabras_clave)
  else base.

(** A listing card [n]: the node, and [n.select(css)] given by the raw
    text ([get_text()]) of each element found. *)
Record Card : Type := mkCard {
  card_node : Node;
  card_select : string → res (list string);
}.

(** A parsed page: [soup.select(css)]. *)
Record Page : Type := mkPage {
  page_select : string → list Card;
}.

(** Lines 243-259: the loop over the typology tags of a card. *)
Fixpoint typology (items : list string) (dormitorios_text banos_text m2_text : string)
    : string * string * string :=
  match items with
  | [] => (dormitorios_text, banos_text, m2_text)
  | item :: rest =>
      let text := Latin1.strip item in
      if PyStr.str_in "Dorm" text then
        typology rest (default dormitorios_text (PyStr.re_search_digits text))
          banos_text m2_text
      else if PyStr.str_in (Latin1.lit "Baños") text || PyStr.str_in (Latin1.lit "Baño") text
      then
        typology rest dormitorios_text (default banos_text (PyStr.re_search_digits text))
          m2_text
      else if PyStr.str_in (Latin1.lit "m²") text then
        typology rest dormitorios_text banos_text
          (default m2_text (PyStr.re_search_digits text))
      else typology rest dormitorios_text banos_text m2_text
  end.

(** Lines 229-281: the body of the [try] for one card.  [Ok None] is the
    [continue]; [Ok (Some r)] is the record appended to [results]. *)
Definition infocasas_item (n : Card) : res (option Listing) :=
  let li := card_node n in
  a ← select_one li "a[href]";
  match a with
  | None => Ok None
  | Some a =>
      let href := tag_get a "href" in
      let href :=
        match href with
        | Some h =>
            if negb (bool_decide (h = "")) && PyStr.startswith "/" h
            then Some ("https://www.infocasas.com.pe" +:+ h) else href
        | None => href
        end in
      title_elem ← first_of (select_one li "h2.lc-title")
                     (first_of (select_one li ".lc-title") (Ok (Some a)));
      let title := match title_elem with
                   | Some e => tag_text e
                   | None => PyStr.take 250 (node_text li)
                   end in
      price_elem ← first_of (select_one li ".main-price")
                     (first_of (select_one li ".lc-price p")
                        (select_one li ".property-price-tag p"));
      let price := match price_elem with Some e => tag_text e | None => "" end in
      typology_items ← card_select n ".lc-typologyTag__item strong";
      let '(dormitorios_text, banos_text, m2_text) := typology typology_items "" "" "" in
      desc_elem ← first_of (select_one li ".lc-description") (select_one li "p");
      let desc := match desc_elem with
                  | Some e => tag_text e
                  | None => PyStr.take 400 (node_text li)
                  end in
      img_tag ← select_one li ".cardImageGallery .gallery-image img";
      let img_url := match img_tag with Some img => img_src img | None => "" end in
      Ok (Some {| titulo := title; precio := price; m2 := m2_text;
                  dormitorios := dormitorios_text; banos := banos_text;
                  descripcion := desc; link := default "" (str_or href (Some ""));
                  imagen_url := img_url |})
  end.

(** Lines 227-284: the loop; a card that raises is logged and skipped. *)
Fixpoint infocasas_loop (nodes : list Card) (results : list Listing) : list Listing :=
  match nodes with
  | [] => results
  | n :: rest =>
      match infocasas_item n with
      | Ok (Some r) => infocasas_loop rest (results ++ [r])
      | Ok None | Raise _ => infocasas_loop rest results
      end
  end.

Section Extractor.

Variable fetch : string → res Page.

(** [scrape_infocasas(zona, dormitorios, banos, price_min, price_max,
    palabras_clave)]: the rows of the returned frame.  ([max_scrolls] is
    not read by the function.) *)
Definition scrape_infocasas (zona dormitorios banos : string)
    (price_min price_max : option Z) (palabras_clave : string) : list Listing :=
  match get_page_content fetch
          (infocasas_url zona dormitorios banos price_min price_max palabras_clave) with
  | None => []
  | Some soup =>
      let nodes :=
        if page_select soup "div.listingCard" is [] then page_select soup "article"
        else page_select soup "div.listingCard" in
      infocasas_loop nodes []
  end.

End Extractor.

End Infocasas.

(* ===================================================================== *)
(** * Properati: the extractor *)
(* ===================================================================== *)

Module Properati.
Import Nestoria.

Definition ZONA_MAPEO_PROPERATI : dict :=
  dict_lit
    [("ancón", "ancon"); ("ate", "ate"); ("barranco", "barranco");
     ("breña", "brena"); ("carabayllo", "carabayllo"); ("chaclacayo", "chaclacayo");
     ("chorrillos", "chorrillos"); ("cieneguilla", "cieneguilla");
     ("comas", "comas"); ("el agustino", "el-agustino");
     ("independencia", "independencia"); ("jesús maría", "jesus-maria");
     ("la molina", "la-molina"); ("la victoria", "la-victoria"); ("lima", "lima");
     ("lince", "lince"); ("los olivos", "los-olivos"); ("lurigancho", "lurigancho");
     ("lurín", "lurin"); ("magdalena del mar", "magdalena-del-mar");
     ("miraflores", "miraflores"); ("pachacámac", "pachacamac");
     ("pucusana", "pucusana"); ("pueblo libre", "pueblo-libre");
     ("puente piedra", "puente-piedra"); ("punta hermosa", "punta-hermosa");
     ("punta negra", "punta-negra"); ("rímac", "rimac");
     ("san bartolo", "san-bartolo"); ("san borja", "san-borja");
     ("san isidro", "san-isidro");
     ("san juan de lurigancho", "san-juan-de-lurigancho");
     ("san juan de miraflores", "san-juan-de-miraflores"); ("san luis", "san-luis");
     ("san martín de porres", "san-martin-de-porres"); ("san miguel", "san-miguel");
     ("santa anita", "santa-anita"); ("santa maría del mar", "santa-maria-del-mar");
     ("santa rosa", "santa-rosa"); ("santiago de surco", "santiago-de-surco");
     ("surquillo", "surquillo"); ("villa el salvador", "villa-el-salvador");
     ("villa maría del triunfo", "villa-maria-del-triunfo")].

(** Lines 333-341: the loop that sorts the keywords into amenities and
    the others. *)
Fixpoint sort_keywords (palabras amenities other_keywords : list string)
    : list string * list string :=
  match palabras with
  | [] => (amenities, other_keywords)
  | p :: rest =>
      if bool_decide (p = "piscina")
      then sort_keywords rest (amenities ++ ["swimming_pool"]) other_keywords
      else if bool_decide (p = "jardin")
      then sort_keywords rest (amenities ++ ["garden"]) other_keywords
      else sort_keywords rest amenities (other_keywords ++ [p])
  end.

(** Lines 314-348: the query URL. *)
Definition properati_url (zona dormitorios banos : string)
    (price_min price_max : option Z) (palabras_clave : string) : string :=
  let base :=
    if Latin1.nonblank zona then
      let zona_lower := Latin1.lower (Latin1.strip zona) in
      let zone_slug := dict_get zona_lower ZONA_MAPEO_PROPERATI (slugify_zone zona) in
      "https://www.properati.com.pe/s/" +:+ zone_slug
        +:+ "/alquiler?propertyType=apartment%2Chouse"
    else "https://www.properati.com.pe/s/alquiler?propertyType=apartment%2Chouse" in
  let params :=
    (if asked dormitorios then ["bedrooms=" +:+ dormitorios] else [])
    ++ (if asked banos then ["bathrooms=" +:+ banos] else [])
    ++ (if price_min is Some _ then ["minPrice=" +:+ fmt price_min] else [])
    ++ (if price_max is Some _ then ["maxPrice=" +:+ fmt price_max] else []) in
  let base :=
    if Latin1.nonblank palabras_clave then
      let palabras := Latin1.split (Latin1.lower palabras_clave) in
      let '(amenities, other_keywords) := sort_keywords palabras [] [] in
      let base :=
        if amenities is [] then base
        else base +:+ "&amenities=" +:+ str_join "," amenities in
      if other_keywords is [] then base
      else base +:+ "&keyword=" +:+ quote (str_join " " other_keywords)
    else base in
  if params is [] then base else base +:+ "&" +:+ str_join "&" params.

(** Lines 399-409: the image address of a card; only an address that
    begins with "https://img" is kept. *)
Definition properati_img (img_tag : Tag) : string :=
  let img := default "" (str_or (tag_get img_tag "src")
                           (str_or (tag_get img_tag "data-src") (Some ""))) in
  if negb (bool_decide (img = "")) && PyStr.startswith "https://img" img
  then Latin1.strip img
  else if negb (bool_decide (img = "")) && PyStr.startswith "//" img then
    let img_full := "https:" +:+ img in
    if PyStr.startswith "https://img" img_full then Latin1.strip img_full else ""
  else "".

(** The count that lines 372-394 read from an element, when there is
    one. *)
Definition count_of (elem : option Tag) : string :=
  match elem with
  | Some e => default "" (PyStr.re_search_digits (tag_text e))
  | None => ""
  end.

(** Lines 363-420: the body of the [try] for one card. *)
Definition properati_item (c : Node) : res Listing :=
  a ← first_of (select_one c "a[href]") (select_one c "a.title");
  let href := match a with Some t => tag_get t "href" | None => Some "" end in
  let href :=
    match href with
    | Some h =>
        if negb (bool_decide (h = "")) && PyStr.startswith "/" h
        then Some ("https://www.properati.com.pe" +:+ h) else href
    | None => href
    end in
  let title := match a with
               | Some t => tag_text t
               | None => PyStr.take 140 (node_text c)
               end in
  price_elem ← select_one c ".price";
  let price := match price_elem with Some e => tag_text e | None => "" end in
  dorm_elem ← select_one c ".properties__bedrooms";
  let dormitorios_text := count_of dorm_elem in
  banos_elem ← select_one c ".properties__bathrooms";
  let banos_text := count_of banos_elem in
  m2_elem ← select_one c ".properties__area";
  let m2_text := count_of m2_elem in
  img_tag ← select_one c "img";
  let img := match img_tag with Some t => properati_img t | None => "" end in
  Ok {| titulo := title; precio := price; m2 := m2_text;
        dormitorios := dormitorios_text; banos := banos_text;
        descripcion := title; link := default "" (str_or href (Some ""));
        imagen_url := img |}.

(** Lines 361-423: the loop; a card that raises is logged and skipped. *)
Fixpoint properati_loop (cards : list Node) (results : list Listing) : list Listing :=
  match cards with
  | [] => results
  | c :: rest =>
      match properati_item c with
      | Ok r => properati_loop rest (results ++ [r])
      | Raise _ => properati_loop rest results
      end
  end.

Section Extractor.

(** [requests.get(base, ...)], the check of the status and the parse of
    the body. *)
Variable fetch : string → res Soup.

(** [scrape_properati(zona, dormitorios, banos, price_min, price_max,
    palabras_clave)]: the rows of the returned frame. *)
Definition scrape_properati (zona dormitorios banos : string)
    (price_min price_max : option Z) (palabras_clave : string) : list Listing :=
  match fetch (properati_url zona dormitorios banos price_min price_max palabras_clave) with
  | Raise _ => []
  | Ok soup =>
      let cards :=
        if soup_select soup "article" is [] then
          if soup_select soup "div.posting-card" is [] then soup_select soup "a[href]"
          else soup_select soup "div.posting-card"
        else soup_select soup "article" in
      properati_loop cards []
  end.

End Extractor.

End Properati.

(* ===================================================================== *)
(** * Doomos: the extractor *)
(* ===================================================================== *)

Module Doomos.
Import Nestoria.

Definition ZONA_IDS_CORRECTOS : dict :=
  dict_lit
    [("ancón", "-336912"); ("ate", "-337679"); ("breña", "65645345");
     ("carabayllo", "-339907"); ("chaclacayo", "-341190"); ("chorrillos", "-342811");
     ("cieneguilla", "-343329"); ("comas", "-343903"); ("el agustino", "-345552");
     ("jesús maría", "348294"); ("la molina", "-351740"); ("la victoria", "-352442");
     ("lima", "45343445"); ("lince", "-352696"); ("los olivos", "191126");
     ("lurigancho", "-353648"); ("lurín", "-353652");
     ("magdalena del mar", "326245"); ("miraflores", "-354864");
     ("pachacámac", "-356636"); ("pucusana", "-359672"); ("pueblo libre", "-359690");
     ("puente piedra", "-359759"); ("punta hermosa", "-360186");
     ("punta negra", "-360189"); ("rímac", "-361308"); ("san bartolo", "-362154");
     ("san borja", "-362170"); ("san isidro", "-362425"); ("san luis", "-362738");
     ("san miguel", "-362804"); ("santiago de surco", "-364705");
     ("surquillo", "-364723")].

(** Lines 446-473: the parameters of the query, in insertion order. *)
Definition doomos_params (zona dormitorios banos : string)
    (price_min price_max : option Z) (palabras_clave : string) : dict :=
  let params :=
    dict_lit [("clase", "1"); ("stipo", "16"); ("pagina", "1"); ("sort", "primeasc")] in
  let params :=
    if negb (Latin1.nonblank zona) then
      let params := dict_set "loc_name" (Latin1.lit "Lima (Región de Lima)") params in
      dict_set "loc_id" "-352647" params
    else
      let zona_lower := Latin1.lower (Latin1.strip zona) in
      let loc_id := dict_get zona_lower ZONA_IDS_CORRECTOS "" in
      let zona_formateada := Latin1.strip zona +:+ Latin1.lit " (Región de Lima)" in
      let params := dict_set "loc_name" zona_formateada params in
      if negb (bool_decide (loc_id = "")) then dict_set "loc_id" loc_id params
      else params in
  let params := if asked dormitorios then dict_set "piezas" dormitorios params else params in
  let params := if asked banos then dict_set "banos" banos params else params in
  let params :=
    if price_min is Some _ then dict_set "preciomin" (fmt price_min) params else params in
  let params :=
    if price_max is Some _ then dict_set "preciomax" (fmt price_max) params else params in
  if Latin1.nonblank palabras_clave
  then dict_set "keyword" (Latin1.strip palabras_clave) params
  else params.

(** Line 475: the query URL. *)
Definition doomos_url (zona dormitorios banos : string)
    (price_min price_max : option Z) (palabras_clave : string) : string :=
  let params := doomos_params zona dormitorios banos price_min price_max palabras_clave in
  "http://www.doomos.com.pe/search/" +:+ "?"
    +:+ str_join "&" ((λ p, p.1 +:+ "=" +:+ quote p.2) <$> params).

(** Lines 490-535: the body of the [try] for one card. *)
Definition doomos_item (card : Node) : res (option Listing) :=
  a_tag ← select_one card ".content_result_titulo a";
  match a_tag with
  | None => Ok None
  | Some a_tag =>
      let title := tag_text a_tag in
      let href := default "" (str_or (tag_get a_tag "href") (Some "")) in
      let href := if negb (bool_decide (href = "")) && PyStr.startswith "/" href
                  then "http://www.doomos.com.pe" +:+ href else href in
      price_elem ← select_one card ".content_result_precio";
      let price := match price_elem with Some e => tag_text e | None => "" end in
      desc_elem ← select_one card ".content_result_descripcion";
      let desc := match desc_elem with
                  | Some e => tag_text e
                  | None => PyStr.take 400 (node_text card)
                  end in
      let text_content := Latin1.lower (node_text card) in
      let dormitorios_text :=
        default "" (Latin1.re_search_count "dormitorio" text_content) in
      let banos_text :=
        default "" (Latin1.re_search_count (Latin1.lit "baño") text_content) in
      let m2_text := default "" (Latin1.re_search_count "m2" text_content) in
      img_tag ← select_one card "img.content_result_image";
      let img_url := match img_tag with Some img => img_src img | None => "" end in
      Ok (Some {| titulo := title; precio := price; m2 := m2_text;
                  dormitorios := dormitorios_text; banos := banos_text;
                  descripcion := desc; link := href; imagen_url := img_url |})
  end.

(** Lines 488-538: the loop; a card that raises is logged and skipped. *)
Fixpoint doomos_loop (cards : list Node) (results : list Listing) : list Listing :=
  match cards with
  | [] => results
  | card :: rest =>
      match doomos_item card with
      | Ok (Some r) => doomos_loop rest (results ++ [r])
      | Ok None | Raise _ => doomos_loop rest results
      end
  end.

Section Extractor.

Variable fetch : string → res Soup.

(** [scrape_doomos(zona, dormitorios, banos, price_min, price_max,
    palabras_clave)]: the rows of the returned frame. *)
Definition scrape_doomos (zona dormitorios banos : string)
    (price_min price_max : option Z) (palabras_clave : string) : list Listing :=
  match get_page_content fetch
          (doomos_url zona dormitorios banos price_min price_max palabras_clave) with
  | None => []
  | Some soup =>
      let cards := soup_select soup ".content_result" in
      if cards is [] then [] else doomos_loop cards []
  end.

End Extractor.

End Doomos.

(* ===================================================================== *)
(** * Frames and the object store *)
(* ===================================================================== *)

(** A row of a frame: the canonical columns and every further column. *)
Record Row : Type := mkRow {
  base : Listing;
  extra : gmap string cell;
}.

(** The row that [pd.DataFrame(results)] makes of one dictionary. *)
Definition row_of (b : Listing) : Row := mkRow b ∅.

Abbreviation DataFrame := (list Row).

Definition required_columns : list string :=
  ["titulo"; "precio"; "m2"; "dormitorios"; "baños"; "descripcion"; "link"; "imagen_url"].

(** The canonical column [col] of a record, [None] for any other name. *)
Definition get_field (col : string) (b : Listing) : option string :=
  if bool_decide (col = "titulo") then Some (titulo b)
  else if bool_decide (col = "precio") then Some (precio b)
  else if bool_decide (col = "m2") then Some (m2 b)
  else if bool_decide (col = "dormitorios") then Some (dormitorios b)
  else if bool_decide (col = "baños") then Some (banos b)
  else if bool_decide (col = "descripcion") then Some (descripcion b)
  else if bool_decide (col = "link") then Some (link b)
  else if bool_decide (col = "imagen_url") then Some (imagen_url b)
  else None.

Definition set_field (col : string) (v : string) (b : Listing) : Listing :=
  if bool_decide (col = "titulo") then
    mkListing v (precio b) (m2 b) (dormitorios b) (banos b) (descripcion b) (link b) (imagen_url b)
  else if bool_decide (col = "precio") then
    mkListing (titulo b) v (m2 b) (dormitorios b) (banos b) (descripcion b) (link b) (imagen_url b)
  else if bool_decide (col = "m2") then
    mkListing (titulo b) (precio b) v (dormitorios b) (banos b) (descripcion b) (link b) (imagen_url b)
  else if bool_decide (col = "dormitorios") then
    mkListing (titulo b) (precio b) (m2 b) v (banos b) (descripcion b) (link b) (imagen_url b)
  else if bool_decide (col = "baños") then
    mkListing (titulo b) (precio b) (m2 b) (dormitorios b) v (descripcion b) (link b) (imagen_url b)
  else if bool_decide (col = "descripcion") then
    mkListing (titulo b) (precio b) (m2 b) (dormitorios b) (banos b) v (link b) (imagen_url b)
  else if bool_decide (col = "link") then
    mkListing (titulo b) (precio b) (m2 b) (dormitorios b) (banos b) (descripcion b) v (imagen_url b)
  else if bool_decide (col = "imagen_url") then
    mkListing (titulo b) (precio b) (m2 b) (dormitorios b) (banos b) (descripcion b) (link b) v
  else b.

(** The cell of row [r] in column [col]; [None] when the row has no such
    column. *)
Definition getitem (col : string) (r : Row) : option cell :=
  match get_field col (base r) with
  | Some s => Some (CStr s)
  | None => extra r !! col
  end.

(** Assignment of a text to a canonical column of a row. *)
Definition set_text (col : string) (v : string) (r : Row) : Row :=
  mkRow (set_field col v (base r)) (extra r).

(** Assignment of a cell to a further (non-canonical) column of a row. *)
Definition set_extra (col : string) (v : cell) (r : Row) : Row :=
  mkRow (base r) (<[col := v]> (extra r)).

(** Removal of further columns from a row. *)
Definition drop_extra (cols : list string) (r : Row) : Row :=
  mkRow (base r) (foldr delete (extra r) cols).

(** ** Series operations *)

(** [series.notnull()] *)
Definition notnull (c : list cell) : list bool :=
  (λ v, if v is CNull then false else true) <$> c.

(** [series == n], [series >= n], [series <= n] for an integer [n]: a null
    cell compares false. *)
Definition series_eq (c : list cell) (n : Z) : list bool :=
  (λ v, if v is CInt m then m =? n else false) <$> c.
Definition series_ge (c : list cell) (n : Z) : list bool :=
  (λ v, if v is CInt m then n <=? m else false) <$> c.
Definition series_le (c : list cell) (n : Z) : list bool :=
  (λ v, if v is CInt m then m <=? n else false) <$> c.

(** [a & b] on boolean series of one frame. *)
Definition mask_and (a b : list bool) : list bool := zip_with andb a b.

(** The rows that a boolean mask selects. *)
Definition mask_select (mask : list bool) (rows : DataFrame) : DataFrame :=
  (filter (λ p, Is_true p.1) (zip mask rows)).*2.

(** [a + b] on text series of one frame, and [a + " "]. *)
Definition series_cat (a b : list string) : list string := zip_with String.append a b.
Definition series_cat_const (a : list string) (b : string) : list string :=
  (λ x, x +:+ b) <$> a.

(** [re.search(re.escape(p), s, re.I) is not None]: the literal [p] occurs
    in [s], letter case ignored. *)
Definition contains_nocase (p s : string) : bool :=
  PyStr.str_in (PyStr.lower p) (PyStr.lower s).

(** [series.str.contains(re.escape(p), na=False, case=False)] *)
Definition str_contains (c : list cell) (p : string) : list bool :=
  (λ v, if v is CStr s then contains_nocase p s else false) <$> c.

(** ** The world: object store, log, clock and random source *)

Inductive log_entry : Type :=
  | LogBuscando
  | LogEjecutando (name : string)
  | LogErrorCritico (name : string) (e : exn)
  | LogFiltradoEstricto (n : nat)
  | LogFiltradoKeywords (n : nat)
  | LogNingunaFuente
  | LogTotalFinal (n : nat).

(** Frames are objects: [heap] lists them by location, in order of
    allocation.  [clock] and [entropy] count the calls made so far to
    [datetime.now()] and [uuid.uuid4()]. *)
Record World : Type := mkWorld {
  heap : list DataFrame;
  logged : list log_entry;
  clock : nat;
  entropy : nat;
}.

Definition loc := nat.

(** Computations over the world that may raise. *)
Definition M (A : Type) : Type := World → res A * World.

Global Instance M_ret : MRet M := λ A a w, (Ok a, w).
Global Instance M_bind : MBind M := λ A B f m w,
  match m w with
  | (Ok a, w') => f a w'
  | (Raise e, w') => (Raise e, w')
  end.

Definition raise {A} (e : exn) : M A := λ w, (Raise e, w).

(** [try: body / except: handler] *)
Definition try_except {A} (body : M A) (handler : exn → M A) : M A := λ w,
  match body w with
  | (Ok a, w') => (Ok a, w')
  | (Raise e, w') => handler e w'
  end.

Definition with_heap (h : list DataFrame) (w : World) : World :=
  mkWorld h (logged w) (clock w) (entropy w).

(** A new frame object holding [rows]. *)
Definition new_frame (rows : DataFrame) : M loc := λ w,
  (Ok (length (heap w)), with_heap (heap w ++ [rows]) w).

Definition read (l : loc) : M DataFrame := λ w,
  match heap w !! l with
  | Some rows => (Ok rows, w)
  | None => (Raise (RuntimeError "no such object"), w)
  end.

Definition write (l : loc) (rows : DataFrame) : M unit := λ w,
  (Ok (), with_heap (<[l := rows]> (heap w)) w).

Definition logger (e : log_entry) : M unit := λ w,
  (Ok (), mkWorld (heap w) (logged w ++ [e]) (clock w) (entropy w)).

(** [df.copy()], also [df.copy().reset_index(drop=True)] *)
Definition copy (l : loc) : M loc := rows ← read l; new_frame rows.

(** [len(df)] *)
Definition len (l : loc) : M nat := rows ← read l; mret (length rows).

(** [df[col]]: [KeyError] when the frame has no such column. *)
Definition column (l : loc) (col : string) : M (list cell) :=
  rows ← read l;
  match mapM (getitem col) rows with
  | Some c => mret c
  | None => raise (KeyError col)
  end.

(** [df[col] = values] for a canonical column and text values. *)
Definition set_text_column (l : loc) (col : string) (values : list string) : M unit :=
  rows ← read l; write l (zip_with (set_text col) values rows).

(** [df[col] = values] for a further column. *)
Definition set_column (l : loc) (col : string) (values : list cell) : M unit :=
  rows ← read l; write l (zip_with (set_extra col) values rows).

(** [df.loc[mask].copy().reset_index(drop=True)], also [df[mask]] *)
Definition select_rows (l : loc) (mask : list bool) : M loc :=
  rows ← read l; new_frame (mask_select mask rows).

(** [df.drop(columns=cols, errors="ignore", inplace=True)] *)
Definition drop_columns (l : loc) (cols : list string) : M unit :=
  rows ← read l; write l (drop_extra cols <$> rows).

(** [int(s)] *)
Definition int_ (s : string) : M Z :=
  match PyStr.py_int s with
  | Some n => mret n
  | None => raise ValueError
  end.

(* ===================================================================== *)
(** * The filter engine *)
(* ===================================================================== *)

(** The condition of lines 563 and 570 on a requested count:
    [req and str(req).strip() != "" and str(req) != "0"]. *)
Definition req_given (req : option string) : bool :=
  match req with
  | Some s =>
      negb (bool_decide (s = "")) && negb (bool_decide (PyStr.strip s = ""))
      && negb (bool_decide (s = "0"))
  | None => false
  end.

(** Lines 563-575, for one of the two counts: [mask] is narrowed inside a
    [try] whose [except] leaves it as it was. *)
Definition narrow_by_count (dfc : loc) (helper : string) (req : option string)
    (mask : list bool) : M (list bool) :=
  if req_given req then
    try_except
      (req_int ← int_ (default "" req);
       c ← column dfc helper;
       c' ← column dfc helper;
       mret (mask_and mask (mask_and (notnull c) (series_eq c' req_int))))
      (λ _, mret mask)
  else mret mask.

(** [_filter_df_strict(df, dormitorios_req, banos_req, price_min, price_max)] *)
Definition _filter_df_strict (df : option loc) (dormitorios_req banos_req : option string)
    (price_min price_max : option Z) : M loc :=
  match df with
  | None => new_frame []
  | Some df =>
      rows ← read df;
      if rows is [] then new_frame []
      else
        dfc ← copy df;
        c ← column dfc "precio";
        set_column dfc "_precio_soles" (cell_of_int ∘ _parse_price_soles <$> c);;
        c ← column dfc "dormitorios";
        set_column dfc "_dorm_num" (cell_of_int ∘ _extract_int_from_text <$> c);;
        c ← column dfc "baños";
        set_column dfc "_banos_num" (cell_of_int ∘ _extract_int_from_text <$> c);;
        n ← len dfc;
        let mask := replicate n true in
        mask ← narrow_by_count dfc "_dorm_num" dormitorios_req mask;
        mask ← narrow_by_count dfc "_banos_num" banos_req mask;
        mask ← (if bool_decide (is_Some price_min) || bool_decide (is_Some price_max) then
                  let pmin := default (- 10 ^ 12) price_min in
                  let pmax := default (10 ^ 12) price_max in
                  c ← column dfc "_precio_soles";
                  let mask := mask_and mask (notnull c) in
                  c1 ← column dfc "_precio_soles";
                  c2 ← column dfc "_precio_soles";
                  mret (mask_and mask (mask_and (series_ge c1 pmin) (series_le c2 pmax)))
                else mret mask);
        df_filtered ← select_rows dfc mask;
        drop_columns df_filtered ["_precio_soles"; "_dorm_num"; "_banos_num"];;
        mret df_filtered
  end.

(** Lines 599-600: one [dfc = dfc[...]] per keyword. *)
Fixpoint keep_containing (dfc : loc) (palabras : list string) : M loc :=
  match palabras with
  | [] => mret dfc
  | p :: rest =>
      c ← column dfc "texto_completo";
      dfc ← select_rows dfc (str_contains c p);
      keep_containing dfc rest
  end.

(** [_filter_by_keywords(df, palabras_clave)]; the result is [df] itself
    when there is nothing to filter. *)
Definition _filter_by_keywords (df : option loc) (palabras_clave : string) : M (option loc) :=
  match df with
  | None => mret None
  | Some l =>
      rows ← read l;
      if (if rows is [] then true else false) || bool_decide (palabras_clave = "")
         || bool_decide (PyStr.strip palabras_clave = "")
      then mret (Some l)
      else
        let palabras := PyStr.split (PyStr.lower palabras_clave) in
        dfc ← copy l;
        t ← column dfc "titulo";
        d ← column dfc "descripcion";
        a ← column dfc "m2";
        h ← column dfc "dormitorios";
        b ← column dfc "baños";
        let texto :=
          series_cat (series_cat_const
            (series_cat (series_cat_const
              (series_cat (series_cat_const
                (series_cat (series_cat_const (py_str <$> t) " ") (py_str <$> d)) " ")
              (py_str <$> a)) " ")
            (py_str <$> h)) " ")
          (py_str <$> b) in
        set_column dfc "texto_completo" (CStr ∘ PyStr.lower <$> texto);;
        dfc ← keep_containing dfc palabras;
        drop_columns dfc ["texto_completo"];;
        mret (Some dfc)
  end.

(* ===================================================================== *)
(** * The aggregator *)
(* ===================================================================== *)

(** The keyword arguments of [run_scrapers] and of every extractor. *)
Record Args : Type := mkArgs {
  arg_zona : string;
  arg_dormitorios : string;
  arg_banos : string;
  arg_price_min : option Z;
  arg_price_max : option Z;
  arg_palabras_clave : string;
}.

(** What a call [func(zona=..., ...)] of a registered extractor does: it
    raises, or returns a value that is a fresh frame ([Some rows]) or is
    not a frame at all ([None]). *)
Definition extractor : Type := Args → res (option (list Listing)).

(** Line 627, on one cell:
    [astype(str).str.strip().replace({None: "", "None": ""})]. *)
Definition clean_text (v : cell) : string :=
  let t := PyStr.strip (py_str v) in
  if bool_decide (t = "None") then "" else t.

(** [pd.concat(frames, ignore_index=True, sort=False)] *)
Fixpoint pd_concat_rows (frames : list loc) : M DataFrame :=
  match frames with
  | [] => mret []
  | l :: rest =>
      rows ← read l;
      more ← pd_concat_rows rest;
      mret (rows ++ more)
  end.

Definition pd_concat (frames : list loc) : M loc :=
  rows ← pd_concat_rows frames; new_frame rows.

(** The key of a row under [subset=["link", "titulo"]]. *)
Definition dedup_key (r : Row) : string * string := (link (base r), titulo (base r)).

(** [drop_duplicates(subset=["link","titulo"], keep="first")], on rows:
    [seen] holds the keys met so far. *)
Fixpoint drop_duplicates_rows (seen : gset (string * string)) (rows : DataFrame) : DataFrame :=
  match rows with
  | [] => []
  | r :: rest =>
      if bool_decide (dedup_key r ∈ seen) then drop_duplicates_rows seen rest
      else r :: drop_duplicates_rows ({[dedup_key r]} ∪ seen) rest
  end.

Definition drop_duplicates (l : loc) : M loc :=
  rows ← read l; new_frame (drop_duplicates_rows ∅ rows).

Section Aggregator.

(** [datetime.now().isoformat()] and [str(uuid.uuid4())], by the number
    of earlier calls. *)
Variable now_isoformat : nat → string.
Variable uuid4 : nat → string.

(** The four registered callables. *)
Variables scrape_nestoria scrape_infocasas scrape_properati scrape_doomos : extractor.

Definition SCRAPERS : list (string * extractor) :=
  [("nestoria", scrape_nestoria);
   ("infocasas", scrape_infocasas);
   ("properati", scrape_properati);
   ("doomos", scrape_doomos)].

Definition datetime_now : M string := λ w,
  (Ok (now_isoformat (clock w)), mkWorld (heap w) (logged w) (S (clock w)) (entropy w)).

Definition uuid_uuid4 : M string := λ w,
  (Ok (uuid4 (entropy w)), mkWorld (heap w) (logged w) (clock w) (S (entropy w))).

(** [[str(uuid.uuid4()) for _ in range(n)]] *)
Fixpoint fresh_ids (n : nat) : M (list string) :=
  match n with
  | O => mret []
  | S n' => i ← uuid_uuid4; more ← fresh_ids n'; mret (i :: more)
  end.

(** Line 612: the call of an extractor; a returned frame is a new
    object. *)
Definition call (func : extractor) (args : Args) : M (option loc) :=
  match func args with
  | Raise e => raise e
  | Ok None => mret None
  | Ok (Some rows) => l ← new_frame (row_of <$> rows); mret (Some l)
  end.

(** Lines 626-627: every canonical column is rewritten in place. *)
Fixpoint clean_columns (df : loc) (cols : list string) : M unit :=
  match cols with
  | [] => mret ()
  | col :: rest =>
      c ← column df col;
      set_text_column df col (clean_text <$> c);;
      clean_columns df rest
  end.

(** Lines 610-642: the body of the loop for one registered source; the
    result is the frame appended to [frames], if any.  (Lines 617-625
    create the canonical columns that are missing and replace null
    cells; rows here always have the canonical columns, as text.) *)
Definition run_source (args : Args) (name : string) (func : extractor) : M (option loc) :=
  logger (LogEjecutando name);;
  df ← try_except (call func args)
         (λ e, logger (LogErrorCritico name e);; l ← new_frame []; mret (Some l));
  df ← match df with
       | None => new_frame []
       | Some l => mret l
       end;
  df ← copy df;
  clean_columns df required_columns;;
  df_filtered ← _filter_df_strict (Some df) (Some (arg_dormitorios args))
                  (Some (arg_banos args)) (arg_price_min args) (arg_price_max args);
  n ← len df_filtered;
  logger (LogFiltradoEstricto n);;
  df_filtered ←
    (if negb (bool_decide (arg_palabras_clave args = ""))
        && negb (bool_decide (PyStr.strip (arg_palabras_clave args) = ""))
        && bool_decide (name ∉ ["urbania"; "doomos"; "properati"])
     then
       r ← _filter_by_keywords (Some df_filtered) (arg_palabras_clave args);
       match r with
       | Some l => n ← len l; logger (LogFiltradoKeywords n);; mret l
       | None => raise (RuntimeError "object of type 'NoneType' has no len()")
       end
     else mret df_filtered);
  n ← len df_filtered;
  if bool_decide (0 < n)%nat then
    df_filtered ← copy df_filtered;
    set_column df_filtered "fuente" (replicate n (CStr name));;
    stamp ← datetime_now;
    set_column df_filtered "scraped_at" (replicate n (CStr stamp));;
    ids ← fresh_ids n;
    set_column df_filtered "id" (CStr <$> ids);;
    mret (Some df_filtered)
  else mret None.

(** Lines 609-642: the loop over the registry. *)
Fixpoint run_sources (args : Args) (scrapers : list (string * extractor))
    (frames : list loc) : M (list loc) :=
  match scrapers with
  | [] => mret frames
  | (name, func) :: rest =>
      r ← run_source args name func;
      run_sources args rest (match r with Some l => frames ++ [l] | None => frames end)
  end.

(** Lines 644-653: what is done with the collected frames. *)
Definition combine (frames : list loc) : M loc :=
  if frames is [] then
    logger LogNingunaFuente;; new_frame []
  else
    combined ← pd_concat frames;
    c ← column combined "link";
    combined ← select_rows combined ((λ v, negb (PyStr.startswith "#" (py_str v))) <$> c);
    c ← column combined "link";
    combined ← select_rows combined ((λ v, negb (bool_decide (v = CStr ""))) <$> c);
    combined ← drop_duplicates combined;
    n ← len combined;
    logger (LogTotalFinal n);;
    mret combined.

(** [run_scrapers(zona, dormitorios, banos, price_min, price_max,
    palabras_clave)] *)
Definition run_scrapers (args : Args) : M loc :=
  logger LogBuscando;;
  frames ← run_sources args SCRAPERS [];
  combine frames.

End Aggregator.

(** ** The registered extractors *)

Section Registry.

(** The network as each extractor reaches it, and the regular
    expressions of the Nestoria extractor. *)
Variable fetch_nestoria : string → res Nestoria.Soup.
Variable re_search_group1 : string → string → option string.
Variable fetch_infocasas : string → res Infocasas.Page.
Variable fetch_properati : string → res Nestoria.Soup.
Variable fetch_doomos : string → res Nestoria.Soup.

(** The call [func(zona=zona, ..., palabras_clave=palabras_clave)] of
    line 612 for each entry of [SCRAPERS] (lines 543-548): every one
    returns a frame. *)
Definition nestoria_extractor : extractor := λ args,
  rows ← Nestoria.scrape_nestoria (get_page_content fetch_nestoria) re_search_group1
            (arg_zona args) (arg_dormitorios args) (arg_banos args)
            (arg_price_min args) (arg_price_max args);
  Ok (Some rows).

Definition infocasas_extractor : extractor := λ args,
  Ok (Some (Infocasas.scrape_infocasas fetch_infocasas
              (arg_zona args) (arg_dormitorios args) (arg_banos args)
              (arg_price_min args) (arg_price_max args) (arg_palabras_clave args))).

Definition properati_extractor : extractor := λ args,
  Ok (Some (Properati.scrape_properati fetch_properati
              (arg_zona args) (arg_dormitorios args) (arg_banos args)
              (arg_price_min args) (arg_price_max args) (arg_palabras_clave args))).

Definition doomos_extractor : extractor := λ args,
  Ok (Some (Doomos.scrape_doomos fetch_doomos
              (arg_zona args) (arg_dormitorios args) (arg_banos args)
              (arg_price_min args) (arg_price_max args) (arg_palabras_clave args))).

End Registry.

(* ===================================================================== *)
(** * Notions used to state the specification *)
(* ===================================================================== *)


(** All digits of a text, concatenated and read as one whole number;
    [acc] is the number read so far. *)
Fixpoint digits_value_from (acc : Z) (s : string) : Z :=
  match s with
  | EmptyString => acc
  | String c s' =>
      digits_value_from (if PyStr.isdigit c then 10 * acc + PyStr.digit_val c else acc) s'
  end.

Definition digits_value (s : string) : Z := digits_value_from 0 s.

(** The text contains a digit. *)
Fixpoint has_digit (s : string) : bool :=
  match s with
  | EmptyString => false
  | String c s' => PyStr.isdigit c || has_digit s'
  end.

(** A text made of digits only. *)
Fixpoint digits_only (s : string) : bool :=
  match s with
  | EmptyString => true
  | String c s' => PyStr.isdigit c && digits_only s'
  end.

(** The rows of the frame that a computation returns, when it returns
    one. *)
Definition result_rows (m : M loc) (w : World) : option DataFrame :=
  match m w with
  | (Ok l, w') => heap w' !! l
  | (Raise _, _) => None
  end.

(** ** The strict filter, row by row *)

Definition helper_columns : list string := ["_precio_soles"; "_dorm_num"; "_banos_num"].

(** A row of [dfc] once the three helper columns are filled in. *)
Definition with_helpers (r : Row) : Row :=
  set_extra "_banos_num" (cell_of_int (_extract_int_from_text (CStr (banos (base r)))))
    (set_extra "_dorm_num" (cell_of_int (_extract_int_from_text (CStr (dormitorios (base r)))))
       (set_extra "_precio_soles" (cell_of_int (_parse_price_soles (CStr (precio (base r))))) r)).

(** The test that lines 563-575 apply to one count. *)
Definition count_keep (req : option string) (field : string) : bool :=
  if req_given req then
    match PyStr.py_int (default "" req) with
    | Some n => bool_decide (_extract_int_from_text (CStr field) = Some n)
    | None => true
    end
  else true.

(** The test that lines 577-581 apply to the price. *)
Definition price_keep (price_min price_max : option Z) (price : string) : bool :=
  if bool_decide (is_Some price_min) || bool_decide (is_Some price_max) then
    match _parse_price_soles (CStr price) with
    | Some v => (default (- 10 ^ 12) price_min <=? v) && (v <=? default (10 ^ 12) price_max)
    | None => false
    end
  else true.

Definition strict_keep (dormitorios_req banos_req : option string)
    (price_min price_max : option Z) (b : Listing) : bool :=
  count_keep dormitorios_req (dormitorios b) && count_keep banos_req (banos b)
  && price_keep price_min price_max (precio b).

(** The rows of the frame that the strict filter returns for a frame of
    rows [df]. *)
Definition strict_rows (dormitorios_req banos_req : option string)
    (price_min price_max : option Z) (df : DataFrame) : DataFrame :=
  drop_extra helper_columns <$>
    filter (λ r, strict_keep dormitorios_req banos_req price_min price_max (base r) = true) df.







(** A world with no object and no history. *)
Definition empty_world : World := mkWorld [] [] 0 0.

(** ** The keyword filter, row by row *)

(** The text that line 592-598 put in column [texto_completo], before it
    is lowered. *)
Definition texto_of (b : Listing) : string :=
  (((((((titulo b +:+ " ") +:+ descripcion b) +:+ " ") +:+ m2 b) +:+ " ")
      +:+ dormitorios b) +:+ " ") +:+ banos b.

Definition with_texto (r : Row) : Row :=
  set_extra "texto_completo" (CStr (PyStr.lower (texto_of (base r)))) r.

Definition kw_keep (palabras : list string) (b : Listing) : bool :=
  forallb (λ p, contains_nocase p (PyStr.lower (texto_of b))) palabras.

(** The rows of the frame that the keyword filter makes of the rows [df],
    for keywords that are not blank. *)
Definition keyword_rows (palabras_clave : string) (df : DataFrame) : DataFrame :=
  drop_extra ["texto_completo"] <$>
    filter (λ r, kw_keep (PyStr.split (PyStr.lower palabras_clave)) (base r) = true) df.




(** Sample records. *)
Definition sample_listing (price bedrooms : string) : Listing :=
  mkListing "Departamento en alquiler" price "80" bedrooms "1" "Cerca al parque"
    "https://www.nestoria.pe/detail/1" "".

(** The rows of the frame that the keyword filter returns for a frame of
    rows [df]. *)
Definition keyword_result (palabras_clave : string) (df : DataFrame) : DataFrame :=
  if bool_decide (PyStr.strip palabras_clave = "") then df
  else keyword_rows palabras_clave df.

(** ** The aggregator, source by source *)

(** The rows that the loop works on for one source: those of the frame
    that the extractor returned, none when it raised or returned
    something else. *)
Definition raw_rows (outcome : res (option (list Listing))) : DataFrame :=
  match outcome with
  | Ok (Some rows) => row_of <$> rows
  | Ok None | Raise _ => []
  end.

(** Line 627 on every canonical column of a record. *)
Definition clean_listing (b : Listing) : Listing :=
  mkListing (clean_text (CStr (titulo b))) (clean_text (CStr (precio b)))
    (clean_text (CStr (m2 b))) (clean_text (CStr (dormitorios b)))
    (clean_text (CStr (banos b))) (clean_text (CStr (descripcion b)))
    (clean_text (CStr (link b))) (clean_text (CStr (imagen_url b))).

Definition clean_row (r : Row) : Row := mkRow (clean_listing (base r)) (extra r).

(** The condition of line 632. *)
Definition keywords_apply (name : string) (args : Args) : bool :=
  negb (bool_decide (arg_palabras_clave args = ""))
  && negb (bool_decide (PyStr.strip (arg_palabras_clave args) = ""))
  && bool_decide (name ∉ ["urbania"; "doomos"; "properati"]).

Definition strict_rows_of (outcome : res (option (list Listing))) (args : Args) : DataFrame :=
  strict_rows (Some (arg_dormitorios args)) (Some (arg_banos args))
    (arg_price_min args) (arg_price_max args) (clean_row <$> raw_rows outcome).

(** The filtered rows of one source, before they are stamped. *)
Definition source_rows (name : string) (outcome : res (option (list Listing)))
    (args : Args) : DataFrame :=
  if keywords_apply name args
  then keyword_result (arg_palabras_clave args) (strict_rows_of outcome args)
  else strict_rows_of outcome args.

(** Lines 639-641 on the rows of a frame. *)
Definition stamp_rows (name stamp : string) (ids : list string) (rows : DataFrame) : DataFrame :=
  zip_with (set_extra "id") (CStr <$> ids)
    ((λ r, set_extra "scraped_at" (CStr stamp) (set_extra "fuente" (CStr name) r)) <$> rows).

(** What one source writes to the log. *)
Definition source_log (name : string) (outcome : res (option (list Listing)))
    (args : Args) : list log_entry :=
  [LogEjecutando name]
  ++ (if outcome is Raise e then [LogErrorCritico name e] else [])
  ++ [LogFiltradoEstricto (length (strict_rows_of outcome args))]
  ++ (if keywords_apply name args
      then [LogFiltradoKeywords (length (source_rows name outcome args))] else []).

Section AggregatorSpec.

Variable now_isoformat : nat → string.
Variable uuid4 : nat → string.

(** The frame that one source contributes, when its filtered rows are not
    empty; [t] and [u] are the clock and the entropy when the source is
    run. *)
Definition source_frame (name : string) (outcome : res (option (list Listing)))
    (args : Args) (t u : nat) : DataFrame :=
  let rows := source_rows name outcome args in
  stamp_rows name (now_isoformat t) (uuid4 <$> seq u (length rows)) rows.

(** The result sets of the registered sources that are not empty, each
    with the name of its source, in registration order. *)
Fixpoint source_sets (args : Args) (scrapers : list (string * extractor)) (t u : nat)
    : list (string * DataFrame) :=
  match scrapers with
  | [] => []
  | (name, func) :: rest =>
      match source_rows name (func args) args with
      | [] => source_sets args rest t u
      | rows =>
          (name, source_frame name (func args) args t u)
            :: source_sets args rest (S t) (u + length rows)
      end
  end.

(** The log of the loop. *)
Definition sources_log (args : Args) (scrapers : list (string * extractor)) : list log_entry :=
  mbind (M := list) (λ '(name, func), source_log name (func args) args) scrapers.

End AggregatorSpec.

(** Line 649-650: the links that are kept. *)
Definition link_kept (r : Row) : Prop :=
  PyStr.startswith "#" (link (base r)) = false ∧ link (base r) ≠ "".

Global Instance link_kept_dec (r : Row) : Decision (link_kept r).
Proof. unfold link_kept. apply _. Defined.


(** The name that a log entry "Ejecutando scraper" carries. *)
Definition ejecutando_name (e : log_entry) : option string :=
  match e with
  | LogEjecutando name => Some name
  | _ => None
  end.

(** ** Notions used to state further properties of the code *)

(** Every character of [s] is in the class [P]. *)
Fixpoint string_forall (P : ascii → bool) (s : string) : bool :=
  match s with
  | EmptyString => true
  | String c s' => P c && string_forall P s'
  end.

(** The number of times the character [c] is in [s]. *)
Fixpoint count_char (c : ascii) (s : string) : nat :=
  match s with
  | EmptyString => O
  | String x s' => (if bool_decide (x = c) then 1 else 0) + count_char c s'
  end.

(** A text that does not begin with whitespace. *)
Definition no_lead (s : string) : Prop :=
  match s with
  | EmptyString => True
  | String c _ => Latin1.isspace c = false
  end.

(** The table of [slugify_zone]. *)
Definition slug_trans : list (ascii * ascii) :=
  Latin1.maketrans (Latin1.lit "áéíóúñü") "aeiounu".

(** What [slugify_zone] makes of a name that is trimmed and lowered. *)
Definition slug_of_key (key : string) : string :=
  Latin1.re_sub_non_slug (Latin1.re_sub_spaces "-" (Latin1.translate slug_trans key)).

(** The characters that separate the parts of a query. *)
Definition delimiter (c : ascii) : Prop :=
  c = "?"%char ∨ c = "&"%char ∨ c = "="%char ∨ c = " "%char.

(** A text without any of them. *)
Definition plain_key (k : string) : Prop := ∀ c, delimiter c → count_char c k = O.

(** The item of a pair in the query of Doomos (line 475). *)
Definition doomos_query_item (p : string * string) : string := p.1 +:+ "=" +:+ quote p.2.

(** The three counts of a record are texts of digits, possibly empty. *)
Definition counts_digits (r : Listing) : Prop :=
  digits_only (dormitorios r) = true ∧ digits_only (banos r) = true
  ∧ digits_only (m2 r) = true.

(** What holds of every record of the Properati extractor. *)
Definition properati_record (r : Listing) : Prop :=
  (imagen_url r = "" ∨ PyStr.startswith "https://img" (imagen_url r) = true) ∧
  descripcion r = titulo r ∧
  PyStr.startswith "/" (link r) = false ∧
  counts_digits r.

(** What holds of every record of the Infocasas and of the Doomos
    extractor. *)
Definition card_record (r : Listing) : Prop :=
  PyStr.startswith "/" (link r) = false ∧
  Latin1.strip (imagen_url r) = imagen_url r ∧
  counts_digits r.

(** ** Sample pages *)

(** An anchor with address [href], a node that holds it under every
    query for an anchor, and a page whose every query finds the nodes of
    [hrefs]. *)
Definition sample_anchor (href : string) : Nestoria.Tag :=
  Nestoria.mkTag (λ attr, if bool_decide (attr = "href") then Some href else None) "Depa".

Definition sample_node (href : string) : Nestoria.Node :=
  Nestoria.mkNode
    (λ css, Ok (if bool_decide (css ∈ ["a[href]"; ".content_result_titulo a"])
                then Some (sample_anchor href) else None))
    "Depa 2 dormitorios 1 bano 80 m2".

Definition sample_soup (hrefs : list string) : Nestoria.Soup :=
  Nestoria.mkSoup (λ _, sample_node <$> hrefs) [] [].

(** A node whose every query raises. *)
Definition broken_node : Nestoria.Node :=
  Nestoria.mkNode (λ _, Raise (RuntimeError "malformed node")) "".

(** The rows of the frame that a computation returns, when it returns a
    frame and not [None]. *)
Definition result_rows_opt (m : M (option loc)) (w : World) : option DataFrame :=
  match m w with
  | (Ok (Some l), w') => heap w' !! l
  | _ => None
  end.

Example parse_precio_soles_ex : parse_precio_con_moneda "S/ 1,200" = (Some "S", Some 1200).
Proof. reflexivity. Qed.

Example parse_precio_usd_ex : parse_precio_con_moneda "$350" = (Some "USD", Some 350).
Proof. reflexivity. Qed.

Example extract_int_ex : _extract_int_from_text (CStr "3 dormitorios") = Some 3.
Proof. reflexivity. Qed.

Example extract_int_none_ex : _extract_int_from_text (CStr "sin datos") = None.
Proof. reflexivity. Qed.

Example slug_ex : build_zona_slug_nestoria " San Isidro " = "san-isidro".
Proof. reflexivity. Qed.

Example slug_exc_ex : build_zona_slug_nestoria "Miraflores" = "lima_miraflores".
Proof. reflexivity. Qed.

Example split_ex : PyStr.split "  con  Piscina y jardin " = ["con"; "Piscina"; "y"; "jardin"].
Proof. reflexivity. Qed.

(* ===================================================================== *)
(** * Facts about Python strings *)
(* ===================================================================== *)

Module PyStrFacts.
Import PyStr.

Lemma app_cons (c : ascii) (s t : string) : String c s +:+ t = String c (s +:+ t).
Proof. reflexivity. Qed.

Lemma app_assoc (a b c : string) : (a +:+ b) +:+ c = a +:+ b +:+ c.
Proof. induction a as [|x a IH]; [done|]. by rewrite !app_cons, IH. Qed.

Lemma startswith_spec (p s : string) :
  startswith p s = true ↔ ∃ t, s = p +:+ t.
Proof.
  revert s. induction p as [|a p IH]; intros s; simpl.
  - split; [eauto|done].
  - destruct s as [|b s].
    + split; [done|]. intros [t Ht]. by rewrite app_cons in Ht.
    + rewrite andb_true_iff, bool_decide_eq_true, IH. split.
      * intros [-> [t ->]]. by exists t.
      * intros [t Ht]. rewrite app_cons in Ht. injection Ht as -> ->. eauto.
Qed.

Lemma str_in_spec (p s : string) :
  str_in p s = true ↔ ∃ a b, s = a +:+ p +:+ b.
Proof.
  induction s as [|c s IH].
  - simpl. rewrite orb_false_r, startswith_spec. split.
    + intros [t Ht]. by exists "", t.
    + intros [a [b Hab]]. destruct a; [by exists b|done].
  - cbn [str_in]. rewrite orb_true_iff, startswith_spec, IH. split.
    + intros [[t Ht]|[a [b Hab]]].
      * by exists "", t.
      * exists (String c a), b. by rewrite app_cons, Hab.
    + intros [[|x a] [b Hab]].
      * left. by exists b.
      * right. rewrite app_cons in Hab. injection Hab as -> ->. eauto.
Qed.

Lemma digit_not_space (c : ascii) : isdigit c = true → isspace c = false.
Proof. destruct c as [[] [] [] [] [] [] [] []]; vm_compute; congruence. Qed.

Lemma digit_not_sign (c : ascii) :
  isdigit c = true → c ≠ "+"%char ∧ c ≠ "-"%char ∧ c ≠ "_"%char.
Proof. destruct c as [[] [] [] [] [] [] [] []]; vm_compute; intros; repeat split; congruence. Qed.

Lemma digits_only_keep (s : string) : digits_only (re_sub_non_digits s) = true.
Proof.
  induction s as [|c s IH]; [done|]. simpl.
  destruct (isdigit c) eqn:Hc; [|done]. simpl. by rewrite Hc.
Qed.

Lemma keep_digits_only (s : string) : digits_only s = true → re_sub_non_digits s = s.
Proof.
  induction s as [|c s IH]; [done|]. simpl. intros [Hc Hs]%andb_true_iff.
  by rewrite Hc, IH.
Qed.

Lemma keep_empty_iff (s : string) : re_sub_non_digits s = "" ↔ has_digit s = false.
Proof.
  induction s as [|c s IH]; [done|]. simpl. destruct (isdigit c); [done|]. by rewrite IH.
Qed.

Lemma int_acc_keep (acc : Z) (s : string) :
  int_acc acc (re_sub_non_digits s) = digits_value_from acc s.
Proof.
  revert acc. induction s as [|c s IH]; intros acc; [done|]. simpl.
  destruct (isdigit c); [|by apply IH]. simpl. apply IH.
Qed.

Lemma lstrip_digits (s : string) : digits_only s = true → lstrip s = s.
Proof.
  destruct s as [|c s]; [done|]. simpl. intros [Hc _]%andb_true_iff.
  by rewrite (digit_not_space c Hc).
Qed.

Lemma rstrip_digits (s : string) : digits_only s = true → rstrip s = s.
Proof.
  induction s as [|c s IH]; [done|]. simpl. intros [Hc Hs]%andb_true_iff.
  rewrite (IH Hs). destruct s; [|done]. by rewrite (digit_not_space c Hc).
Qed.

Lemma strip_digits (s : string) : digits_only s = true → strip s = s.
Proof. intros H. unfold strip. by rewrite (lstrip_digits s H), (rstrip_digits s H). Qed.

Lemma int_body_digits (b : bool) (s : string) :
  digits_only s = true → int_body b s = match s with "" => b | _ => true end.
Proof.
  revert b. induction s as [|c s IH]; intros b; [done|]. simpl.
  intros [Hc Hs]%andb_true_iff. rewrite Hc, (IH _ Hs). by destruct s.
Qed.

(** [int] of a non-empty string of digits never fails, and reads them as
    one number. *)
Lemma py_int_digits (s : string) :
  digits_only s = true → s ≠ "" → py_int s = Some (int_acc 0 s).
Proof.
  intros Hs Hne. unfold py_int. rewrite (strip_digits s Hs).
  destruct s as [|c s]; [done|].
  pose proof Hs as [Hc Hs']%andb_true_iff.
  destruct (digit_not_sign c Hc) as (Hplus & Hminus & _).
  assert (match String c s with
          | String "+"%char r => (1, r)
          | String "-"%char r => (-1, r)
          | _ => (1, String c s)
          end = (1, String c s)) as ->.
  { destruct c as [[] [] [] [] [] [] [] []]; try done. }
  rewrite (int_body_digits _ _ Hs), (keep_digits_only _ Hs).
  f_equal. lia.
Qed.

Lemma lstrip_suffix (s : string) : ∃ a, s = a +:+ lstrip s.
Proof.
  induction s as [|c s [a IH]]; [by exists ""|]. simpl.
  destruct (isspace c).
  - exists (String c a). by rewrite app_cons, <- IH.
  - by exists "".
Qed.

Lemma rstrip_prefix (s : string) : ∃ b, s = rstrip s +:+ b.
Proof.
  induction s as [|c s [b IH]]; [by exists ""|]. simpl.
  destruct (rstrip s) as [|x r] eqn:Hr.
  - destruct (isspace c).
    + by exists (String c s).
    + exists b. by rewrite app_cons, <- IH.
  - exists b. by rewrite app_cons, <- IH.
Qed.

(** What [strip] leaves is a part of the text. *)
Lemma strip_infix (s : string) : ∃ a b, s = a +:+ strip s +:+ b.
Proof.
  destruct (lstrip_suffix s) as [a Ha], (rstrip_prefix (lstrip s)) as [b Hb].
  exists a, b. unfold strip. by rewrite <- Hb.
Qed.

Lemma startswith_strip_in (p s : string) :
  startswith p (strip s) = true → str_in p s = true.
Proof.
  intros [t Ht]%startswith_spec. apply str_in_spec.
  destruct (strip_infix s) as (a & b & Hs).
  exists a, (t +:+ b). by rewrite Hs at 1; rewrite Ht, app_assoc.
Qed.

Lemma lower_app (a b : string) : lower (a +:+ b) = lower a +:+ lower b.
Proof. induction a as [|c a IH]; [done|]. rewrite app_cons. simpl. by rewrite IH, app_cons. Qed.



Lemma isspace_lower_char (c : ascii) : isspace (lower_char c) = isspace c.
Proof. destruct c as [[] [] [] [] [] [] [] []]; by vm_compute. Qed.


Lemma rev_app_lower (a b : string) :
  lower (String.rev_app a b) = String.rev_app (lower a) (lower b).
Proof. revert b. induction a as [|c a IH]; intros b; [done|]. simpl. by rewrite IH. Qed.

Lemma rev_lower (a : string) : lower (String.rev a) = String.rev (lower a).
Proof. apply rev_app_lower. Qed.

Lemma split_go_lower (cur : option string) (s : string) :
  split_go (lower <$> cur) (lower s) = lower <$> split_go cur s.
Proof.
  revert cur. induction s as [|c s IH]; intros cur.
  - simpl. destruct cur as [x|]; simpl; [|done]. by rewrite rev_lower.
  - simpl. rewrite isspace_lower_char. destruct (isspace c).
    + rewrite fmap_app, <- (IH None). f_equal.
      destruct cur as [x|]; simpl; [|done]. by rewrite rev_lower.
    + rewrite <- IH. f_equal. by destruct cur.
Qed.

(** Lowering the keywords before or after splitting them is the same. *)
Lemma split_lower (s : string) : split (lower s) = lower <$> split s.
Proof. apply (split_go_lower None). Qed.

Lemma lstrip_rstrip_empty (s : string) : rstrip (lstrip s) = "" → lstrip s = "".
Proof.
  induction s as [|c s IH]; [done|]. simpl. destruct (isspace c) eqn:Hc; [done|].
  simpl. destruct (rstrip s); [by rewrite Hc|done].
Qed.

Lemma split_go_blank (s : string) : lstrip s = "" → split_go None s = [].
Proof.
  induction s as [|c s IH]; [done|]. simpl. destruct (isspace c); [|done]. by intros ?%IH.
Qed.

(** A blank text has no word. *)
Lemma split_blank (s : string) : strip s = "" → split s = [].
Proof. intros H. by apply split_go_blank, lstrip_rstrip_empty. Qed.

End PyStrFacts.


(* ===================================================================== *)
(** * Price parsing *)
(* ===================================================================== *)

Lemma soles_marker_test (s : string) :
  PyStr.str_in "S/" s || PyStr.startswith "S/" (PyStr.strip s) = PyStr.str_in "S/" s.
Proof.
  pose proof (PyStrFacts.startswith_strip_in "S/" s) as Hstrip.
  destruct (PyStr.str_in "S/" s); [done|].
  destruct (PyStr.startswith "S/" (PyStr.strip s)); [|done]. by rewrite Hstrip.
Qed.

Lemma parse_precio_moneda (s : string) :
  (parse_precio_con_moneda s).1 =
    if PyStr.str_in "S/" s then Some "S"
    else if PyStr.str_in "$" s then Some "USD" else None.
Proof.
  destruct s as [|c s]; [done|]. unfold parse_precio_con_moneda.
  rewrite soles_marker_test. by destruct (PyStr.re_sub_non_digits _).
Qed.

Lemma parse_precio_valor (s : string) :
  (parse_precio_con_moneda s).2 =
    if has_digit s then Some (digits_value s) else None.
Proof.
  destruct s as [|c s]; [done|]. unfold parse_precio_con_moneda.
  generalize (String c s). clear c s. intros t.
  destruct (PyStr.re_sub_non_digits t) as [|d r] eqn:Hnums; cbn [snd].
  - apply PyStrFacts.keep_empty_iff in Hnums. by rewrite Hnums.
  - assert (has_digit t = true) as ->.
    { destruct (has_digit t) eqn:Hd; [done|].
      apply PyStrFacts.keep_empty_iff in Hd. congruence. }
    rewrite <- Hnums.
    rewrite PyStrFacts.py_int_digits.
    + f_equal. apply PyStrFacts.int_acc_keep.
    + apply PyStrFacts.digits_only_keep.
    + congruence.
Qed.


(* ===================================================================== *)
(** * The Nestoria zone slug *)
(* ===================================================================== *)

(** What the function computes, case by case. *)
Lemma build_zona_slug_nestoria_cases (zona : string) :
  let z := PyStr.replace_char " " "-" (PyStr.lower (PyStr.strip zona)) in
  build_zona_slug_nestoria zona =
    if bool_decide (PyStr.strip zona = "") then "lima"
    else if bool_decide (z ∈ EXCEPCIONES) then "lima_" +:+ z else z.
Proof.
  unfold build_zona_slug_nestoria. simpl.
  destruct (bool_decide_reflect (zona = "")) as [->|Hz]; [done|]. simpl.
  case_bool_decide; [done|]. simpl.
  change (PyStr.lower <$> EXCEPCIONES) with EXCEPCIONES.
  repeat case_bool_decide; done.
Qed.

(** C8.  The slug is compared with the exception list after its spaces
    have become hyphens, so the two entries of the list that contain a
    space never match: "la molina" and "la victoria" come back without the
    prefix, while the five one-word entries come back with it. *)
Theorem build_zona_slug_nestoria_two_word_exceptions :
  build_zona_slug_nestoria "la molina" = "la-molina" ∧
  build_zona_slug_nestoria "la victoria" = "la-victoria" ∧
  Forall (λ z, build_zona_slug_nestoria z = "lima_" +:+ z)
    ["miraflores"; "tarapoto"; "magdalena"; "lambayeque"; "ventanilla"].
Proof.
  split; [by vm_compute|]. split; [by vm_compute|].
  repeat (constructor; [by vm_compute|]). constructor.
Qed.

(* ===================================================================== *)
(** * The Nestoria extractor *)
(* ===================================================================== *)

Section NestoriaFacts.
Import Nestoria.

Context (get_page_content : string → option Soup).
Context (re_search_group1 : string → string → option string).



(** A node that is emitted has a link that was not seen before, and has
    passed the early price test. *)
Lemma nestoria_item_emitted (price_min price_max : option Z)
    (seen_links : gset string) (li : Node) (r : Listing) :
  nestoria_item re_search_group1 price_min price_max seen_links li = Ok (Some r) →
  (link r ≠ "") ∧ (link r ∉ seen_links) ∧
  nestoria_price_excluded price_min price_max (precio r) = false.
Proof.
  unfold nestoria_item.
  destruct (first_of (select_one li "a.results__link") (select_one li "a[href]"))
    as [[a_tag|]|] eqn:Ha; simpl; [|done..].
  match goal with
  | |- context [bool_decide (?l = "") || bool_decide (?l ∈ seen_links)] => set (link1 := l)
  end.
  destruct (bool_decide_reflect (link1 = "")) as [|Hne]; [done|].
  destruct (bool_decide_reflect (link1 ∈ seen_links)) as [|Hseen]; [done|]. simpl.
  destruct (first_of (select_one li ".listing__title__text") _) as [title_elem|]; [|done]. simpl.
  destruct (first_of (select_one li ".result__details__price span") _) as [price_elem|]; [|done].
  simpl. set (price_text := match price_elem with Some e => tag_text e | None => "" end).
  destruct (nestoria_price_excluded price_min price_max price_text) eqn:Hprice; [done|].
  destruct (first_of (select_one li ".listing__description") _) as [desc_elem|]; [|done]. simpl.
  destruct (select_one li "img") as [img_tag|]; [|done]. simpl.
  intros [= <-]. by simpl.
Qed.

(** The invariant of the loop: [seen_links] holds exactly the links of
    [results], and these are pairwise distinct. *)
Lemma nestoria_loop_nodup (price_min price_max : option Z) (items : list Node)
    (results : list Listing) (seen_links : gset string) :
  NoDup (link <$> results) →
  (∀ x, x ∈ seen_links ↔ x ∈ link <$> results) →
  NoDup (link <$> nestoria_loop re_search_group1 price_min price_max items results seen_links).
Proof.
  revert results seen_links.
  induction items as [|li rest IH]; intros results seen_links Hnd Hseen; [done|].
  simpl.
  destruct (nestoria_item _ _ _ _ li) as [[r|]|e] eqn:Hitem; [|by apply IH..].
  apply nestoria_item_emitted in Hitem as (_ & Hfresh & _).
  apply IH.
  - rewrite fmap_app. simpl. apply NoDup_app. split; [done|]. split.
    + intros x Hx [->|[]%elem_of_nil]%elem_of_cons. by apply Hfresh, Hseen.
    + apply NoDup_singleton.
  - intros x. rewrite fmap_app, elem_of_union, elem_of_singleton, elem_of_app, Hseen.
    simpl. rewrite list_elem_of_singleton. tauto.
Qed.

(** Records already in [results] stay, in place, when the loop goes on. *)
Lemma nestoria_loop_prefix (price_min price_max : option Z) (items : list Node)
    (results : list Listing) (seen_links : gset string) :
  results `prefix_of`
    nestoria_loop re_search_group1 price_min price_max items results seen_links.
Proof.
  revert results seen_links.
  induction items as [|li rest IH]; intros results seen_links; [done|]. simpl.
  destruct (nestoria_item _ _ _ _ li) as [[r|]|e]; [|by apply IH..].
  etrans; [|apply IH]. by apply prefix_app_r.
Qed.



(** C10.  The links of the records that [scrape_nestoria] returns are
    pairwise distinct: a node is emitted only if its link is not the link
    of a record emitted before it, and an emitted record is never removed
    or moved by the nodes that follow. *)
Theorem scrape_nestoria_links_distinct (price_min price_max : option Z) :
  (∀ zona dormitorios banos,
     match scrape_nestoria get_page_content re_search_group1
             zona dormitorios banos price_min price_max with
     | Ok rows => NoDup (link <$> rows)
     | Raise _ => True
     end) ∧
  (∀ seen_links li r,
     nestoria_item re_search_group1 price_min price_max seen_links li = Ok (Some r) →
     link r ∉ seen_links) ∧
  (∀ items results seen_links,
     results `prefix_of`
       nestoria_loop re_search_group1 price_min price_max items results seen_links).
Proof.
  split; [|split].
  - intros zona dormitorios banos. unfold scrape_nestoria.
    destruct (get_page_content _) as [soup|]; [|by constructor].
    destruct (nestoria_items soup) as [items|e]; [|done]. simpl.
    apply nestoria_loop_nodup; [constructor|]. intros x. simpl.
    rewrite elem_of_nil. set_solver.
  - intros seen_links li r Hitem. by apply nestoria_item_emitted in Hitem as (_ & ? & _).
  - intros. apply nestoria_loop_prefix.
Qed.

End NestoriaFacts.

(* ===================================================================== *)
(** * The object store *)
(* ===================================================================== *)

Lemma bind_ok {A B} (m : M A) (f : A → M B) (w w1 : World) (a : A) :
  m w = (Ok a, w1) → (m ≫= f) w = f a w1.
Proof. unfold mbind, M_bind. by intros ->. Qed.

Lemma bind_raise {A B} (m : M A) (f : A → M B) (w w1 : World) (e : exn) :
  m w = (Raise e, w1) → (m ≫= f) w = (Raise e, w1).
Proof. unfold mbind, M_bind. by intros ->. Qed.

Lemma heap_lookup_old (h ext : list DataFrame) (l : loc) (rows : DataFrame) :
  h !! l = Some rows → (h ++ ext) !! l = Some rows.
Proof. intros H. by apply lookup_app_l_Some. Qed.

Lemma heap_lookup_new (h ext : list DataFrame) (rows : DataFrame) :
  (h ++ rows :: ext) !! length h = Some rows.
Proof. by apply list_lookup_middle. Qed.

Lemma heap_lookup_new2 (h ext : list DataFrame) (r0 rows : DataFrame) :
  (h ++ r0 :: rows :: ext) !! S (length h) = Some rows.
Proof.
  change (h ++ r0 :: rows :: ext) with (h ++ [r0] ++ rows :: ext).
  rewrite (assoc_L (++)). apply list_lookup_middle. rewrite length_app. simpl. lia.
Qed.

Lemma heap_insert_new (h ext : list DataFrame) (rows rows' : DataFrame) :
  <[length h := rows']> (h ++ rows :: ext) = h ++ rows' :: ext.
Proof. rewrite insert_app_r_alt by lia. by rewrite Nat.sub_diag. Qed.

Lemma heap_insert_new2 (h ext : list DataFrame) (r0 rows rows' : DataFrame) :
  <[S (length h) := rows']> (h ++ r0 :: rows :: ext) = h ++ r0 :: rows' :: ext.
Proof.
  rewrite insert_app_r_alt by lia.
  by replace (S (length h) - length h)%nat with 1%nat by lia.
Qed.

Lemma read_run (l : loc) (rows : DataFrame) (w : World) :
  heap w !! l = Some rows → read l w = (Ok rows, w).
Proof. unfold read. by intros ->. Qed.

Lemma copy_run (l : loc) (rows : DataFrame) (w : World) :
  heap w !! l = Some rows →
  copy l w = (Ok (length (heap w)), with_heap (heap w ++ [rows]) w).
Proof. intros H. unfold copy. by rewrite (bind_ok _ _ _ _ _ (read_run _ _ _ H)). Qed.

Lemma len_run (l : loc) (rows : DataFrame) (w : World) :
  heap w !! l = Some rows → len l w = (Ok (length rows), w).
Proof. intros H. unfold len. by rewrite (bind_ok _ _ _ _ _ (read_run _ _ _ H)). Qed.

Lemma mapM_total {A B} (f : A → option B) (g : A → B) (l : list A) :
  (∀ x, x ∈ l → f x = Some (g x)) → mapM f l = Some (g <$> l).
Proof.
  induction l as [|x l IH]; intros H; [done|]. simpl.
  rewrite (H x) by left. simpl. rewrite IH; [done|]. intros y Hy. apply H. by right.
Qed.

Lemma column_run (l : loc) (col : string) (rows : DataFrame) (g : Row → cell) (w : World) :
  heap w !! l = Some rows →
  (∀ r, r ∈ rows → getitem col r = Some (g r)) →
  column l col w = (Ok (g <$> rows), w).
Proof.
  intros H Hg. unfold column. rewrite (bind_ok _ _ _ _ _ (read_run _ _ _ H)).
  by rewrite (mapM_total _ g rows Hg).
Qed.

Lemma zip_with_fmap_diag {A B C} (f : B → A → C) (g : A → B) (l : list A) :
  zip_with f (g <$> l) l = (λ x, f (g x) x) <$> l.
Proof. induction l as [|x l IH]; [done|]. csimpl. by rewrite IH. Qed.

Lemma set_column_run (l : loc) (col : string) (rows : DataFrame) (g : Row → cell) (w : World) :
  heap w !! l = Some rows →
  set_column l col (g <$> rows) w =
    (Ok (), with_heap (<[l := (λ r, set_extra col (g r) r) <$> rows]> (heap w)) w).
Proof.
  intros H. unfold set_column. rewrite (bind_ok _ _ _ _ _ (read_run _ _ _ H)).
  unfold write. by rewrite zip_with_fmap_diag.
Qed.

Lemma mask_select_fmap (f : Row → bool) (rows : DataFrame) :
  mask_select (f <$> rows) rows = filter (λ r, f r = true) rows.
Proof.
  unfold mask_select. induction rows as [|r rows IH]; [done|].
  csimpl. rewrite !filter_cons. simpl.
  destruct (f r) eqn:Hf; simpl.
  - f_equal. apply IH.
  - apply IH.
Qed.

Lemma select_rows_run (l : loc) (rows : DataFrame) (f : Row → bool) (w : World) :
  heap w !! l = Some rows →
  select_rows l (f <$> rows) w =
    (Ok (length (heap w)),
     with_heap (heap w ++ [filter (λ r, f r = true) rows]) w).
Proof.
  intros H. unfold select_rows. rewrite (bind_ok _ _ _ _ _ (read_run _ _ _ H)).
  unfold new_frame. by rewrite mask_select_fmap.
Qed.

Lemma drop_columns_run (l : loc) (cols : list string) (rows : DataFrame) (w : World) :
  heap w !! l = Some rows →
  drop_columns l cols w = (Ok (), with_heap (<[l := drop_extra cols <$> rows]> (heap w)) w).
Proof. intros H. unfold drop_columns. by rewrite (bind_ok _ _ _ _ _ (read_run _ _ _ H)). Qed.

Lemma mask_and_fmap {A} (f g : A → bool) (l : list A) :
  mask_and (f <$> l) (g <$> l) = (λ x, f x && g x) <$> l.
Proof. unfold mask_and. induction l as [|x l IH]; [done|]. csimpl. by rewrite IH. Qed.

Lemma replicate_true_fmap {A} (l : list A) :
  replicate (length l) true = (λ _, true) <$> l.
Proof. induction l as [|x l IH]; [done|]. csimpl. by rewrite IH. Qed.

(* ===================================================================== *)
(** * The strict filter *)
(* ===================================================================== *)

Lemma count_cell_test (o : option Z) (n : Z) :
  (if cell_of_int o is CNull then false else true)
  && (if cell_of_int o is CInt m then m =? n else false)
  = bool_decide (o = Some n).
Proof.
  destruct o as [m|]; simpl; [|done].
  destruct (Z.eqb_spec m n) as [->|Hne].
  - by rewrite bool_decide_eq_true_2.
  - rewrite bool_decide_eq_false_2; [done|]. congruence.
Qed.

Lemma narrow_by_count_run (dfc : loc) (helper : string) (req : option string)
    (rows : DataFrame) (field : Row → string) (m : Row → bool) (w : World) :
  heap w !! dfc = Some rows →
  (∀ r, r ∈ rows →
     getitem helper r = Some (cell_of_int (_extract_int_from_text (CStr (field r))))) →
  narrow_by_count dfc helper req (m <$> rows) w =
    (Ok ((λ r, m r && count_keep req (field r)) <$> rows), w).
Proof.
  intros Hdfc Hcol. unfold narrow_by_count, count_keep.
  destruct (req_given req).
  - unfold try_except, int_. destruct (PyStr.py_int (default "" req)) as [n|].
    + rewrite (bind_ok _ _ w w n) by done.
      rewrite (bind_ok _ _ _ _ _ (column_run _ _ _ _ _ Hdfc Hcol)).
      rewrite (bind_ok _ _ _ _ _ (column_run _ _ _ _ _ Hdfc Hcol)).
      unfold notnull, series_eq. rewrite <- !list_fmap_compose, !mask_and_fmap.
      do 2 f_equal. apply list_fmap_ext. intros i r _. simpl.
      by rewrite count_cell_test.
    + simpl. unfold mret, M_ret. do 2 f_equal. apply list_fmap_ext. intros i r _.
      by rewrite andb_true_r.
  - simpl. unfold mret, M_ret. do 2 f_equal. apply list_fmap_ext. intros i r _.
    by rewrite andb_true_r.
Qed.

Lemma price_cell_test (o : option Z) (lo hi : Z) :
  (if cell_of_int o is CNull then false else true)
  && ((if cell_of_int o is CInt m then lo <=? m else false)
      && (if cell_of_int o is CInt m then m <=? hi else false))
  = match o with Some v => (lo <=? v) && (v <=? hi) | None => false end.
Proof. by destruct o. Qed.

Lemma getitem_helpers (r : Row) :
  getitem "_precio_soles" (with_helpers r)
    = Some (cell_of_int (_parse_price_soles (CStr (precio (base r))))) ∧
  getitem "_dorm_num" (with_helpers r)
    = Some (cell_of_int (_extract_int_from_text (CStr (dormitorios (base r))))) ∧
  getitem "_banos_num" (with_helpers r)
    = Some (cell_of_int (_extract_int_from_text (CStr (banos (base r))))).
Proof.
  unfold getitem, with_helpers, set_extra. simpl.
  change (get_field "_precio_soles" (base r)) with (@None string).
  change (get_field "_dorm_num" (base r)) with (@None string).
  change (get_field "_banos_num" (base r)) with (@None string).
  repeat split.
  - rewrite lookup_insert_ne by done. rewrite lookup_insert_ne by done.
    by rewrite lookup_insert_eq.
  - rewrite lookup_insert_ne by done. by rewrite lookup_insert_eq.
  - by rewrite lookup_insert_eq.
Qed.

Lemma getitem_precio_soles (r : Row) :
  getitem "_precio_soles" (with_helpers r)
    = Some (cell_of_int (_parse_price_soles (CStr (precio (base (with_helpers r)))))).
Proof. exact (proj1 (getitem_helpers r)). Qed.

Lemma getitem_dorm_num (r : Row) :
  getitem "_dorm_num" (with_helpers r)
    = Some (cell_of_int (_extract_int_from_text (CStr (dormitorios (base (with_helpers r)))))).
Proof. exact (proj1 (proj2 (getitem_helpers r))). Qed.

Lemma getitem_banos_num (r : Row) :
  getitem "_banos_num" (with_helpers r)
    = Some (cell_of_int (_extract_int_from_text (CStr (banos (base (with_helpers r)))))).
Proof. exact (proj2 (proj2 (getitem_helpers r))). Qed.

Lemma drop_with_helpers (r : Row) :
  drop_extra helper_columns (with_helpers r) = drop_extra helper_columns r.
Proof.
  unfold drop_extra, with_helpers, set_extra, helper_columns. simpl. f_equal.
  apply map_eq. intros k.
  destruct (decide (k = "_precio_soles")) as [->|?];
    [by rewrite !lookup_delete_eq|rewrite !(lookup_delete_ne _ "_precio_soles") by done].
  destruct (decide (k = "_dorm_num")) as [->|?];
    [by rewrite !lookup_delete_eq|rewrite !(lookup_delete_ne _ "_dorm_num") by done].
  destruct (decide (k = "_banos_num")) as [->|?];
    [by rewrite !lookup_delete_eq|rewrite !(lookup_delete_ne _ "_banos_num") by done].
  by rewrite !lookup_insert_ne by done.
Qed.

Lemma filter_fmap_stable {A} (f : A → A) (k : A → bool) (l : list A) :
  (∀ x, k (f x) = k x) →
  filter (λ x, k x = true) (f <$> l) = f <$> filter (λ x, k x = true) l.
Proof.
  intros Hk. induction l as [|x l IH]; [done|]. csimpl. rewrite !filter_cons, Hk.
  destruct (decide (k x = true)); csimpl; by rewrite IH.
Qed.

Lemma with_heap_twice (h1 h2 : list DataFrame) (w : World) :
  with_heap h2 (with_heap h1 w) = with_heap h2 w.
Proof. done. Qed.

(** The lookup of a location in a store that grew by appending. *)
Tactic Notation "heap_lookup" :=
  cbn [heap with_heap];
  first [ eassumption
        | apply heap_lookup_new
        | apply heap_lookup_new2
        | apply heap_lookup_old; eassumption ].

(** One step of a computation: the first action of a bind is run by the
    given lemma. *)
Tactic Notation "mstep" uconstr(lem) :=
  erewrite bind_ok; [| eapply lem; try heap_lookup ].

(** What [_filter_df_strict] does to the store and what it returns, for a
    frame at [l] that holds [df]: an empty frame gives a new empty frame;
    otherwise the copy [dfc] with its helper columns and the filtered
    frame are the two new objects, and the latter is returned. *)
Lemma filter_df_strict_run (l : loc) (df : DataFrame)
    (dormitorios_req banos_req : option string) (price_min price_max : option Z) (w : World) :
  heap w !! l = Some df →
  _filter_df_strict (Some l) dormitorios_req banos_req price_min price_max w =
    match df with
    | [] => (Ok (length (heap w)), with_heap (heap w ++ [[]]) w)
    | _ =>
        (Ok (S (length (heap w))),
         with_heap (heap w ++ [with_helpers <$> df;
                               strict_rows dormitorios_req banos_req price_min price_max df]) w)
    end.
Proof.
  intros Hl. unfold _filter_df_strict.
  mstep read_run.
  destruct df as [|r0 df0]; [done|]. set (df := r0 :: df0) in *.
  mstep copy_run.
  set (h := heap w).
  (* the three helper columns *)
  mstep (column_run (length h) "precio" df (λ r, CStr (precio (base r)))).
  2:{ done. }
  rewrite <- list_fmap_compose.
  mstep set_column_run.
  cbn [heap with_heap]. rewrite heap_insert_new.
  match goal with |- context [h ++ [?rows]] => set (df1 := rows) end.
  assert (df1 = (λ r, set_extra "_precio_soles"
                        (cell_of_int (_parse_price_soles (CStr (precio (base r))))) r) <$> df)
    as Hdf1 by done.
  mstep (column_run (length h) "dormitorios" df1 (λ r, CStr (dormitorios (base r)))).
  2:{ done. }
  rewrite <- list_fmap_compose.
  mstep set_column_run.
  cbn [heap with_heap logged clock entropy]. rewrite heap_insert_new.
  match goal with |- context [h ++ [?rows]] => set (df2 := rows) end.
  mstep (column_run (length h) "baños" df2 (λ r, CStr (banos (base r)))).
  2:{ done. }
  rewrite <- list_fmap_compose.
  mstep set_column_run.
  cbn [heap with_heap logged clock entropy]. rewrite heap_insert_new.
  match goal with |- context [h ++ [?rows]] => set (df3 := rows) end.
  assert (df3 = with_helpers <$> df) as ->.
  { subst df3 df2. rewrite Hdf1, <- !list_fmap_compose. done. }
  set (dfc := with_helpers <$> df).
  rewrite !with_heap_twice. set (w1 := with_heap (h ++ [dfc]) w).
  assert (heap w1 !! length h = Some dfc) as Hdfc by apply heap_lookup_new.
  mstep len_run.
  rewrite replicate_true_fmap.
  (* the mask *)
  mstep (narrow_by_count_run _ "_dorm_num" _ dfc (λ r, dormitorios (base r))).
  2:{ intros r [r' [-> _]]%list_elem_of_fmap. apply getitem_dorm_num. }
  mstep (narrow_by_count_run _ "_banos_num" _ dfc (λ r, banos (base r))).
  2:{ intros r [r' [-> _]]%list_elem_of_fmap. apply getitem_banos_num. }
  set (keep := λ r : Row,
    strict_keep dormitorios_req banos_req price_min price_max (base r)).
  assert (∀ r, r ∈ dfc → getitem "_precio_soles" r
            = Some (cell_of_int (_parse_price_soles (CStr (precio (base r)))))) as Hprecio.
  { intros r [r' [-> _]]%list_elem_of_fmap. apply getitem_precio_soles. }
  erewrite (bind_ok _ _ w1 w1 (keep <$> dfc)).
  2:{ unfold keep, strict_keep, price_keep.
    destruct (bool_decide (is_Some price_min) || bool_decide (is_Some price_max)).
    - cbv zeta.
      mstep (column_run _ _ _ _ _ Hdfc Hprecio).
      mstep (column_run _ _ _ _ _ Hdfc Hprecio).
      mstep (column_run _ _ _ _ _ Hdfc Hprecio).
      unfold notnull, series_ge, series_le.
      rewrite <- !list_fmap_compose, !mask_and_fmap.
      unfold mret, M_ret. do 2 f_equal. apply list_fmap_ext. intros i r _. simpl.
      rewrite <- !andb_assoc. do 2 f_equal. apply price_cell_test.
    - unfold mret, M_ret. do 2 f_equal. apply list_fmap_ext. intros i r _. simpl.
      by rewrite andb_true_r. }
  mstep select_rows_run.
  cbn [heap with_heap logged clock entropy w1].
  rewrite <- (assoc_L (++)). cbn [app].
  rewrite length_app. cbn [length].
  replace (length h + 1)%nat with (S (length h)) by lia.
  mstep drop_columns_run.
  cbn [heap with_heap logged clock entropy].
  rewrite heap_insert_new2. unfold mret, M_ret, w1. rewrite with_heap_twice.
  assert (drop_extra ["_precio_soles"; "_dorm_num"; "_banos_num"]
            <$> filter (λ r, keep r = true) dfc
          = strict_rows dormitorios_req banos_req price_min price_max df) as ->; [|done].
  unfold strict_rows, dfc. rewrite (filter_fmap_stable with_helpers keep) by done.
  rewrite <- list_fmap_compose.
  apply list_fmap_ext. intros i r _. apply drop_with_helpers.
Qed.





Lemma new_frame_then {A} (df : DataFrame) (f : loc → M A) (w : World) :
  (l ← new_frame df; f l) w = f (length (heap w)) (with_heap (heap w ++ [df]) w).
Proof. done. Qed.

Lemma filter_df_strict_fresh (df : DataFrame)
    (dormitorios_req banos_req : option string) (price_min price_max : option Z) (w : World) :
  (l ← new_frame df; _filter_df_strict (Some l) dormitorios_req banos_req price_min price_max) w =
    match df with
    | [] => (Ok (S (length (heap w))), with_heap (heap w ++ [[]; []]) w)
    | _ =>
        (Ok (S (S (length (heap w)))),
         with_heap (heap w ++ [df; with_helpers <$> df;
                               strict_rows dormitorios_req banos_req price_min price_max df]) w)
    end.
Proof.
  rewrite new_frame_then.
  rewrite (filter_df_strict_run _ df) by apply heap_lookup_new.
  cbn [heap with_heap]. rewrite length_app. cbn [length].
  replace (length (heap w) + 1)%nat with (S (length (heap w))) by lia.
  rewrite <- !(assoc_L (++)). by destruct df.
Qed.

Lemma heap_lookup_new3 (h ext : list DataFrame) (r0 r1 rows : DataFrame) :
  (h ++ r0 :: r1 :: rows :: ext) !! S (S (length h)) = Some rows.
Proof.
  change (h ++ r0 :: r1 :: rows :: ext) with (h ++ [r0; r1] ++ rows :: ext).
  rewrite (assoc_L (++)). apply list_lookup_middle. rewrite length_app. simpl. lia.
Qed.

Lemma result_rows_strict (df : DataFrame)
    (dormitorios_req banos_req : option string) (price_min price_max : option Z) (w : World) :
  result_rows (l ← new_frame df;
               _filter_df_strict (Some l) dormitorios_req banos_req price_min price_max) w
  = Some (strict_rows dormitorios_req banos_req price_min price_max df).
Proof.
  unfold result_rows. rewrite filter_df_strict_fresh. destruct df as [|r df].
  - cbn [heap with_heap]. apply heap_lookup_new2.
  - cbn [heap with_heap]. apply heap_lookup_new3.
Qed.


(** The example of the specification: bedrooms "1", "2", "2", "x" and the
    request "2". *)
Example filter_df_strict_bedrooms :
  result_rows (l ← new_frame (row_of ∘ sample_listing "S/ 900" <$> ["1"; "2"; "2"; "x"]);
               _filter_df_strict (Some l) (Some "2") (Some "0") None None) empty_world
  = Some (row_of ∘ sample_listing "S/ 900" <$> ["2"; "2"]).
Proof. by vm_compute. Qed.




(* ===================================================================== *)
(** * The keyword filter *)
(* ===================================================================== *)

Lemma zip_with_fmap_both {A B C D} (f : B → C → D) (g : A → B) (h : A → C) (l : list A) :
  zip_with f (g <$> l) (h <$> l) = (λ x, f (g x) (h x)) <$> l.
Proof. induction l as [|x l IH]; [done|]. csimpl. by rewrite IH. Qed.

Lemma filter_all {A} (P : A → Prop) `{∀ x, Decision (P x)} (l : list A) :
  (∀ x, P x) → filter P l = l.
Proof.
  intros HP. induction l as [|x l IH]; [done|].
  rewrite filter_cons_True by done. by rewrite IH.
Qed.

Lemma with_heap_same (w : World) : with_heap (heap w) w = w.
Proof. by destruct w. Qed.

Lemma getitem_texto (r : Row) :
  getitem "texto_completo" (with_texto r)
  = Some (CStr (PyStr.lower (texto_of (base (with_texto r))))).
Proof.
  unfold getitem, with_texto, set_extra. simpl.
  change (get_field "texto_completo" (base r)) with (@None string).
  by rewrite lookup_insert_eq.
Qed.

Lemma drop_with_texto (r : Row) :
  drop_extra ["texto_completo"] (with_texto r) = drop_extra ["texto_completo"] r.
Proof.
  unfold drop_extra, with_texto, set_extra. simpl. f_equal. apply delete_insert_eq.
Qed.

(** The loop over the keywords: each keyword makes a new, narrower frame;
    the frames made before are left as they are. *)
Lemma keep_containing_run (texto : Row → string) (palabras : list string) :
  ∀ (l : loc) (rows : DataFrame) (w : World),
    heap w !! l = Some rows →
    (∀ r, r ∈ rows → getitem "texto_completo" r = Some (CStr (texto r))) →
    ∃ l' h',
      keep_containing l palabras w = (Ok l', with_heap (heap w ++ h') w) ∧
      (heap w ++ h') !! l' =
        Some (filter (λ r, forallb (λ p, contains_nocase p (texto r)) palabras = true) rows) ∧
      (l ≤ l')%nat.
Proof.
  induction palabras as [|p rest IH]; intros l rows w Hl Hcol.
  - exists l, []. rewrite app_nil_r, with_heap_same. split; [done|]. split; [|done].
    rewrite Hl. f_equal. symmetry. by apply filter_all.
  - cbn [keep_containing].
    mstep (column_run l "texto_completo" rows (λ r, CStr (texto r))).
    unfold str_contains. rewrite <- list_fmap_compose.
    mstep select_rows_run.
    set (rows' := filter _ rows).
    destruct (IH (length (heap w)) rows' (with_heap (heap w ++ [rows']) w))
      as (l' & h' & Hrun & Hl' & Hle).
    { apply heap_lookup_new. }
    { intros r [_ Hr]%list_elem_of_filter. by apply Hcol. }
    exists l', (rows' :: h'). rewrite Hrun. cbn [heap with_heap] in *.
    rewrite with_heap_twice, <- (assoc_L (++)) in *. cbn [app] in *.
    split; [done|]. split.
    + rewrite Hl'. f_equal. unfold rows'. rewrite list_filter_filter.
      apply list_filter_iff. intros r. simpl. rewrite andb_true_iff. tauto.
    + apply lookup_lt_Some in Hl. lia.
Qed.

Lemma texto_column (df : DataFrame) :
  series_cat (series_cat_const
    (series_cat (series_cat_const
      (series_cat (series_cat_const
        (series_cat (series_cat_const
           (py_str <$> ((λ r, CStr (titulo (base r))) <$> df)) " ")
           (py_str <$> ((λ r, CStr (descripcion (base r))) <$> df))) " ")
        (py_str <$> ((λ r, CStr (m2 (base r))) <$> df))) " ")
      (py_str <$> ((λ r, CStr (dormitorios (base r))) <$> df))) " ")
    (py_str <$> ((λ r, CStr (banos (base r))) <$> df))
  = (λ r, texto_of (base r)) <$> df.
Proof.
  unfold series_cat, series_cat_const.
  rewrite <- !list_fmap_compose.
  repeat (rewrite zip_with_fmap_both; rewrite <- ?list_fmap_compose).
  done.
Qed.

(** What [_filter_by_keywords] does to the store and what it returns, for
    a frame at [l] that holds [df]: with nothing to filter the frame
    itself is returned and the store is left as it is; otherwise the
    result is a new object, and no object that existed is changed. *)
Lemma filter_by_keywords_run (l : loc) (df : DataFrame) (palabras_clave : string) (w : World) :
  heap w !! l = Some df →
  if (if df is [] then true else false) || bool_decide (palabras_clave = "")
     || bool_decide (PyStr.strip palabras_clave = "")
  then _filter_by_keywords (Some l) palabras_clave w = (Ok (Some l), w)
  else ∃ l' h',
    _filter_by_keywords (Some l) palabras_clave w
      = (Ok (Some l'), with_heap (heap w ++ h') w) ∧
    (heap w ++ h') !! l' = Some (keyword_rows palabras_clave df) ∧
    (length (heap w) ≤ l')%nat.
Proof.
  intros Hl. unfold _filter_by_keywords.
  destruct ((if df is [] then true else false) || bool_decide (palabras_clave = "")
            || bool_decide (PyStr.strip palabras_clave = "")) eqn:Hblank.
  { mstep read_run. by rewrite Hblank. }
  mstep read_run. rewrite Hblank.
  mstep copy_run.
  set (h := heap w).
  mstep (column_run (length h) "titulo" df (λ r, CStr (titulo (base r)))). 2:{ done. }
  mstep (column_run (length h) "descripcion" df (λ r, CStr (descripcion (base r)))). 2:{ done. }
  mstep (column_run (length h) "m2" df (λ r, CStr (m2 (base r)))). 2:{ done. }
  mstep (column_run (length h) "dormitorios" df (λ r, CStr (dormitorios (base r)))). 2:{ done. }
  mstep (column_run (length h) "baños" df (λ r, CStr (banos (base r)))). 2:{ done. }
  rewrite texto_column, <- list_fmap_compose.
  mstep set_column_run.
  cbn [heap with_heap]. rewrite heap_insert_new, with_heap_twice.
  set (dfc := (λ r, set_extra "texto_completo" _ r) <$> df).
  assert (dfc = with_texto <$> df) as -> by done.
  set (palabras := PyStr.split (PyStr.lower palabras_clave)).
  destruct (keep_containing_run (λ r, PyStr.lower (texto_of (base r))) palabras
              (length h) (with_texto <$> df) (with_heap (h ++ [with_texto <$> df]) w))
    as (l' & h' & Hrun & Hl' & Hle).
  { apply heap_lookup_new. }
  { intros r [r' [-> _]]%list_elem_of_fmap. apply getitem_texto. }
  cbn [heap with_heap] in Hrun, Hl'. rewrite with_heap_twice in Hrun.
  rewrite <- (assoc_L (++)) in Hrun, Hl'. cbn [app] in Hrun, Hl'.
  rewrite (bind_ok _ _ _ _ _ Hrun).
  mstep drop_columns_run.
  cbn [heap with_heap]. rewrite with_heap_twice.
  rewrite insert_app_r_alt by done.
  exists l', (<[(l' - length h)%nat := drop_extra ["texto_completo"] <$>
              filter (λ r, forallb (λ p, contains_nocase p (PyStr.lower (texto_of (base r))))
                             palabras = true) (with_texto <$> df)]> ((with_texto <$> df) :: h')).
  split; [done|]. split; [|done].
  rewrite lookup_app_r by done. rewrite list_lookup_insert_eq.
  - f_equal. unfold keyword_rows.
    rewrite (filter_fmap_stable with_texto (λ r, kw_keep palabras (base r))) by done.
    rewrite <- list_fmap_compose. apply list_fmap_ext. intros i r _. apply drop_with_texto.
  - rewrite lookup_app_r in Hl' by done. by apply lookup_lt_Some in Hl'.
Qed.





Lemma blank_test (palabras_clave : string) :
  bool_decide (palabras_clave = "") || bool_decide (PyStr.strip palabras_clave = "")
  = bool_decide (PyStr.strip palabras_clave = "").
Proof.
  destruct (bool_decide_reflect (palabras_clave = "")) as [->|?]; [|done].
  by rewrite bool_decide_eq_true_2.
Qed.


(* ===================================================================== *)
(** * Idempotence of the filters *)
(* ===================================================================== *)

Lemma drop_extra_idem (cols : list string) (r : Row) :
  drop_extra cols (drop_extra cols r) = drop_extra cols r.
Proof.
  unfold drop_extra. simpl. f_equal. apply map_eq. intros k.
  induction cols as [|c cols IH]; [done|]. simpl.
  destruct (decide (c = k)) as [->|Hne].
  - by rewrite !lookup_delete_eq.
  - rewrite !(lookup_delete_ne _ c k) by done.
    rewrite <- IH. clear IH. generalize (foldr delete (extra r) cols). intros m.
    induction cols as [|c' cols IH]; simpl.
    + by rewrite lookup_delete_ne.
    + destruct (decide (c' = k)) as [->|Hne'].
      * by rewrite !lookup_delete_eq.
      * rewrite !(lookup_delete_ne _ c' k) by done. apply IH.
Qed.




(** The strict filter returns an object that holds the filtered rows, and
    the objects that existed are left as they were. *)
Lemma filter_df_strict_post (l : loc) (df : DataFrame)
    (dormitorios_req banos_req : option string) (price_min price_max : option Z) (w : World) :
  heap w !! l = Some df →
  ∃ l' h',
    _filter_df_strict (Some l) dormitorios_req banos_req price_min price_max w
      = (Ok l', with_heap (heap w ++ h') w) ∧
    (heap w ++ h') !! l'
      = Some (strict_rows dormitorios_req banos_req price_min price_max df).
Proof.
  intros Hl. rewrite (filter_df_strict_run l df) by done. destruct df as [|r df].
  - eexists _, _. split; [done|]. apply heap_lookup_new.
  - eexists _, _. split; [done|]. apply heap_lookup_new2.
Qed.

(** The same for the keyword filter. *)
Lemma filter_by_keywords_post (l : loc) (df : DataFrame) (palabras_clave : string) (w : World) :
  heap w !! l = Some df →
  ∃ l' h',
    _filter_by_keywords (Some l) palabras_clave w
      = (Ok (Some l'), with_heap (heap w ++ h') w) ∧
    (heap w ++ h') !! l' = Some (keyword_result palabras_clave df).
Proof.
  intros Hl. pose proof (filter_by_keywords_run l df palabras_clave w Hl) as Hrun.
  rewrite <- orb_assoc, blank_test in Hrun. unfold keyword_result.
  destruct ((if df is [] then true else false)
            || bool_decide (PyStr.strip palabras_clave = "")) eqn:Hstop.
  - exists l, []. rewrite app_nil_r, with_heap_same. split; [done|]. rewrite Hl. f_equal.
    destruct (bool_decide (PyStr.strip palabras_clave = "")); [done|]. by destruct df.
  - apply orb_false_iff in Hstop as [_ Hnb]. rewrite Hnb.
    destruct Hrun as (l' & h' & Hrun & Hl' & _). by exists l', h'.
Qed.



(* ===================================================================== *)
(** * The aggregator *)
(* ===================================================================== *)

Lemma set_column_run_gen (l : loc) (col : string) (rows : DataFrame)
    (values : list cell) (w : World) :
  heap w !! l = Some rows →
  set_column l col values w =
    (Ok (), with_heap (<[l := zip_with (set_extra col) values rows]> (heap w)) w).
Proof. intros H. unfold set_column. by rewrite (bind_ok _ _ _ _ _ (read_run _ _ _ H)). Qed.

Lemma replicate_fmap_const {A B} (v : B) (l : list A) :
  replicate (length l) v = (λ _, v) <$> l.
Proof. induction l as [|x l IH]; [done|]. csimpl. by rewrite IH. Qed.

Lemma set_text_column_run (l : loc) (col : string) (rows : DataFrame)
    (g : Row → string) (w : World) :
  heap w !! l = Some rows →
  set_text_column l col (g <$> rows) w =
    (Ok (), with_heap (<[l := (λ r, set_text col (g r) r) <$> rows]> (heap w)) w).
Proof.
  intros H. unfold set_text_column. rewrite (bind_ok _ _ _ _ _ (read_run _ _ _ H)).
  unfold write. by rewrite zip_with_fmap_diag.
Qed.

(** One canonical column is cleaned in place. *)
Lemma clean_column_step {A} (h : list DataFrame) (col : string) (proj : Listing → string)
    (rows : DataFrame) (w : World) (k : unit → M A) :
  (∀ b, get_field col b = Some (proj b)) →
  (c ← column (length h) col;
   set_text_column (length h) col (clean_text <$> c) ≫= k) (with_heap (h ++ [rows]) w) =
    k () (with_heap (h ++ [(λ r, set_text col (clean_text (CStr (proj (base r)))) r)
                             <$> rows]) w).
Proof.
  intros Hcol.
  mstep (column_run (length h) col rows (λ r, CStr (proj (base r)))).
  2:{ intros r _. unfold getitem. by rewrite Hcol. }
  rewrite <- list_fmap_compose.
  mstep set_text_column_run.
  cbn [heap with_heap]. by rewrite heap_insert_new, with_heap_twice.
Qed.

Lemma clean_columns_run (h : list DataFrame) (rows : DataFrame) (w : World) :
  clean_columns (length h) required_columns (with_heap (h ++ [rows]) w) =
    (Ok (), with_heap (h ++ [clean_row <$> rows]) w).
Proof.
  unfold required_columns. cbn [clean_columns].
  rewrite (clean_column_step h "titulo" titulo) by done.
  rewrite (clean_column_step h "precio" precio) by done.
  rewrite (clean_column_step h "m2" m2) by done.
  rewrite (clean_column_step h "dormitorios" dormitorios) by done.
  rewrite (clean_column_step h "baños" banos) by done.
  rewrite (clean_column_step h "descripcion" descripcion) by done.
  rewrite (clean_column_step h "link" link) by done.
  rewrite (clean_column_step h "imagen_url" imagen_url) by done.
  rewrite <- !list_fmap_compose. by unfold mret, M_ret.
Qed.

Section AggregatorFacts.

Context (now_isoformat : nat → string) (uuid4 : nat → string).

Lemma fresh_ids_run (n : nat) (w : World) :
  fresh_ids uuid4 n w =
    (Ok (uuid4 <$> seq (entropy w) n),
     mkWorld (heap w) (logged w) (clock w) (entropy w + n)).
Proof.
  revert w. induction n as [|n IH]; intros w.
  - simpl. unfold mret, M_ret. rewrite Nat.add_0_r. by destruct w.
  - cbn [fresh_ids]. unfold mbind, M_bind, uuid_uuid4. rewrite IH. cbn.
    unfold mret, M_ret. do 3 f_equal. lia.
Qed.

(** Lines 611-618: after the call, [df] is a new object that holds the
    rows of the returned frame, or no row. *)
Lemma obtain_frame_run {A} (name : string) (func : extractor) (args : Args)
    (k : loc → M A) (w : World) :
  (df ← try_except (call func args)
          (λ e, logger (LogErrorCritico name e);; l ← new_frame []; mret (Some l));
   df ← match df with
        | None => new_frame []
        | Some l => mret l
        end;
   k df) w
  = k (length (heap w))
      (mkWorld (heap w ++ [raw_rows (func args)])
         (logged w ++ (if func args is Raise e then [LogErrorCritico name e] else []))
         (clock w) (entropy w)).
Proof.
  unfold try_except, call, mbind, M_bind, raw_rows.
  destruct (func args) as [[rows|]|e]; cbn; rewrite ?app_nil_r; by destruct w.
Qed.

Lemma world_eta (w : World) : mkWorld (heap w) (logged w) (clock w) (entropy w) = w.
Proof. by destruct w. Qed.

(** Lines 632-635: the keyword filter, where it applies, and its log
    entry. *)
Lemma keyword_phase_run (args : Args) (name : string) (l : loc) (df : DataFrame) (w : World) :
  heap w !! l = Some df →
  let out := if keywords_apply name args
             then keyword_result (arg_palabras_clave args) df else df in
  ∃ l' h',
    (if negb (bool_decide (arg_palabras_clave args = ""))
        && negb (bool_decide (PyStr.strip (arg_palabras_clave args) = ""))
        && bool_decide (name ∉ ["urbania"; "doomos"; "properati"])
     then
       r ← _filter_by_keywords (Some l) (arg_palabras_clave args);
       match r with
       | Some l => n ← len l; logger (LogFiltradoKeywords n);; mret l
       | None => raise (RuntimeError "object of type 'NoneType' has no len()")
       end
     else mret l) w
    = (Ok l', mkWorld (heap w ++ h')
                (logged w ++ (if keywords_apply name args
                              then [LogFiltradoKeywords (length out)] else []))
                (clock w) (entropy w)) ∧
    (heap w ++ h') !! l' = Some out.
Proof.
  intros Hl out. subst out. unfold keywords_apply.
  destruct (negb (bool_decide (arg_palabras_clave args = ""))
            && negb (bool_decide (PyStr.strip (arg_palabras_clave args) = ""))
            && bool_decide (name ∉ ["urbania"; "doomos"; "properati"])).
  - destruct (filter_by_keywords_post l df (arg_palabras_clave args) w Hl)
      as (l' & h' & Hrun & Hl').
    exists l', h'. split; [|done].
    rewrite (bind_ok _ _ _ _ _ Hrun).
    mstep len_run. done.
  - exists l, []. rewrite !app_nil_r. split; [|done].
    unfold mret, M_ret. by rewrite world_eta.
Qed.

(** Lines 637-642: a frame with rows is copied and stamped. *)
Lemma stamp_phase_run (name : string) (l : loc) (rows : DataFrame) (w : World) :
  heap w !! l = Some rows →
  (n ← len l;
   if bool_decide (0 < n)%nat then
     df_filtered ← copy l;
     set_column df_filtered "fuente" (replicate n (CStr name));;
     stamp ← datetime_now now_isoformat;
     set_column df_filtered "scraped_at" (replicate n (CStr stamp));;
     ids ← fresh_ids uuid4 n;
     set_column df_filtered "id" (CStr <$> ids);;
     mret (Some df_filtered)
   else mret None) w
  = match rows with
    | [] => (Ok None, w)
    | _ =>
        (Ok (Some (length (heap w))),
         mkWorld (heap w ++ [stamp_rows name (now_isoformat (clock w))
                               (uuid4 <$> seq (entropy w) (length rows)) rows])
           (logged w) (S (clock w)) (entropy w + length rows))
    end.
Proof.
  intros Hl. mstep len_run.
  destruct rows as [|r0 rows0]; [done|]. set (rows := r0 :: rows0) in *.
  rewrite bool_decide_eq_true_2 by (simpl; lia).
  mstep copy_run.
  rewrite (replicate_fmap_const (CStr name) rows).
  mstep set_column_run.
  cbn [heap with_heap]. rewrite heap_insert_new, with_heap_twice.
  set (rows1 := (λ r, set_extra "fuente" (CStr name) r) <$> rows).
  erewrite bind_ok; [|reflexivity].
  cbn [heap logged clock entropy with_heap].
  assert (length rows = length rows1) as Hlen by (symmetry; apply length_fmap).
  rewrite Hlen, (replicate_fmap_const (CStr (now_isoformat (clock w))) rows1).
  mstep set_column_run.
  cbn [heap logged clock entropy with_heap]. rewrite heap_insert_new.
  mstep fresh_ids_run.
  cbn [heap logged clock entropy with_heap].
  mstep set_column_run_gen.
  cbn [heap logged clock entropy with_heap]. rewrite heap_insert_new.
  unfold stamp_rows, rows1. by rewrite <- !list_fmap_compose.
Qed.

(** The body of the loop for one source. *)
Lemma run_source_run (args : Args) (name : string) (func : extractor) (w : World) :
  let rows := source_rows name (func args) args in
  ∃ h' r,
    run_source now_isoformat uuid4 args name func w =
      (Ok r, mkWorld (heap w ++ h') (logged w ++ source_log name (func args) args)
               (if rows is [] then clock w else S (clock w))
               (entropy w + length rows)) ∧
    match r with
    | None => rows = []
    | Some l =>
        rows ≠ [] ∧
        (heap w ++ h') !! l
          = Some (source_frame now_isoformat uuid4 name (func args) args (clock w) (entropy w))
    end.
Proof.
  intros rows. unfold run_source.
  erewrite bind_ok; [|reflexivity].
  rewrite obtain_frame_run.
  cbn [heap logged clock entropy].
  set (raw := raw_rows (func args)).
  set (L0 := (logged w ++ [LogEjecutando name]) ++ _).
  set (h0 := heap w ++ [raw]).
  mstep copy_run.
  erewrite bind_ok;
    [|apply (clean_columns_run h0 raw (mkWorld h0 L0 (clock w) (entropy w)))].
  set (cleaned := clean_row <$> raw).
  cbn [heap logged clock entropy with_heap].
  destruct (filter_df_strict_post (length h0) cleaned
              (Some (arg_dormitorios args)) (Some (arg_banos args))
              (arg_price_min args) (arg_price_max args)
              (mkWorld (h0 ++ [cleaned]) L0 (clock w) (entropy w)))
    as (l2 & h2 & Hrun2 & Hl2); [apply heap_lookup_new|].
  rewrite (bind_ok _ _ _ _ _ Hrun2).
  cbn [heap logged clock entropy with_heap] in Hl2 |- *.
  fold (strict_rows_of (func args) args) in *.
  mstep len_run.
  erewrite bind_ok; [|reflexivity].
  cbn [heap logged clock entropy with_heap].
  set (L1 := L0 ++ [LogFiltradoEstricto _]).
  destruct (keyword_phase_run args name l2 (strict_rows_of (func args) args)
              (mkWorld ((h0 ++ [cleaned]) ++ h2) L1 (clock w) (entropy w)))
    as (l3 & h3 & Hrun3 & Hl3); [exact Hl2|].
  fold (source_rows name (func args) args) in *. fold rows in Hrun3, Hl3.
  rewrite (bind_ok _ _ _ _ _ Hrun3).
  cbn [heap logged clock entropy] in Hl3 |- *.
  set (L2 := L1 ++ _).
  rewrite (stamp_phase_run name l3 rows
             (mkWorld (((h0 ++ [cleaned]) ++ h2) ++ h3) L2 (clock w) (entropy w)) Hl3).
  assert (L2 = logged w ++ source_log name (func args) args) as ->.
  { unfold L2, L1, L0, source_log. by rewrite <- !(assoc_L (++)). }
  cbn [heap logged clock entropy].
  assert (∀ k, ((h0 ++ [cleaned]) ++ h2) ++ k = heap w ++ [raw; cleaned] ++ h2 ++ k) as Hheap.
  { intros k'. unfold h0. by rewrite <- !(assoc_L (++)). }
  destruct rows as [|r0 rows0] eqn:Hrows.
  - exists ([raw; cleaned] ++ h2 ++ h3), None. split; [|done].
    by rewrite Nat.add_0_r, Hheap.
  - eexists ([raw; cleaned] ++ h2 ++ h3 ++ [_]), (Some _). split.
    + by rewrite <- (assoc_L (++) _ h3), !Hheap.
    + split; [done|]. unfold source_frame. fold rows. rewrite Hrows.
      rewrite <- (Hheap (h3 ++ [_])), <- (Hheap h3), (assoc_L (++)).
      apply heap_lookup_new.
Qed.

(** The loop over the registry: every source is run, in order, and the
    frames collected are those of the sources whose filtered rows are not
    empty. *)
Lemma run_sources_run (args : Args) (scrapers : list (string * extractor)) :
  ∀ (w : World) (frames : list loc) (fs : list DataFrame),
    Forall2 (λ l f, heap w !! l = Some f) frames fs →
    ∃ h' frames' t' u',
      run_sources now_isoformat uuid4 args scrapers frames w =
        (Ok frames', mkWorld (heap w ++ h') (logged w ++ sources_log args scrapers) t' u') ∧
      Forall2 (λ l f, (heap w ++ h') !! l = Some f) frames'
        (fs ++ (source_sets now_isoformat uuid4 args scrapers (clock w) (entropy w)).*2).
Proof.
  induction scrapers as [|[name func] rest IH]; intros w frames fs Hfs.
  - exists [], frames, (clock w), (entropy w). cbn. rewrite !app_nil_r.
    unfold mret, M_ret. by rewrite world_eta.
  - cbn [run_sources source_sets].
    destruct (run_source_run args name func w) as (h1 & r & Hrun & Hr).
    rewrite (bind_ok _ _ _ _ _ Hrun).
    set (rows := source_rows name (func args) args) in *.
    set (w1 := mkWorld (heap w ++ h1) _ _ _) in *.
    assert (Forall2 (λ l f, heap w1 !! l = Some f) frames fs) as Hfs1.
    { eapply Forall2_impl; [exact Hfs|]. intros l f Hl. by apply heap_lookup_old. }
    assert (sources_log args ((name, func) :: rest)
            = source_log name (func args) args ++ sources_log args rest) as Hlog by done.
    destruct r as [l|].
    + destruct Hr as [Hne Hl].
      destruct (IH w1 (frames ++ [l])
                  (fs ++ [source_frame now_isoformat uuid4 name (func args) args
                            (clock w) (entropy w)]))
        as (h2 & frames' & t' & u' & Hrun2 & Hfs2).
      { apply Forall2_app; [done|]. by constructor. }
      exists (h1 ++ h2), frames', t', u'. rewrite Hrun2. cbn [heap logged clock entropy w1] in *.
      rewrite Hlog, !(assoc_L (++)). split; [done|].
      destruct rows as [|r0 rows0] eqn:Hrows; [done|].
      cbn [fmap list_fmap snd]. rewrite <- !(assoc_L (++)) in Hfs2.
      rewrite <- !(assoc_L (++)). exact Hfs2.
    + destruct (IH w1 frames fs Hfs1) as (h2 & frames' & t' & u' & Hrun2 & Hfs2).
      exists (h1 ++ h2), frames', t', u'. rewrite Hrun2. cbn [heap logged clock entropy w1] in *.
      rewrite Hlog, !(assoc_L (++)). split; [done|].
      rewrite Hr in *. cbn [length] in Hfs2. rewrite Nat.add_0_r in Hfs2.
      rewrite <- !(assoc_L (++)) in Hfs2. rewrite <- !(assoc_L (++)). exact Hfs2.
Qed.

Lemma pd_concat_rows_run (frames : list loc) (fs : list DataFrame) (w : World) :
  Forall2 (λ l f, heap w !! l = Some f) frames fs →
  pd_concat_rows frames w = (Ok (concat fs), w).
Proof.
  induction 1 as [|l f frames fs Hl _ IH]; [done|].
  cbn [pd_concat_rows]. mstep read_run. by rewrite (bind_ok _ _ _ _ _ IH).
Qed.

End AggregatorFacts.

(** Lines 644-653: the collected frames are concatenated, the rows whose
    link is not kept are removed, and of the rows with one link and title
    the first stays. *)
Lemma combine_run (frames : list loc) (fs : list DataFrame) (w : World) :
  Forall2 (λ l f, heap w !! l = Some f) frames fs →
  ∃ l h' entries,
    combine frames w =
      (Ok l, mkWorld (heap w ++ h') (logged w ++ entries) (clock w) (entropy w)) ∧
    (heap w ++ h') !! l
      = Some (drop_duplicates_rows ∅ (filter link_kept (concat fs))) ∧
    omap ejecutando_name entries = [].
Proof.
  intros Hfs. unfold combine. destruct Hfs as [|l0 f0 frames fs Hl0 Hfs].
  { exists (length (heap w)), [[]], [LogNingunaFuente]. split; [done|].
    split; [apply heap_lookup_new|done]. }
  assert (Forall2 (λ l f, heap w !! l = Some f) (l0 :: frames) (f0 :: fs)) as Hall
    by by constructor.
  set (rows := concat (f0 :: fs)).
  unfold pd_concat.
  rewrite (bind_ok _ _ _ _ _
             (bind_ok _ _ _ _ _ (pd_concat_rows_run _ _ _ Hall))).
  fold rows.
  mstep (column_run _ "link" rows (λ r, CStr (link (base r)))). 2:{ done. }
  rewrite <- list_fmap_compose.
  mstep select_rows_run.
  cbn [heap with_heap]. rewrite with_heap_twice.
  set (rows1 := filter _ rows).
  mstep (column_run _ "link" rows1 (λ r, CStr (link (base r)))). 2:{ done. }
  rewrite <- list_fmap_compose.
  mstep select_rows_run.
  cbn [heap with_heap]. rewrite with_heap_twice.
  set (rows2 := filter _ rows1).
  unfold drop_duplicates.
  erewrite bind_ok; [|erewrite bind_ok; [reflexivity|apply read_run; heap_lookup]].
  cbn [heap with_heap]. rewrite with_heap_twice.
  mstep len_run.
  erewrite bind_ok; [|reflexivity].
  cbn [heap logged clock entropy with_heap]. unfold mret, M_ret.
  assert (rows2 = filter link_kept rows) as ->.
  { unfold rows2, rows1. rewrite list_filter_filter. apply list_filter_iff.
    intros r. unfold link_kept, compose. cbn [py_str].
    rewrite !negb_true_iff, bool_decide_eq_false. split.
    - intros [Hne Hhash]. split; [done|]. intros Hl. by rewrite Hl in Hne.
    - intros [Hhash Hne]. split; [|done]. by intros [= ?]. }
  eexists _, ([_] ++ [_] ++ [_] ++ [_]), [_]. rewrite !(assoc_L (++)). split.
  - reflexivity.
  - split; [apply heap_lookup_new|done].
Qed.

(** ** Removal of duplicates *)







(** ** The whole run *)

Section RunFacts.

Context (now_isoformat : nat → string) (uuid4 : nat → string).










Context (scrape_nestoria scrape_infocasas scrape_properati scrape_doomos : extractor).

(** The whole run, from any world: it returns a frame, whose rows are
    those of the result sets of the sources, concatenated in registration
    order, filtered by link and freed of duplicates. *)
Lemma run_scrapers_run (args : Args) (w : World) :
  let scrapers := SCRAPERS scrape_nestoria scrape_infocasas scrape_properati scrape_doomos in
  ∃ l h' entries t' u',
    run_scrapers now_isoformat uuid4 scrape_nestoria scrape_infocasas scrape_properati
      scrape_doomos args w
    = (Ok l, mkWorld (heap w ++ h')
               (logged w ++ [LogBuscando] ++ sources_log args scrapers ++ entries) t' u') ∧
    (heap w ++ h') !! l
      = Some (drop_duplicates_rows ∅
                (filter link_kept
                   (concat (source_sets now_isoformat uuid4 args scrapers
                              (clock w) (entropy w)).*2))) ∧
    omap ejecutando_name entries = [].
Proof.
  intros scrapers. unfold run_scrapers. fold scrapers.
  erewrite bind_ok; [|reflexivity].
  set (w0 := mkWorld (heap w) (logged w ++ [LogBuscando]) (clock w) (entropy w)).
  destruct (run_sources_run now_isoformat uuid4 args scrapers w0 [] [])
    as (h1 & frames & t' & u' & Hrun & Hfs); [constructor|].
  rewrite (bind_ok _ _ _ _ _ Hrun). cbn [heap logged clock entropy w0 app] in *.
  set (w1 := mkWorld (heap w ++ h1) _ t' u').
  destruct (combine_run frames _ w1 Hfs) as (l & h2 & entries & Hrun2 & Hl & Hlog).
  exists l, (h1 ++ h2), entries, t', u'. rewrite Hrun2.
  cbn [heap logged clock entropy w1] in *.
  rewrite (assoc_L (++) (heap w)). split; [|done].
  do 2 f_equal. by rewrite <- !(assoc_L (++)).
Qed.

End RunFacts.



(* ===================================================================== *)
(** * Worked examples *)
(* ===================================================================== *)

(** Two sources return a record with the same link and title: the one of
    the source registered first stays.  A record with link "#" and one
    without link are dropped. *)
Example run_scrapers_deduplicates :
  let a := mkListing "Depa A" "S/ 1,200" "80" "2" "1" "" "https://x.pe/1" "" in
  let b := mkListing "Depa B" "S/ 1,000" "60" "2" "1" "" "#" "" in
  let c := mkListing "Depa C" "S/ 1,100" "70" "2" "1" "" "" "" in
  (λ r, (titulo (base r), extra r !! "fuente", extra r !! "id")) <$>
    default [] (result_rows
      (run_scrapers (λ n, "t" +:+ pretty n) (λ n, "id" +:+ pretty n)
         (λ _, Ok (Some [b])) (λ _, Ok (Some [a; c])) (λ _, Raise ValueError)
         (λ _, Ok (Some [a]))
         (mkArgs "" "0" "0" None None "")) empty_world)
  = [("Depa A", Some (CStr "infocasas"), Some (CStr "id1"))].
Proof. by vm_compute. Qed.

(** With [price_min = 800] and [price_max = 1500], records priced outside
    the range, in dollars, or without price are dropped. *)
Example run_scrapers_price_range :
  let priced (t p : string) := mkListing t p "" "" "" "" ("https://x.pe/" +:+ t) "" in
  (λ r, (titulo (base r), precio (base r))) <$>
    default [] (result_rows
      (run_scrapers (λ n, "t" +:+ pretty n) (λ n, "id" +:+ pretty n)
         (λ _, Ok (Some [priced "a" "S/ 799"; priced "b" "S/ 800"; priced "c" "$ 900"]))
         (λ _, Ok (Some [priced "d" "S/ 1,500"; priced "e" "S/ 1,501"; priced "f" ""]))
         (λ _, Ok None) (λ _, Ok (Some []))
         (mkArgs "" "0" "0" (Some 800) (Some 1500) "")) empty_world)
  = [("b", "S/ 800"); ("d", "S/ 1,500")].
Proof. by vm_compute. Qed.

(** The Nestoria loop on three nodes, two of which have the same link. *)
Example nestoria_loop_skips_seen_link :
  let anchor (href : string) :=
    Nestoria.mkTag (λ attr, if bool_decide (attr = "href") then Some href else None) "Depa" in
  let node (href : string) :=
    Nestoria.mkNode
      (λ css, Ok (if bool_decide (css = "a[href]") then Some (anchor href) else None))
      "Depa 2 dormitorios" in
  link <$> Nestoria.nestoria_loop (λ _ _, None) None None
             [node "/detail/1"; node "/detail/2"; node "/detail/1"] [] ∅
  = ["https://www.nestoria.pe/detail/1"; "https://www.nestoria.pe/detail/2"].
Proof. by vm_compute. Qed.

(* ===================================================================== *)
(** * Accented text and the zone slug *)
(* ===================================================================== *)

Module Latin1Facts.
Import Latin1.

Lemma l1_lower_char_idem (c : ascii) : lower_char (lower_char c) = lower_char c.
Proof. by destruct c as [[] [] [] [] [] [] [] []]. Qed.

Lemma l1_lower_idem (s : string) : lower (lower s) = lower s.
Proof. induction s as [|c s IH]; [done|]. simpl. by rewrite l1_lower_char_idem, IH. Qed.

Lemma l1_isspace_lower_char (c : ascii) : isspace (lower_char c) = isspace c.
Proof. by destruct c as [[] [] [] [] [] [] [] []]. Qed.

Lemma l1_lower_lstrip (s : string) : lower (lstrip s) = lstrip (lower s).
Proof.
  induction s as [|c s IH]; [done|]. simpl. rewrite l1_isspace_lower_char.
  by destruct (isspace c).
Qed.

Lemma l1_lower_empty (s : string) : lower s = "" ↔ s = "".
Proof. by destruct s. Qed.

Lemma l1_lower_rstrip (s : string) : lower (rstrip s) = rstrip (lower s).
Proof.
  induction s as [|c s IH]; [done|]. simpl. rewrite <- IH, l1_isspace_lower_char.
  destruct (rstrip s) as [|x r]; simpl; [|done]. by destruct (isspace c).
Qed.

Lemma l1_lower_strip (s : string) : lower (strip s) = strip (lower s).
Proof. unfold strip. by rewrite l1_lower_rstrip, l1_lower_lstrip. Qed.

Lemma l1_lstrip_no_lead (s : string) : no_lead (lstrip s).
Proof.
  induction s as [|c s IH]; [done|]. simpl.
  destruct (isspace c) eqn:Hc; [done|]. by simpl.
Qed.

Lemma l1_lstrip_id (s : string) : no_lead s → lstrip s = s.
Proof. destruct s as [|c s]; [done|]. simpl. by intros ->. Qed.

Lemma l1_rstrip_no_lead (s : string) : no_lead s → no_lead (rstrip s).
Proof.
  destruct s as [|c s]; [done|]. simpl. intros Hc.
  destruct (rstrip s); [by rewrite Hc|done].
Qed.

Lemma l1_rstrip_idem (s : string) : rstrip (rstrip s) = rstrip s.
Proof.
  induction s as [|c s IH]; [done|]. simpl.
  destruct (rstrip s) as [|x r] eqn:Hr.
  - destruct (isspace c) eqn:Hc; [done|]. simpl. by rewrite Hc.
  - simpl in *. by rewrite IH.
Qed.

Lemma l1_strip_idem (s : string) : strip (strip s) = strip s.
Proof.
  unfold strip. rewrite (l1_lstrip_id (rstrip _)).
  - apply l1_rstrip_idem.
  - apply l1_rstrip_no_lead, l1_lstrip_no_lead.
Qed.

Lemma l1_slug_char_plain (c : ascii) :
  slug_char c = true →
  isspace c = false ∧ lower_char c = c ∧ translate_char slug_trans c = c.
Proof. destruct c as [[] [] [] [] [] [] [] []]; by vm_compute. Qed.

Lemma l1_slug_lower (s : string) : string_forall slug_char s = true → lower s = s.
Proof.
  induction s as [|c s IH]; [done|]. simpl. intros [Hc Hs]%andb_true_iff.
  apply l1_slug_char_plain in Hc as (_ & -> & _). by rewrite IH.
Qed.

Lemma l1_slug_lstrip (s : string) : string_forall slug_char s = true → lstrip s = s.
Proof.
  destruct s as [|c s]; [done|]. simpl. intros [Hc Hs]%andb_true_iff.
  apply l1_slug_char_plain in Hc as (-> & _). done.
Qed.

Lemma l1_slug_rstrip (s : string) : string_forall slug_char s = true → rstrip s = s.
Proof.
  induction s as [|c s IH]; [done|]. simpl. intros [Hc Hs]%andb_true_iff.
  apply l1_slug_char_plain in Hc as (-> & _). rewrite (IH Hs). by destruct s.
Qed.

Lemma l1_slug_translate (s : string) :
  string_forall slug_char s = true → translate slug_trans s = s.
Proof.
  induction s as [|c s IH]; [done|]. simpl. intros [Hc Hs]%andb_true_iff.
  apply l1_slug_char_plain in Hc as (_ & _ & ->). by rewrite IH.
Qed.

Lemma l1_slug_spaces (rep : ascii) (s : string) :
  string_forall slug_char s = true → re_sub_spaces_go rep false s = s.
Proof.
  induction s as [|c s IH]; [done|]. simpl. intros [Hc Hs]%andb_true_iff.
  apply l1_slug_char_plain in Hc as (-> & _). by rewrite IH.
Qed.

Lemma l1_slug_keep (s : string) :
  string_forall slug_char s = true → re_sub_non_slug s = s.
Proof.
  induction s as [|c s IH]; [done|]. simpl. intros [Hc Hs]%andb_true_iff.
  by rewrite Hc, IH.
Qed.

Lemma l1_keep_slug (s : string) : string_forall slug_char (re_sub_non_slug s) = true.
Proof.
  induction s as [|c s IH]; [done|]. simpl.
  destruct (slug_char c) eqn:Hc; [|done]. simpl. by rewrite Hc.
Qed.

End Latin1Facts.

(** The part of [slugify_zone] that follows the lowering and the
    trimming. *)
Lemma slugify_zone_unfold (zona : string) :
  slugify_zone zona =
    Latin1.re_sub_non_slug
      (Latin1.re_sub_spaces "-"
         (Latin1.translate slug_trans (Latin1.strip (Latin1.lower zona)))).
Proof. unfold slugify_zone. case_bool_decide as Hz; [by subst|done]. Qed.

Lemma slugify_zone_slug (zona : string) :
  string_forall Latin1.slug_char (slugify_zone zona) = true.
Proof. rewrite slugify_zone_unfold. apply Latin1Facts.l1_keep_slug. Qed.

Lemma slugify_zone_id (zona : string) :
  string_forall Latin1.slug_char zona = true → slugify_zone zona = zona.
Proof.
  intros Hz. rewrite slugify_zone_unfold. unfold Latin1.strip, Latin1.re_sub_spaces.
  rewrite (Latin1Facts.l1_slug_lower _ Hz), (Latin1Facts.l1_slug_lstrip _ Hz),
    (Latin1Facts.l1_slug_rstrip _ Hz), (Latin1Facts.l1_slug_translate _ Hz),
    (Latin1Facts.l1_slug_spaces _ _ Hz).
  by apply Latin1Facts.l1_slug_keep.
Qed.

(** X1.  The slug that [slugify_zone] returns is made of the characters
    [a-z], [0-9] and [-] only, whatever the zone name; the texts that
    [slugify_zone] returns unchanged are exactly the texts made of these
    characters; hence slugifying a slug changes nothing. *)
Theorem slugify_zone_fixed_points (zona : string) :
  string_forall Latin1.slug_char (slugify_zone zona) = true ∧
  (slugify_zone zona = zona ↔ string_forall Latin1.slug_char zona = true) ∧
  slugify_zone (slugify_zone zona) = slugify_zone zona.
Proof.
  split; [apply slugify_zone_slug|]. split.
  - split; [|apply slugify_zone_id].
    intros Heq. rewrite <- Heq. apply slugify_zone_slug.
  - apply slugify_zone_id, slugify_zone_slug.
Qed.

Lemma slugify_zone_key (zona : string) :
  slugify_zone zona =
    Latin1.re_sub_non_slug
      (Latin1.re_sub_spaces "-"
         (Latin1.translate slug_trans (Latin1.lower (Latin1.strip zona)))).
Proof. by rewrite slugify_zone_unfold, Latin1Facts.l1_lower_strip. Qed.

(** X2.  [slugify_zone] reads a zone name without regard to letter case
    and to the whitespace around it: two names that are equal once
    trimmed and lowered have the same slug. *)
Theorem slugify_zone_case_insensitive (z1 z2 : string) :
  Latin1.lower (Latin1.strip z1) = Latin1.lower (Latin1.strip z2) →
  slugify_zone z1 = slugify_zone z2.
Proof. intros Heq. by rewrite !slugify_zone_key, Heq. Qed.

Lemma slugify_zone_case_insensitive_witness :
  Latin1.lower (Latin1.strip " San Isidro") = Latin1.lower (Latin1.strip "SAN ISIDRO  ") ∧
  slugify_zone " San Isidro" = slugify_zone "SAN ISIDRO  ".
Proof.
  split; [reflexivity|]. apply (slugify_zone_case_insensitive " San Isidro" "SAN ISIDRO  ").
  reflexivity.
Defined.

(* ===================================================================== *)
(** * The zone tables *)
(* ===================================================================== *)

Lemma dict_lookup_check (f : string → string → bool) (d : dict) (k v : string) :
  forallb (λ p, f p.1 p.2) d = true → dict_lookup k d = Some v → f k v = true.
Proof.
  induction d as [|[k' v'] d IH]; [done|]. simpl.
  intros [Hp Hd]%andb_true_iff. case_bool_decide as Hk; [|by apply IH].
  intros [= <-]. by subst.
Qed.

(** The slug of a zone name that is already trimmed and lowered. *)
Lemma slugify_zone_of_key (zona : string) :
  slugify_zone zona = slug_of_key (Latin1.lower (Latin1.strip zona)).
Proof. apply slugify_zone_key. Qed.

(** X3.  The zone table of the Properati extractor never changes the
    slug: for every zone name, the lookup of line 316, with
    [slugify_zone] as its default, gives what [slugify_zone] gives. *)
Theorem properati_zone_table_is_slugify (zona : string) :
  dict_get (Latin1.lower (Latin1.strip zona)) Properati.ZONA_MAPEO_PROPERATI
    (slugify_zone zona)
  = slugify_zone zona.
Proof.
  unfold dict_get.
  destruct (dict_lookup _ _) as [v|] eqn:Hv; [|done].
  rewrite slugify_zone_of_key.
  apply (dict_lookup_check (λ k v, bool_decide (v = slug_of_key k))) in Hv.
  - by apply bool_decide_eq_true in Hv.
  - by vm_compute.
Qed.

(** X4.  The zone table of the Infocasas extractor changes the slug of
    two zones only: for "breña" it keeps the accented name, for "lima" it
    gives "lima-cercado"; for every other zone name the lookup of line
    200 gives what [slugify_zone] gives. *)
Theorem infocasas_zone_table_overrides (zona : string) :
  let key := Latin1.lower (Latin1.strip zona) in
  dict_get key Infocasas.ZONA_MAPEO_INFOCASAS (slugify_zone zona) =
    if bool_decide (key = Latin1.lit "breña") then Latin1.lit "breña"
    else if bool_decide (key = "lima") then "lima-cercado"
    else slugify_zone zona.
Proof.
  intros key. unfold dict_get.
  destruct (dict_lookup _ _) as [v|] eqn:Hv.
  - rewrite slugify_zone_of_key. fold key.
    apply (dict_lookup_check
             (λ k v, bool_decide
                (v = if bool_decide (k = Latin1.lit "breña") then Latin1.lit "breña"
                     else if bool_decide (k = "lima") then "lima-cercado"
                     else slug_of_key k))) in Hv.
    + by apply bool_decide_eq_true in Hv.
    + by vm_compute.
  - repeat case_bool_decide; [| |done].
    + exfalso. revert Hv. replace key with (Latin1.lit "breña"). by vm_compute.
    + exfalso. revert Hv. replace key with "lima". by vm_compute.
Qed.

Lemma nonblank_key (zona : string) :
  Latin1.nonblank zona = negb (bool_decide (Latin1.lower (Latin1.strip zona) = "")).
Proof.
  unfold Latin1.nonblank.
  destruct (bool_decide_reflect (zona = "")) as [->|Hz]; [done|]. simpl.
  f_equal. apply bool_decide_ext. by rewrite Latin1Facts.l1_lower_empty.
Qed.

Lemma dict_lookup_set (k k' v : string) (d : dict) :
  dict_lookup k (dict_set k' v d) = if bool_decide (k' = k) then Some v else dict_lookup k d.
Proof.
  induction d as [|[k0 v0] d IH]; simpl.
  - done.
  - destruct (bool_decide_reflect (k0 = k')) as [->|Hk0]; simpl.
    + by case_bool_decide.
    + rewrite IH. destruct (bool_decide_reflect (k0 = k)) as [->|Hk]; [|done].
      by rewrite bool_decide_false by congruence.
Qed.

(** X5.  The three extractors that look the zone up in a table read its
    name without regard to letter case and to the whitespace around it:
    for two names that are equal once trimmed and lowered, the Infocasas
    URL is the same, the Properati URL is the same, and the location
    identifier that Doomos sends is the same. *)
Theorem zone_lookup_case_insensitive (z1 z2 dormitorios banos : string)
    (price_min price_max : option Z) (palabras_clave : string) :
  Latin1.lower (Latin1.strip z1) = Latin1.lower (Latin1.strip z2) →
  Infocasas.infocasas_url z1 dormitorios banos price_min price_max palabras_clave
    = Infocasas.infocasas_url z2 dormitorios banos price_min price_max palabras_clave ∧
  Properati.properati_url z1 dormitorios banos price_min price_max palabras_clave
    = Properati.properati_url z2 dormitorios banos price_min price_max palabras_clave ∧
  dict_lookup "loc_id"
    (Doomos.doomos_params z1 dormitorios banos price_min price_max palabras_clave)
    = dict_lookup "loc_id"
        (Doomos.doomos_params z2 dormitorios banos price_min price_max palabras_clave).
Proof.
  intros Hkey.
  assert (slugify_zone z1 = slugify_zone z2) as Hslug
    by (by rewrite !slugify_zone_of_key, Hkey).
  assert (Latin1.nonblank z1 = Latin1.nonblank z2) as Hnb
    by (by rewrite !nonblank_key, Hkey).
  split; [|split].
  - unfold Infocasas.infocasas_url. by rewrite Hkey, Hslug, Hnb.
  - unfold Properati.properati_url. by rewrite Hkey, Hslug, Hnb.
  - unfold Doomos.doomos_params. rewrite Hkey, Hnb.
    repeat match goal with
      | |- context [if ?b then _ else _] => destruct b
      | |- context [match ?b with Some _ => _ | None => _ end] => destruct b
      end; by rewrite ?dict_lookup_set.
Qed.

Lemma zone_lookup_case_insensitive_witness :
  Latin1.lower (Latin1.strip " Lince") = Latin1.lower (Latin1.strip "LINCE ") ∧
  Infocasas.infocasas_url " Lince" "2" "1" None None ""
    = Infocasas.infocasas_url "LINCE " "2" "1" None None "".
Proof.
  split; [reflexivity|].
  apply (zone_lookup_case_insensitive " Lince" "LINCE " "2" "1" None None "").
  reflexivity.
Defined.

(** X6.  The Infocasas URL carries the price bounds only when bedrooms,
    bathrooms and both bounds are all requested: in every other case the
    URL is the one built without any bound. *)
Theorem infocasas_url_price_needs_all (zona dormitorios banos : string)
    (price_min price_max : option Z) (palabras_clave : string) :
  asked dormitorios && asked banos
    && bool_decide (is_Some price_min) && bool_decide (is_Some price_max) = false →
  Infocasas.infocasas_url zona dormitorios banos price_min price_max palabras_clave
    = Infocasas.infocasas_url zona dormitorios banos None None palabras_clave.
Proof.
  intros Hnot. unfold Infocasas.infocasas_url. rewrite Hnot.
  assert (bool_decide (is_Some (@None Z)) = false) as -> by done.
  by rewrite !andb_false_r.
Qed.

Lemma infocasas_url_price_needs_all_witness :
  asked "2" && asked "0"
    && bool_decide (is_Some (Some 800)) && bool_decide (is_Some (Some 1500)) = false ∧
  Infocasas.infocasas_url "lince" "2" "0" (Some 800) (Some 1500) ""
    = Infocasas.infocasas_url "lince" "2" "0" None None "".
Proof.
  split; [reflexivity|].
  apply (infocasas_url_price_needs_all "lince" "2" "0" (Some 800) (Some 1500) "").
  reflexivity.
Defined.

(* ===================================================================== *)
(** * The Doomos query *)
(* ===================================================================== *)

Lemma count_char_app (c : ascii) (a b : string) :
  count_char c (a +:+ b) = (count_char c a + count_char c b)%nat.
Proof. induction a as [|x a IH]; [done|]. simpl. rewrite IH. lia. Qed.

Lemma quote_byte_delimiter (c x : ascii) :
  delimiter c → count_char c (quote_from_bytes (String x "")) = O.
Proof.
  intros [->|[->|[->| ->]]]; destruct x as [[] [] [] [] [] [] [] []]; by vm_compute.
Qed.

Lemma quote_from_bytes_cons (x : ascii) (bs : string) :
  quote_from_bytes (String x bs) = quote_from_bytes (String x "") +:+ quote_from_bytes bs.
Proof. simpl. by destruct (always_safe x || bool_decide (x = "/"%char)). Qed.

Lemma quote_delimiter (c : ascii) (s : string) : delimiter c → count_char c (quote s) = O.
Proof.
  intros Hc. unfold quote. induction (Latin1.encode_utf8 s) as [|x bs IH]; [done|].
  by rewrite quote_from_bytes_cons, count_char_app, quote_byte_delimiter, IH.
Qed.

Lemma dict_set_keys (k v : string) (d : dict) :
  (dict_set k v d).*1 = if bool_decide (k ∈ d.*1) then d.*1 else d.*1 ++ [k].
Proof.
  induction d as [|[k0 v0] d IH]; [done|]. csimpl.
  destruct (bool_decide_reflect (k0 = k)) as [->|Hk0]; csimpl.
  - by rewrite bool_decide_true by left.
  - rewrite IH. destruct (bool_decide_reflect (k ∈ d.*1)) as [Hin|Hin].
    + by rewrite bool_decide_true by by right.
    + rewrite bool_decide_false; [done|].
      intros [?|?]%elem_of_cons; congruence.
Qed.

Lemma dict_set_NoDup (k v : string) (d : dict) : NoDup d.*1 → NoDup (dict_set k v d).*1.
Proof.
  intros Hd. rewrite dict_set_keys. case_bool_decide as Hin; [done|].
  apply NoDup_app. split; [done|]. split; [|apply NoDup_singleton].
  intros x Hx ->%list_elem_of_singleton. done.
Qed.

Lemma dict_set_Forall (P : string → Prop) (k v : string) (d : dict) :
  P k → Forall P d.*1 → Forall P (dict_set k v d).*1.
Proof.
  intros Hk Hd. rewrite dict_set_keys. case_bool_decide; [done|].
  apply Forall_app. split; [done|]. by constructor.
Qed.

Lemma dict_set_length (k v : string) (d : dict) :
  (length d ≤ length (dict_set k v d))%nat.
Proof.
  induction d as [|[k0 v0] d IH]; simpl; [lia|].
  case_bool_decide; simpl; lia.
Qed.

Lemma count_query_item (c : ascii) (p : string * string) :
  delimiter c → plain_key p.1 →
  count_char c (doomos_query_item p) = if bool_decide (c = "="%char) then 1%nat else O.
Proof.
  intros Hc Hk. unfold doomos_query_item.
  rewrite !count_char_app, (Hk c Hc), (quote_delimiter c _ Hc). simpl.
  repeat case_bool_decide; simplify_eq; lia.
Qed.

Lemma count_query (c : ascii) (params : dict) :
  delimiter c → Forall plain_key params.*1 →
  count_char c (str_join "&" (doomos_query_item <$> params)) =
    ((if bool_decide (c = "="%char) then length params else O)
     + (if bool_decide (c = "&"%char) then pred (length params) else O))%nat.
Proof.
  intros Hc. induction params as [|p params IH]; intros Hk.
  - simpl. by repeat case_bool_decide.
  - apply Forall_cons in Hk as [Hp Hk]. specialize (IH Hk).
    destruct params as [|q params].
    + simpl. rewrite (count_query_item c p Hc Hp). repeat case_bool_decide; lia.
    + change (str_join "&" (doomos_query_item <$> p :: q :: params))
        with (doomos_query_item p +:+ "&" +:+ str_join "&" (doomos_query_item <$> q :: params)).
      rewrite !count_char_app, IH, (count_query_item c p Hc Hp).
      cbn [count_char length pred]. repeat case_bool_decide; simplify_eq; lia.
Qed.

(** The names that [scrape_doomos] adds to the initial parameters. *)
Lemma doomos_added_plain (k : string) :
  k ∈ ["loc_name"; "loc_id"; "piezas"; "banos"; "preciomin"; "preciomax"; "keyword"] →
  plain_key k.
Proof.
  intros Hk c Hc. repeat (apply elem_of_cons in Hk as [->|Hk]);
    [destruct Hc as [->|[->|[->| ->]]]; by vm_compute..|by apply elem_of_nil in Hk].
Qed.

Lemma doomos_params_keys (zona dormitorios banos : string)
    (price_min price_max : option Z) (palabras_clave : string) :
  let params :=
    Doomos.doomos_params zona dormitorios banos price_min price_max palabras_clave in
  NoDup params.*1 ∧ Forall plain_key params.*1 ∧ (4 ≤ length params)%nat.
Proof.
  set (P := λ d : dict, NoDup d.*1 ∧ Forall plain_key d.*1 ∧ (4 ≤ length d)%nat).
  assert (∀ k v d,
            k ∈ ["loc_name"; "loc_id"; "piezas"; "banos"; "preciomin"; "preciomax";
                 "keyword"] →
            P d → P (dict_set k v d)) as Hset.
  { intros k v d Hk (Hnd & Hpl & Hlen). split; [by apply dict_set_NoDup|].
    split; [apply dict_set_Forall; [by apply doomos_added_plain|done]|].
    pose proof (dict_set_length k v d). lia. }
  assert (∀ (c : bool) k v d,
            k ∈ ["loc_name"; "loc_id"; "piezas"; "banos"; "preciomin"; "preciomax";
                 "keyword"] →
            P d → P (if c then dict_set k v d else d)) as Hif.
  { intros [] k v d Hk Hd; [by apply Hset|done]. }
  assert (∀ (o : option Z) k v d,
            k ∈ ["loc_name"; "loc_id"; "piezas"; "banos"; "preciomin"; "preciomax";
                 "keyword"] →
            P d → P (if o is Some _ then dict_set k v d else d)) as Hopt.
  { intros [x|] k v d Hk Hd; [by apply Hset|done]. }
  assert (P (dict_lit [("clase", "1"); ("stipo", "16"); ("pagina", "1");
                       ("sort", "primeasc")])) as Hbase.
  { split; [by apply (bool_decide_unpack _); vm_compute|]. split; [|by vm_compute].
    repeat (constructor;
            [intros c [->|[->|[->| ->]]]; by vm_compute|]). constructor. }
  assert (∀ k : string,
            bool_decide (k ∈ ["loc_name"; "loc_id"; "piezas"; "banos"; "preciomin";
                              "preciomax"; "keyword"]) = true →
            k ∈ ["loc_name"; "loc_id"; "piezas"; "banos"; "preciomin"; "preciomax";
                 "keyword"]) as Hmem.
  { intros k. apply bool_decide_eq_true. }
  intros params. change (P params). unfold params, Doomos.doomos_params. cbv zeta.
  apply Hif; [by apply Hmem|].
  apply Hopt; [by apply Hmem|].
  apply Hopt; [by apply Hmem|].
  apply Hif; [by apply Hmem|].
  apply Hif; [by apply Hmem|].
  destruct (negb (Latin1.nonblank zona)).
  - apply Hset; [by apply Hmem|]. apply Hset; [by apply Hmem|]. exact Hbase.
  - apply Hif; [by apply Hmem|]. apply Hset; [by apply Hmem|]. exact Hbase.
Qed.

(** X7.  The query string that the Doomos extractor builds is well formed
    whatever the arguments: every parameter is sent once (no name
    occurs twice), and since every value is percent-encoded the URL has
    one "?", one "=" for each parameter, one "&" between two parameters
    and no space. *)
Theorem doomos_url_well_formed (zona dormitorios banos : string)
    (price_min price_max : option Z) (palabras_clave : string) :
  let params :=
    Doomos.doomos_params zona dormitorios banos price_min price_max palabras_clave in
  let url := Doomos.doomos_url zona dormitorios banos price_min price_max palabras_clave in
  NoDup params.*1 ∧
  count_char "?" url = 1%nat ∧
  count_char "=" url = length params ∧
  S (count_char "&" url) = length params ∧
  count_char " " url = O.
Proof.
  intros params url.
  destruct (doomos_params_keys zona dormitorios banos price_min price_max palabras_clave)
    as (Hnd & Hplain & Hlen). fold params in Hnd, Hplain, Hlen.
  split; [done|].
  assert (∀ c, delimiter c →
            count_char c url =
              ((if bool_decide (c = "?"%char) then 1 else 0)
               + ((if bool_decide (c = "="%char) then length params else O)
                  + (if bool_decide (c = "&"%char) then pred (length params) else O)))%nat)
    as Hcount.
  { intros c Hc. unfold url, Doomos.doomos_url. fold params.
    change (λ p : string * string, p.1 +:+ "=" +:+ quote p.2) with doomos_query_item.
    rewrite !count_char_app, (count_query c params Hc Hplain).
    destruct Hc as [->|[->|[->| ->]]]; reflexivity. }
  rewrite !Hcount by (unfold delimiter; auto).
  repeat split; repeat case_bool_decide; try discriminate; try congruence; lia.
Qed.

Lemma dict_get_empty_default (k : string) (d : dict) :
  forallb (λ p, negb (bool_decide (p.2 = ""))) d = true →
  (if negb (bool_decide (dict_get k d "" = "")) then Some (dict_get k d "") else None)
  = dict_lookup k d.
Proof.
  intros Hd. unfold dict_get. destruct (dict_lookup k d) as [v|] eqn:Hv; [|done].
  apply (dict_lookup_check (λ _ v, negb (bool_decide (v = ""))) _ _ _ Hd) in Hv.
  by destruct (bool_decide (v = "")).
Qed.

(** X8.  The location that the Doomos extractor sends.  For a blank zone
    it is the region of Lima, by name and by the identifier -352647.
    Otherwise the name is the trimmed zone followed by
    " (Región de Lima)", and the identifier is the one that the table
    gives for the trimmed, lowered zone: a zone that the table does not
    know is sent by name only.  No later parameter changes either. *)
Theorem doomos_location (zona dormitorios banos : string)
    (price_min price_max : option Z) (palabras_clave : string) :
  let params :=
    Doomos.doomos_params zona dormitorios banos price_min price_max palabras_clave in
  dict_lookup "loc_name" params
    = Some (if Latin1.nonblank zona
            then Latin1.strip zona +:+ Latin1.lit " (Región de Lima)"
            else Latin1.lit "Lima (Región de Lima)") ∧
  dict_lookup "loc_id" params
    = if Latin1.nonblank zona
      then dict_lookup (Latin1.lower (Latin1.strip zona)) Doomos.ZONA_IDS_CORRECTOS
      else Some "-352647".
Proof.
  intros params. unfold params, Doomos.doomos_params.
  pose proof (dict_get_empty_default (Latin1.lower (Latin1.strip zona))
                Doomos.ZONA_IDS_CORRECTOS eq_refl) as Hid.
  destruct (Latin1.nonblank zona); cbn [negb].
  - rewrite <- Hid.
    destruct (negb (bool_decide (dict_get _ Doomos.ZONA_IDS_CORRECTOS "" = "")));
      repeat match goal with
        | |- context [if ?b then _ else _] => destruct b
        | |- context [match ?b with Some _ => _ | None => _ end] => destruct b
        end; by rewrite ?dict_lookup_set.
  - repeat match goal with
      | |- context [if ?b then _ else _] => destruct b
      | |- context [match ?b with Some _ => _ | None => _ end] => destruct b
      end; by rewrite ?dict_lookup_set.
Qed.

(* ===================================================================== *)
(** * The Infocasas, Properati and Doomos extractors *)
(* ===================================================================== *)

Lemma l1_startswith_rstrip (p s : string) :
  string_forall (λ c, negb (Latin1.isspace c)) p = true →
  PyStr.startswith p s = true → PyStr.startswith p (Latin1.rstrip s) = true.
Proof.
  revert p. induction s as [|c s IH]; intros p Hp; [done|].
  destruct p as [|a p]; [done|]. simpl in *.
  apply andb_true_iff in Hp as [Ha Hp].
  intros [Hac Hps]%andb_true_iff. apply bool_decide_eq_true in Hac as <-.
  specialize (IH p Hp Hps).
  destruct (Latin1.rstrip s) as [|x r].
  - destruct p; [|done]. apply negb_true_iff in Ha. rewrite Ha. simpl.
    by rewrite bool_decide_true.
  - simpl. by rewrite bool_decide_true, IH.
Qed.

Lemma l1_startswith_strip (p s : string) :
  string_forall (λ c, negb (Latin1.isspace c)) p = true →
  PyStr.startswith p s = true → PyStr.startswith p (Latin1.strip s) = true.
Proof.
  intros Hp Hs. unfold Latin1.strip. apply l1_startswith_rstrip; [done|].
  destruct p as [|a p]; [done|]. destruct s as [|c s]; [done|].
  simpl in *. apply andb_true_iff in Hp as [Ha _].
  apply andb_true_iff in Hs as [Hac Hs]. apply bool_decide_eq_true in Hac as <-.
  apply negb_true_iff in Ha. rewrite Ha. simpl. by rewrite bool_decide_true, Hs.
Qed.

Lemma digit_run_digits (s : string) : digits_only (PyStr.digit_run s) = true.
Proof.
  induction s as [|c s IH]; [done|]. simpl.
  destruct (PyStr.isdigit c) eqn:Hc; [|done]. simpl. by rewrite Hc.
Qed.

Lemma re_search_digits_digits (s g : string) :
  PyStr.re_search_digits s = Some g → digits_only g = true ∧ g ≠ "".
Proof.
  induction s as [|c s IH]; [done|]. simpl.
  destruct (PyStr.isdigit c) eqn:Hc; [|done]. intros [= <-]. split; [|done].
  simpl. by rewrite Hc, digit_run_digits.
Qed.

Lemma default_search_digits (d s : string) :
  digits_only d = true → digits_only (default d (PyStr.re_search_digits s)) = true.
Proof.
  intros Hd. destruct (PyStr.re_search_digits s) as [g|] eqn:Hg; [|done].
  by apply re_search_digits_digits in Hg as [? _].
Qed.

(** A link that a site-relative address has been resolved in. *)
Lemma resolved_not_relative (site : string) (href : option string) :
  site ≠ "" → PyStr.startswith "/" site = false →
  PyStr.startswith "/"
    (default "" (str_or
       (match href with
        | Some h =>
            if negb (bool_decide (h = "")) && PyStr.startswith "/" h
            then Some (site +:+ h) else href
        | None => href
        end) (Some ""))) = false.
Proof.
  intros Hne Hsite. destruct href as [h|]; [|done].
  destruct h as [|c h]; [done|]. rewrite bool_decide_false by done. cbn [negb andb].
  destruct (PyStr.startswith "/" (String c h)) eqn:Hh.
  - destruct site as [|x site]; [done|]. exact Hsite.
  - exact Hh.
Qed.

Section ExtractorFacts.
Import Nestoria.

(** ** Properati *)

Lemma properati_img_kept (img_tag : Tag) :
  Properati.properati_img img_tag = "" ∨
  PyStr.startswith "https://img" (Properati.properati_img img_tag) = true.
Proof.
  unfold Properati.properati_img.
  set (img := default "" _).
  destruct (negb (bool_decide (img = ""))); cbn [andb]; [|by left].
  destruct (PyStr.startswith "https://img" img) eqn:Himg.
  - right. by apply l1_startswith_strip.
  - destruct (PyStr.startswith "//" img); [|by left].
    destruct (PyStr.startswith "https://img" ("https:" +:+ img)) eqn:Hfull; [|by left].
    right. by apply l1_startswith_strip.
Qed.

Lemma count_of_digits (elem : option Tag) : digits_only (Properati.count_of elem) = true.
Proof. destruct elem as [e|]; [|done]. simpl. by apply default_search_digits. Qed.

Lemma properati_item_record (c : Node) (r : Listing) :
  Properati.properati_item c = Ok r → properati_record r.
Proof.
  unfold Properati.properati_item.
  destruct (first_of _ _) as [a|]; [|done]. simpl.
  destruct (select_one c ".price") as [price_elem|]; [|done]. simpl.
  destruct (select_one c ".properties__bedrooms") as [dorm_elem|]; [|done]. simpl.
  destruct (select_one c ".properties__bathrooms") as [banos_elem|]; [|done]. simpl.
  destruct (select_one c ".properties__area") as [m2_elem|]; [|done]. simpl.
  destruct (select_one c "img") as [img_tag|]; [|done]. simpl.
  intros [= <-]. unfold properati_record. cbn [imagen_url descripcion titulo link
    dormitorios banos m2].
  split; [destruct img_tag; [apply properati_img_kept|by left]|].
  split; [done|].
  split; [by apply resolved_not_relative|].
  unfold counts_digits. cbn [dormitorios banos m2]. auto using count_of_digits.
Qed.

Lemma properati_loop_records (cards : list Node) (results : list Listing) :
  Forall properati_record results →
  Forall properati_record (Properati.properati_loop cards results).
Proof.
  revert results. induction cards as [|c rest IH]; intros results Hres; [done|].
  simpl. destruct (Properati.properati_item c) as [r|e] eqn:Hitem; [|by apply IH].
  apply IH, Forall_app. split; [done|]. constructor; [|done].
  by eapply properati_item_record.
Qed.

(** X9.  Every record that the Properati extractor returns, whatever the
    page: its image address is empty or begins with "https://img"; its
    description is its title; its link does not begin with "/" (a
    site-relative address has been made absolute); and its three counts
    are texts of digits, possibly empty. *)
Theorem scrape_properati_records (fetch : string → res Soup)
    (zona dorm_req banos_req : string) (price_min price_max : option Z)
    (palabras_clave : string) :
  Forall (λ r, (imagen_url r = "" ∨ PyStr.startswith "https://img" (imagen_url r) = true) ∧
               descripcion r = titulo r ∧
               PyStr.startswith "/" (link r) = false ∧
               digits_only (dormitorios r) = true ∧ digits_only (banos r) = true ∧
               digits_only (m2 r) = true)
    (Properati.scrape_properati fetch zona dorm_req banos_req price_min price_max
       palabras_clave).
Proof.
  unfold Properati.scrape_properati.
  destruct (fetch _) as [soup|e]; [|constructor].
  by apply (properati_loop_records _ []).
Qed.

(** ** Infocasas *)

Lemma typology_digits (items : list string) (d b m : string) :
  digits_only d = true → digits_only b = true → digits_only m = true →
  let '(d', b', m') := Infocasas.typology items d b m in
  digits_only d' = true ∧ digits_only b' = true ∧ digits_only m' = true.
Proof.
  revert d b m. induction items as [|item rest IH]; intros d b m Hd Hb Hm; [done|].
  simpl. repeat case_match; simplify_eq;
    match goal with
    | H : Infocasas.typology rest ?x ?y ?z = _ |- _ =>
        specialize (IH x y z); rewrite H in IH
    end; apply IH; auto using default_search_digits.
Qed.

Lemma img_src_stripped (img_tag : Tag) : Latin1.strip (img_src img_tag) = img_src img_tag.
Proof. unfold img_src. apply Latin1Facts.l1_strip_idem. Qed.

Lemma infocasas_item_record (n : Infocasas.Card) (r : Listing) :
  Infocasas.infocasas_item n = Ok (Some r) → card_record r.
Proof.
  unfold Infocasas.infocasas_item.
  destruct (select_one _ "a[href]") as [[a|]|]; [|done..]. simpl.
  destruct (first_of (select_one _ "h2.lc-title") _) as [title_elem|]; [|done]. simpl.
  destruct (first_of (select_one _ ".main-price") _) as [price_elem|]; [|done]. simpl.
  destruct (Infocasas.card_select n _) as [items|]; [|done]. simpl.
  pose proof (typology_digits items "" "" "" eq_refl eq_refl eq_refl) as Hcounts.
  destruct (Infocasas.typology items "" "" "") as [[d b] m].
  destruct (first_of (select_one _ ".lc-description") _) as [desc_elem|]; [|done]. simpl.
  destruct (select_one _ ".cardImageGallery .gallery-image img") as [img_tag|]; [|done].
  simpl. intros [= <-]. unfold card_record, counts_digits.
  cbn [link imagen_url dormitorios banos m2].
  split; [by apply resolved_not_relative|]. split; [|done].
  destruct img_tag; [apply img_src_stripped|done].
Qed.

Lemma infocasas_loop_records (nodes : list Infocasas.Card) (results : list Listing) :
  Forall card_record results →
  Forall card_record (Infocasas.infocasas_loop nodes results).
Proof.
  revert results. induction nodes as [|n rest IH]; intros results Hres; [done|].
  simpl. destruct (Infocasas.infocasas_item n) as [[r|]|e] eqn:Hitem; [|by apply IH..].
  apply IH, Forall_app. split; [done|]. constructor; [|done].
  by eapply infocasas_item_record.
Qed.

(** X10.  Every record that the Infocasas extractor returns, whatever the
    page: its link does not begin with "/" (a site-relative address has
    been made absolute); its image address has no whitespace around it;
    and its three counts are texts of digits, possibly empty. *)
Theorem scrape_infocasas_records (fetch : string → res Infocasas.Page)
    (zona dorm_req banos_req : string) (price_min price_max : option Z)
    (palabras_clave : string) :
  Forall (λ r, PyStr.startswith "/" (link r) = false ∧
               Latin1.strip (imagen_url r) = imagen_url r ∧
               digits_only (dormitorios r) = true ∧ digits_only (banos r) = true ∧
               digits_only (m2 r) = true)
    (Infocasas.scrape_infocasas fetch zona dorm_req banos_req price_min price_max
       palabras_clave).
Proof.
  unfold Infocasas.scrape_infocasas.
  destruct (get_page_content fetch _) as [soup|]; [|constructor].
  by apply (infocasas_loop_records _ []).
Qed.

(** ** Doomos *)

Lemma digits_only_rev_app (a b : string) :
  digits_only (String.rev_app a b) = digits_only a && digits_only b.
Proof.
  revert b. induction a as [|c a IH]; intros b; [done|]. simpl.
  rewrite IH. simpl. by rewrite andb_assoc, (andb_comm (digits_only a)).
Qed.

Lemma re_search_count_go_digits (word run s g : string) :
  digits_only run = true →
  Latin1.re_search_count_go word run s = Some g → digits_only g = true ∧ g ≠ "".
Proof.
  revert run. induction s as [|c s IH]; intros run Hrun; [done|]. simpl.
  destruct (PyStr.isdigit c) eqn:Hc.
  - apply IH. simpl. by rewrite Hc.
  - destruct run as [|x run]; [by apply IH|].
    destruct (PyStr.startswith word _); [|by apply IH].
    intros [= <-]. unfold String.rev. rewrite digits_only_rev_app, Hrun. split; [done|].
    assert (∀ a t, t ≠ "" → String.rev_app a t ≠ "") as Hne.
    { clear. induction a as [|y a IHa]; intros t Ht; simpl; [done|by apply IHa]. }
    by apply (Hne run (String x "")).
Qed.

Lemma re_search_count_digits (word s : string) :
  digits_only (default "" (Latin1.re_search_count word s)) = true.
Proof.
  destruct (Latin1.re_search_count word s) as [g|] eqn:Hg; [|done].
  by apply re_search_count_go_digits in Hg as [? _].
Qed.

Lemma doomos_item_record (card : Node) (r : Listing) :
  Doomos.doomos_item card = Ok (Some r) → card_record r.
Proof.
  unfold Doomos.doomos_item.
  destruct (select_one card ".content_result_titulo a") as [[a_tag|]|]; [|done..]. simpl.
  destruct (select_one card ".content_result_precio") as [price_elem|]; [|done]. simpl.
  destruct (select_one card ".content_result_descripcion") as [desc_elem|]; [|done]. simpl.
  destruct (select_one card "img.content_result_image") as [img_tag|]; [|done]. simpl.
  intros [= <-]. unfold card_record, counts_digits.
  cbn [link imagen_url dormitorios banos m2].
  split; [|split].
  - set (href := default "" _). clearbody href.
    destruct href as [|b h]; [done|].
    destruct (bool_decide_reflect ("/"%char = b)) as [<-|Hb]; [done|].
    simpl. by rewrite !bool_decide_false by done.
  - destruct img_tag; [apply img_src_stripped|done].
  - auto using re_search_count_digits.
Qed.

Lemma doomos_loop_records (cards : list Node) (results : list Listing) :
  Forall card_record results →
  Forall card_record (Doomos.doomos_loop cards results).
Proof.
  revert results. induction cards as [|c rest IH]; intros results Hres; [done|].
  simpl. destruct (Doomos.doomos_item c) as [[r|]|e] eqn:Hitem; [|by apply IH..].
  apply IH, Forall_app. split; [done|]. constructor; [|done].
  by eapply doomos_item_record.
Qed.

(** X11.  Every record that the Doomos extractor returns, whatever the
    page: its link does not begin with "/" (a site-relative address has
    been made absolute); its image address has no whitespace around it;
    and its three counts, read from the text of the card, are texts of
    digits, possibly empty. *)
Theorem scrape_doomos_records (fetch : string → res Soup)
    (zona dorm_req banos_req : string) (price_min price_max : option Z)
    (palabras_clave : string) :
  Forall (λ r, PyStr.startswith "/" (link r) = false ∧
               Latin1.strip (imagen_url r) = imagen_url r ∧
               digits_only (dormitorios r) = true ∧ digits_only (banos r) = true ∧
               digits_only (m2 r) = true)
    (Doomos.scrape_doomos fetch zona dorm_req banos_req price_min price_max
       palabras_clave).
Proof.
  unfold Doomos.scrape_doomos.
  destruct (get_page_content fetch _) as [soup|]; [|constructor].
  destruct (soup_select soup ".content_result") as [|c cards] eqn:Hcards; [constructor|].
  by apply (doomos_loop_records _ []).
Qed.

End ExtractorFacts.

(** ** Card by card *)

Lemma infocasas_loop_app (nodes : list Infocasas.Card) (results : list Listing) :
  Infocasas.infocasas_loop nodes results = results ++ Infocasas.infocasas_loop nodes [].
Proof.
  revert results. induction nodes as [|n rest IH]; intros results.
  - simpl. by rewrite app_nil_r.
  - simpl. destruct (Infocasas.infocasas_item n) as [[r|]|e]; [|apply IH..].
    rewrite (IH (results ++ [r])), (IH [r]). by rewrite <- (assoc_L (++)).
Qed.

Lemma properati_loop_app (cards : list Nestoria.Node) (results : list Listing) :
  Properati.properati_loop cards results = results ++ Properati.properati_loop cards [].
Proof.
  revert results. induction cards as [|c rest IH]; intros results.
  - simpl. by rewrite app_nil_r.
  - simpl. destruct (Properati.properati_item c) as [r|e]; [|apply IH].
    rewrite (IH (results ++ [r])), (IH [r]). by rewrite <- (assoc_L (++)).
Qed.

Lemma doomos_loop_app (cards : list Nestoria.Node) (results : list Listing) :
  Doomos.doomos_loop cards results = results ++ Doomos.doomos_loop cards [].
Proof.
  revert results. induction cards as [|c rest IH]; intros results.
  - simpl. by rewrite app_nil_r.
  - simpl. destruct (Doomos.doomos_item c) as [[r|]|e]; [|apply IH..].
    rewrite (IH (results ++ [r])), (IH [r]). by rewrite <- (assoc_L (++)).
Qed.

(** X12.  The Infocasas, Properati and Doomos extractors work card by
    card: the records of a sequence of cards are the records of its first
    part followed by the records of the rest.  So, unlike the Nestoria
    extractor, they keep a record for every card of a page, also when two
    cards have the same link; and a card that is skipped or that raises
    takes nothing from the cards around it. *)
Theorem extractors_card_by_card (cards more : list Nestoria.Node)
    (nodes nodes' : list Infocasas.Card) :
  Infocasas.infocasas_loop (nodes ++ nodes') []
    = Infocasas.infocasas_loop nodes [] ++ Infocasas.infocasas_loop nodes' [] ∧
  Properati.properati_loop (cards ++ more) []
    = Properati.properati_loop cards [] ++ Properati.properati_loop more [] ∧
  Doomos.doomos_loop (cards ++ more) []
    = Doomos.doomos_loop cards [] ++ Doomos.doomos_loop more [].
Proof.
  split; [|split].
  - induction nodes as [|n rest IH]; [done|]. simpl.
    destruct (Infocasas.infocasas_item n) as [[r|]|e]; [|apply IH..].
    rewrite (infocasas_loop_app (rest ++ nodes')), (infocasas_loop_app rest), IH.
    by rewrite (assoc_L (++)).
  - induction cards as [|c rest IH]; [done|]. simpl.
    destruct (Properati.properati_item c) as [r|e]; [|apply IH].
    rewrite (properati_loop_app (rest ++ more)), (properati_loop_app rest), IH.
    by rewrite (assoc_L (++)).
  - induction cards as [|c rest IH]; [done|]. simpl.
    destruct (Doomos.doomos_item c) as [[r|]|e]; [|apply IH..].
    rewrite (doomos_loop_app (rest ++ more)), (doomos_loop_app rest), IH.
    by rewrite (assoc_L (++)).
Qed.

(* ===================================================================== *)
(** * More on the Nestoria extractor *)
(* ===================================================================== *)

Section NestoriaMore.
Import Nestoria.

Context (get_page_content : string → option Soup).
Context (re_search_group1 : string → string → option string).

Lemma nestoria_item_link (price_min price_max : option Z)
    (seen_links : gset string) (li : Node) (r : Listing) :
  nestoria_item re_search_group1 price_min price_max seen_links li = Ok (Some r) →
  link r ≠ "" ∧ PyStr.startswith "/" (link r) = false.
Proof.
  unfold nestoria_item.
  destruct (first_of (select_one li "a.results__link") (select_one li "a[href]"))
    as [[a_tag|]|] eqn:Ha; simpl; [|done..].
  set (link0 := default "" _).
  match goal with
  | |- context [bool_decide (?l = "") || bool_decide (?l ∈ seen_links)] => set (link1 := l)
  end.
  assert (PyStr.startswith "/" link1 = false) as Hrel.
  { unfold link1. clearbody link0. clear link1. destruct link0 as [|b h]; [done|].
    rewrite (bool_decide_false (String b h = "")) by done. cbn [negb andb].
    destruct (bool_decide_reflect ("/"%char = b)) as [<-|Hb]; [done|].
    simpl. by rewrite !bool_decide_false by done. }
  destruct (bool_decide_reflect (link1 = "")) as [|Hne]; [done|].
  destruct (bool_decide (link1 ∈ seen_links)); [done|]. simpl.
  destruct (first_of (select_one li ".listing__title__text") _) as [title_elem|]; [|done]. simpl.
  destruct (first_of (select_one li ".result__details__price span") _) as [price_elem|]; [|done].
  simpl. destruct (nestoria_price_excluded _ _ _); [done|].
  destruct (first_of (select_one li ".listing__description") _) as [desc_elem|]; [|done]. simpl.
  destruct (select_one li "img") as [img_tag|]; [|done]. simpl.
  intros [= <-]. by simpl.
Qed.

Lemma nestoria_loop_links (price_min price_max : option Z) (items : list Node)
    (results : list Listing) (seen_links : gset string) :
  Forall (λ r, link r ≠ "" ∧ PyStr.startswith "/" (link r) = false) results →
  Forall (λ r, link r ≠ "" ∧ PyStr.startswith "/" (link r) = false)
    (nestoria_loop re_search_group1 price_min price_max items results seen_links).
Proof.
  revert results seen_links.
  induction items as [|li rest IH]; intros results seen_links Hall; [done|]. simpl.
  destruct (nestoria_item _ _ _ _ li) as [[r|]|e] eqn:Hitem; [|by apply IH..].
  apply nestoria_item_link in Hitem.
  apply IH, Forall_app. split; [done|]. by constructor.
Qed.

(** X13.  Every record that the Nestoria extractor returns has a link,
    and the link does not begin with "/": a node without an address is
    skipped, and a site-relative address is made absolute. *)
Theorem scrape_nestoria_links_absolute (zona dormitorios banos : string)
    (price_min price_max : option Z) (rows : list Listing) :
  scrape_nestoria get_page_content re_search_group1 zona dormitorios banos
    price_min price_max = Ok rows →
  Forall (λ r, link r ≠ "" ∧ PyStr.startswith "/" (link r) = false) rows.
Proof.
  unfold scrape_nestoria.
  destruct (get_page_content _) as [soup|]; [|by intros [= <-]].
  destruct (nestoria_items soup) as [items|]; [|done]. simpl.
  intros [= <-]. by apply nestoria_loop_links.
Qed.

End NestoriaMore.

(** X14.  In the Nestoria extractor a node that gives no record (its
    processing raises, it has no address, or the early price test
    excludes it) is skipped without any effect on the other nodes: from
    any state of the loop, the records of the page are those of the page
    without this node. *)
Theorem nestoria_loop_skips_failed_node
    (re_search_group1 : string → string → option string)
    (price_min price_max : option Z) (pre post : list Nestoria.Node) (li : Nestoria.Node)
    (results : list Listing) (seen_links : gset string) :
  (∀ seen r,
     Nestoria.nestoria_item re_search_group1 price_min price_max seen li ≠ Ok (Some r)) →
  Nestoria.nestoria_loop re_search_group1 price_min price_max (pre ++ li :: post)
    results seen_links
  = Nestoria.nestoria_loop re_search_group1 price_min price_max (pre ++ post)
      results seen_links.
Proof.
  intros Hli. revert results seen_links.
  induction pre as [|x pre IH]; intros results seen_links; simpl.
  - destruct (Nestoria.nestoria_item _ _ _ _ li) as [[r|]|e] eqn:Hitem; [|done..].
    by destruct (Hli seen_links r).
  - destruct (Nestoria.nestoria_item _ _ _ _ x) as [[r|]|e]; apply IH.
Qed.

Lemma nestoria_loop_skips_failed_node_witness :
  (∀ seen r, Nestoria.nestoria_item (λ _ _, None) None None seen broken_node ≠ Ok (Some r)) ∧
  link <$> Nestoria.nestoria_loop (λ _ _, None) None None
             ([sample_node "/a"] ++ broken_node :: [sample_node "/b"]) [] ∅
  = ["https://www.nestoria.pe/a"; "https://www.nestoria.pe/b"].
Proof.
  assert (∀ seen r,
            Nestoria.nestoria_item (λ _ _, None) None None seen broken_node ≠ Ok (Some r))
    as Hbroken by done.
  split; [done|].
  rewrite (nestoria_loop_skips_failed_node (λ _ _, None) None None
             [sample_node "/a"] [sample_node "/b"] broken_node [] ∅ Hbroken).
  reflexivity.
Defined.

Lemma scrape_nestoria_links_absolute_witness :
  Nestoria.scrape_nestoria (λ _, Some (sample_soup ["/a"; "x"])) (λ _ _, None)
    "lince" "0" "0" None None
  = Ok (Nestoria.nestoria_loop (λ _ _, None) None None
          [sample_node "/a"; sample_node "x"] [] ∅) ∧
  Forall (λ r, link r ≠ "" ∧ PyStr.startswith "/" (link r) = false)
    (Nestoria.nestoria_loop (λ _ _, None) None None
       [sample_node "/a"; sample_node "x"] [] ∅).
Proof.
  split; [reflexivity|].
  apply (scrape_nestoria_links_absolute (λ _, Some (sample_soup ["/a"; "x"])) (λ _ _, None)
           "lince" "0" "0" None None).
  reflexivity.
Defined.

(* ===================================================================== *)
(** * More on the text utilities *)
(* ===================================================================== *)

Module DigitFacts.
Import PyStr.

Lemma digit_run_spaces (s : string) :
  digit_run (re_sub_spaces_go false s) = digit_run s.
Proof.
  induction s as [|c s IH]; [done|]. simpl.
  destruct (isspace c) eqn:Hsp; simpl.
  - destruct (isdigit c) eqn:Hd; [|done].
    by rewrite (PyStrFacts.digit_not_space c Hd) in Hsp.
  - by rewrite IH.
Qed.

Lemma re_search_digits_spaces (in_run : bool) (s : string) :
  re_search_digits (re_sub_spaces_go in_run s) = re_search_digits s.
Proof.
  revert in_run. induction s as [|c s IH]; intros in_run; [done|]. simpl.
  destruct (isspace c) eqn:Hsp.
  - assert (isdigit c = false) as ->.
    { destruct (isdigit c) eqn:Hd; [|done].
      by rewrite (PyStrFacts.digit_not_space c Hd) in Hsp. }
    destruct in_run; simpl; apply IH.
  - simpl. destruct (isdigit c); [|apply IH].
    f_equal. f_equal. apply digit_run_spaces.
Qed.

Lemma re_search_digits_lstrip (s : string) :
  re_search_digits (lstrip s) = re_search_digits s.
Proof.
  induction s as [|c s IH]; [done|]. simpl.
  destruct (isspace c) eqn:Hsp; [|done].
  destruct (isdigit c) eqn:Hd; [|done].
  by rewrite (PyStrFacts.digit_not_space c Hd) in Hsp.
Qed.

Lemma digit_run_rstrip (s : string) : digit_run (rstrip s) = digit_run s.
Proof.
  induction s as [|c s IH]; [done|]. simpl.
  destruct (rstrip s) as [|x r] eqn:Hr.
  - destruct (isspace c) eqn:Hsp.
    + destruct (isdigit c) eqn:Hd; [|done].
      by rewrite (PyStrFacts.digit_not_space c Hd) in Hsp.
    + simpl. destruct (isdigit c); [|done]. by rewrite <- IH.
  - simpl. destruct (isdigit c); [|done]. by rewrite <- IH.
Qed.

Lemma re_search_digits_rstrip (s : string) :
  re_search_digits (rstrip s) = re_search_digits s.
Proof.
  induction s as [|c s IH]; [done|].
  pose proof (digit_run_rstrip (String c s)) as Hrun. simpl in *.
  destruct (rstrip s) as [|x r] eqn:Hr.
  - destruct (isspace c) eqn:Hsp.
    + destruct (isdigit c) eqn:Hd.
      * by rewrite (PyStrFacts.digit_not_space c Hd) in Hsp.
      * by rewrite <- IH.
    + simpl in *. destruct (isdigit c); [by rewrite Hrun|]. by rewrite <- IH.
  - simpl in *. destruct (isdigit c); [by rewrite Hrun|]. by rewrite <- IH.
Qed.

Lemma re_search_digits_strip (s : string) :
  re_search_digits (strip s) = re_search_digits s.
Proof. unfold strip. by rewrite re_search_digits_rstrip, re_search_digits_lstrip. Qed.


Lemma digit_run_id (s : string) : digits_only s = true → digit_run s = s.
Proof.
  induction s as [|c s IH]; [done|]. simpl. intros [Hc Hs]%andb_true_iff.
  by rewrite Hc, IH.
Qed.

Lemma re_search_digits_id (s : string) :
  digits_only s = true → s ≠ "" → re_search_digits s = Some s.
Proof.
  destruct s as [|c s]; [done|]. intros Hs _.
  pose proof (digit_run_id _ Hs) as Hrun. simpl in *.
  apply andb_true_iff in Hs as [Hc Hs]. rewrite Hc in *. by rewrite Hrun.
Qed.

Lemma digits_value_digits (s : string) :
  digits_only s = true → digits_value s = int_acc 0 s.
Proof.
  intros Hs. unfold digits_value.
  by rewrite <- PyStrFacts.int_acc_keep, (PyStrFacts.keep_digits_only s Hs).
Qed.



Lemma digits_only_app (a b : string) :
  digits_only (a +:+ b) = digits_only a && digits_only b.
Proof. induction a as [|c a IH]; [done|]. simpl. by rewrite IH, andb_assoc. Qed.

Lemma int_acc_app (acc : Z) (a b : string) :
  int_acc acc (a +:+ b) = int_acc (int_acc acc a) b.
Proof. revert acc. induction a as [|c a IH]; intros acc; [done|]. simpl. apply IH. Qed.

Lemma pretty_N_char_digit (k : N) :
  (k < 10)%N → isdigit (pretty_N_char k) = true ∧ digit_val (pretty_N_char k) = Z.of_N k.
Proof.
  intros Hk.
  destruct k as [|p]; [done|].
  do 4 (destruct p as [p|p|]; try done; try lia).
Qed.

(** The digits that [str] writes for a natural number. *)
Lemma pretty_N_go_digits (x : N) (s : string) :
  ∃ d, pretty_N_go x s = d +:+ s ∧ digits_only d = true
       ∧ ((0 < x)%N → d ≠ "") ∧ int_acc 0 d = Z.of_N x.
Proof.
  revert s. induction (N.lt_wf_0 x) as [x _ IH]; intros s.
  destruct (decide (x = 0%N)) as [->|Hx].
  - exists "". rewrite pretty_N_go_0. repeat split; lia.
  - rewrite pretty_N_go_step by lia.
    destruct (IH (x `div` 10)%N) with (s := String (pretty_N_char (x `mod` 10)) s)
      as (d & Hgo & Hd & _ & Hval).
    { apply N.div_lt; lia. }
    destruct (pretty_N_char_digit (x `mod` 10)) as [Hc Hv].
    { apply N.mod_lt. lia. }
    exists (d +:+ String (pretty_N_char (x `mod` 10)) "").
    rewrite Hgo. split; [by rewrite PyStrFacts.app_assoc|].
    split; [rewrite digits_only_app, Hd; simpl; by rewrite Hc|].
    split; [by destruct d|].
    rewrite int_acc_app, Hval. simpl. rewrite Hv.
    pose proof (N.div_mod x 10). lia.
Qed.

Lemma pretty_pos_digits (p : positive) :
  digits_only (pretty p) = true ∧ pretty p ≠ "" ∧ int_acc 0 (pretty p) = Z.pos p.
Proof.
  unfold pretty, pretty_positive, pretty, pretty_N.
  destruct (decide (N.pos p = 0%N)) as [|_]; [done|].
  destruct (pretty_N_go_digits (N.pos p) "") as (d & Hgo & Hd & Hne & Hval).
  assert (∀ t : string, t +:+ "" = t) as Hnil.
  { clear. induction t as [|c t IH]; [done|]. by rewrite PyStrFacts.app_cons, IH. }
  rewrite Hgo, Hnil. split; [done|]. split; [apply Hne; lia|]. by rewrite Hval.
Qed.

(** [str(n)] has a first run of digits, which reads as the absolute
    value of [n]. *)
Lemma re_search_digits_pretty (n : Z) :
  ∃ g, re_search_digits (pretty n) = Some g ∧ digits_only g = true
       ∧ int_acc 0 g = Z.abs n.
Proof.
  destruct n as [|p|p].
  - by exists "0".
  - destruct (pretty_pos_digits p) as (Hd & Hne & Hval).
    exists (pretty p). split; [by apply re_search_digits_id|done].
  - destruct (pretty_pos_digits p) as (Hd & Hne & Hval).
    exists (pretty p). split; [|done].
    change (pretty (Z.neg p)) with ("-" +:+ pretty p). simpl.
    by apply re_search_digits_id.
Qed.

End DigitFacts.

Lemma extract_int_search (v : cell) :
  _extract_int_from_text v =
    if v is CNull then None else digits_value <$> PyStr.re_search_digits (py_str v).
Proof.
  assert (∀ t, match PyStr.re_search_digits (PyStr.re_sub_spaces (PyStr.strip t)) with
               | Some g => PyStr.py_int g
               | None => None
               end = digits_value <$> PyStr.re_search_digits t) as Hrun.
  { intros t. unfold PyStr.re_sub_spaces.
    rewrite DigitFacts.re_search_digits_spaces, DigitFacts.re_search_digits_strip.
    destruct (PyStr.re_search_digits t) as [g|] eqn:Hg; [|done].
    apply re_search_digits_digits in Hg as [Hd Hne]. simpl.
    by rewrite PyStrFacts.py_int_digits, DigitFacts.digits_value_digits. }
  destruct v; [apply Hrun..|done].
Qed.


Lemma str_in_marker_digits (s : string) :
  string_forall (λ c, PyStr.isdigit c || bool_decide (c = "-"%char)) s = true →
  PyStr.str_in "S/" s = false.
Proof.
  induction s as [|c s IH]; [done|]. intros [Hc Hs]%andb_true_iff.
  change (PyStr.str_in "S/" (String c s))
    with (PyStr.startswith "S/" (String c s) || PyStr.str_in "S/" s).
  rewrite (IH Hs), orb_false_r. simpl.
  destruct (bool_decide_reflect ("S"%char = c)) as [<-|]; [done|done].
Qed.

Lemma digits_only_sign (s : string) :
  digits_only s = true →
  string_forall (λ c, PyStr.isdigit c || bool_decide (c = "-"%char)) s = true.
Proof.
  induction s as [|c s IH]; [done|]. simpl. intros [Hc Hs]%andb_true_iff.
  by rewrite Hc, IH.
Qed.

(** X16.  Cells that are not text.  Of an integer [n],
    [_extract_int_from_text] returns the absolute value (it reads the
    digits that [str] writes, and not the sign), and
    [_parse_price_soles] returns nothing, since there is no "S/" in the
    digits; of a null cell both return nothing. *)
Theorem numeric_cells (n : Z) :
  _extract_int_from_text (CInt n) = Some (Z.abs n) ∧
  _parse_price_soles (CInt n) = None ∧
  _extract_int_from_text CNull = None ∧
  _parse_price_soles CNull = None.
Proof.
  split; [|split; [|done]].
  - rewrite extract_int_search. cbn [py_str].
    destruct (DigitFacts.re_search_digits_pretty n) as (g & -> & Hd & Hval).
    simpl. by rewrite DigitFacts.digits_value_digits, Hval.
  - unfold _parse_price_soles. cbn [py_str].
    pose proof (parse_precio_moneda (pretty n)) as Hm.
    destruct (parse_precio_con_moneda (pretty n)) as [moneda val]. simpl in Hm.
    rewrite str_in_marker_digits in Hm.
    + subst moneda. by destruct (PyStr.str_in "$" (pretty n)).
    + destruct n as [|p|p].
      * done.
      * apply digits_only_sign, DigitFacts.pretty_pos_digits.
      * change (pretty (Z.neg p)) with ("-" +:+ pretty p). simpl.
        apply digits_only_sign, DigitFacts.pretty_pos_digits.
Qed.

(* ===================================================================== *)
(** * How the filters compose *)
(* ===================================================================== *)

Lemma bind_assoc_run {A B C} (m : M A) (f : A → M B) (g : B → M C) (w : World) :
  (y ← (x ← m; f x); g y) w = (x ← m; y ← f x; g y) w.
Proof.
  unfold mbind, M_bind. by destruct (m w) as [[a|e] w'].
Qed.

Lemma result_rows_inv (m : M loc) (w : World) (rows : DataFrame) :
  result_rows m w = Some rows → ∃ l w', m w = (Ok l, w') ∧ heap w' !! l = Some rows.
Proof.
  unfold result_rows. destruct (m w) as [[l|e] w']; [|done]. by exists l, w'.
Qed.

Lemma result_rows_opt_inv (m : M (option loc)) (w : World) (rows : DataFrame) :
  result_rows_opt m w = Some rows →
  ∃ l w', m w = (Ok (Some l), w') ∧ heap w' !! l = Some rows.
Proof.
  unfold result_rows_opt. destruct (m w) as [[[l|]|e] w']; [|done..]. by exists l, w'.
Qed.

Lemma result_rows_new_frame (df : DataFrame) (w : World) :
  result_rows (new_frame df) w = Some df.
Proof. unfold result_rows, new_frame. cbn [heap with_heap]. apply heap_lookup_new. Qed.



(** The keyword filter after a computation that returns a frame. *)
Lemma keywords_after (m : M loc) (rows : DataFrame) (palabras_clave : string) (w : World) :
  result_rows m w = Some rows →
  result_rows_opt (l ← m; _filter_by_keywords (Some l) palabras_clave) w
  = Some (keyword_result palabras_clave rows).
Proof.
  intros (l & w1 & Hm & Hl)%result_rows_inv.
  destruct (filter_by_keywords_post l rows palabras_clave w1 Hl) as (l' & h' & Hrun & Hl').
  unfold result_rows_opt. by rewrite (bind_ok _ _ _ _ _ Hm), Hrun.
Qed.

Lemma keywords_after_opt (m : M (option loc)) (rows : DataFrame) (palabras_clave : string)
    (w : World) :
  result_rows_opt m w = Some rows →
  result_rows_opt (r ← m; _filter_by_keywords r palabras_clave) w
  = Some (keyword_result palabras_clave rows).
Proof.
  intros (l & w1 & Hm & Hl)%result_rows_opt_inv.
  destruct (filter_by_keywords_post l rows palabras_clave w1 Hl) as (l' & h' & Hrun & Hl').
  unfold result_rows_opt. by rewrite (bind_ok _ _ _ _ _ Hm), Hrun.
Qed.

Lemma filter_and {A} (k1 k2 : A → bool) (l : list A) :
  filter (λ x, k2 x = true) (filter (λ x, k1 x = true) l)
  = filter (λ x, k1 x && k2 x = true) l.
Proof.
  rewrite list_filter_filter. apply list_filter_iff. intros x.
  rewrite andb_true_iff. tauto.
Qed.



Lemma split_go_app_space (cur : option string) (a b : string) (sp : ascii) :
  PyStr.isspace sp = true →
  PyStr.split_go cur (a +:+ String sp b) = PyStr.split_go cur a ++ PyStr.split_go None b.
Proof.
  intros Hsp. revert cur. induction a as [|c a IH]; intros cur.
  - simpl. by rewrite Hsp.
  - rewrite PyStrFacts.app_cons. simpl. destruct (PyStr.isspace c).
    + by rewrite IH, (assoc_L (++)).
    + apply IH.
Qed.

Lemma split_go_nil (cur : option string) (s : string) :
  PyStr.split_go cur s = [] → cur = None ∧ PyStr.lstrip s = "".
Proof.
  revert cur. induction s as [|c s IH]; intros cur; simpl.
  - by destruct cur.
  - destruct (PyStr.isspace c).
    + intros [Hcur Hs]%app_eq_nil. split; [by destruct cur|]. by apply IH in Hs as [_ ?].
    + by intros [? _]%IH.
Qed.

Lemma blank_iff_split (s : string) : PyStr.strip s = "" ↔ PyStr.split s = [].
Proof.
  split; [apply PyStrFacts.split_blank|].
  intros [_ Hs]%split_go_nil. unfold PyStr.strip. by rewrite Hs.
Qed.

Lemma split_lower_app (a b : string) :
  PyStr.split (PyStr.lower (a +:+ " " +:+ b))
  = PyStr.split (PyStr.lower a) ++ PyStr.split (PyStr.lower b).
Proof.
  rewrite PyStrFacts.lower_app. change (PyStr.lower (" " +:+ b)) with (String " " (PyStr.lower b)).
  by apply split_go_app_space.
Qed.

Lemma blank_app (a b : string) :
  bool_decide (PyStr.strip (a +:+ " " +:+ b) = "")
  = bool_decide (PyStr.strip a = "") && bool_decide (PyStr.strip b = "").
Proof.
  assert (PyStr.split (a +:+ " " +:+ b) = PyStr.split a ++ PyStr.split b) as Happ
    by by apply split_go_app_space.
  assert (PyStr.strip (a +:+ " " +:+ b) = "" ↔ PyStr.strip a = "" ∧ PyStr.strip b = "")
    as Hiff.
  { rewrite !blank_iff_split, Happ.
    split; [by intros [-> ->]%app_eq_nil|by intros [-> ->]]. }
  repeat case_bool_decide; simpl; tauto.
Qed.

Lemma blank_lower_split (s : string) :
  PyStr.strip s = "" → PyStr.split (PyStr.lower s) = [].
Proof. intros Hs. by rewrite PyStrFacts.split_lower, (PyStrFacts.split_blank s Hs). Qed.

Lemma keyword_rows_twice (a b : string) (df : DataFrame) :
  keyword_rows b (keyword_rows a df)
  = drop_extra ["texto_completo"] <$>
      filter (λ r, kw_keep (PyStr.split (PyStr.lower a)) (base r)
                   && kw_keep (PyStr.split (PyStr.lower b)) (base r) = true) df.
Proof.
  unfold keyword_rows.
  rewrite (filter_fmap_stable (drop_extra ["texto_completo"])
             (λ r, kw_keep (PyStr.split (PyStr.lower b)) (base r))) by done.
  rewrite (filter_and (λ r, kw_keep (PyStr.split (PyStr.lower a)) (base r))
             (λ r, kw_keep (PyStr.split (PyStr.lower b)) (base r))).
  rewrite <- list_fmap_compose.
  apply list_fmap_ext. intros i r _. apply drop_extra_idem.
Qed.

Lemma keyword_rows_app (a b : string) (df : DataFrame) :
  keyword_rows (a +:+ " " +:+ b) df
  = drop_extra ["texto_completo"] <$>
      filter (λ r, kw_keep (PyStr.split (PyStr.lower a)) (base r)
                   && kw_keep (PyStr.split (PyStr.lower b)) (base r) = true) df.
Proof.
  unfold keyword_rows. f_equal. apply list_filter_iff. intros r.
  unfold kw_keep. by rewrite split_lower_app, forallb_app.
Qed.

Lemma keyword_result_app (a b : string) (df : DataFrame) :
  keyword_result (a +:+ " " +:+ b) df = keyword_result b (keyword_result a df).
Proof.
  unfold keyword_result. rewrite blank_app.
  destruct (bool_decide_reflect (PyStr.strip a = "")) as [Ha|Ha],
    (bool_decide_reflect (PyStr.strip b = "")) as [Hb|Hb]; cbn [andb].
  - done.
  - rewrite keyword_rows_app. unfold keyword_rows. f_equal. apply list_filter_iff.
    intros r. by rewrite (blank_lower_split a Ha).
  - rewrite keyword_rows_app. unfold keyword_rows. f_equal. apply list_filter_iff.
    intros r. rewrite (blank_lower_split b Hb). unfold kw_keep at 2. simpl.
    by rewrite andb_true_r.
  - by rewrite keyword_rows_app, keyword_rows_twice.
Qed.

Lemma keyword_result_comm (a b : string) (df : DataFrame) :
  keyword_result b (keyword_result a df) = keyword_result a (keyword_result b df).
Proof.
  unfold keyword_result.
  destruct (bool_decide (PyStr.strip a = "")), (bool_decide (PyStr.strip b = "")); try done.
  rewrite !keyword_rows_twice. f_equal. apply list_filter_iff. intros r.
  by rewrite andb_comm.
Qed.

(** X18.  The keywords of the keyword filter can be applied one after
    the other, and in any order: filtering by the keywords of [a] and
    then by those of [b] gives the rows that one call with "a b" gives,
    which are also the rows that one call with "b a" gives. *)
Theorem filter_by_keywords_in_steps (df : DataFrame) (a b : string) (w : World) :
  result_rows_opt (l ← new_frame df;
                   r ← _filter_by_keywords (Some l) a;
                   _filter_by_keywords r b) w
  = result_rows_opt (l ← new_frame df; _filter_by_keywords (Some l) (a +:+ " " +:+ b)) w ∧
  result_rows_opt (l ← new_frame df; _filter_by_keywords (Some l) (b +:+ " " +:+ a)) w
  = result_rows_opt (l ← new_frame df; _filter_by_keywords (Some l) (a +:+ " " +:+ b)) w.
Proof.
  pose proof (λ kw, keywords_after (new_frame df) df kw w (result_rows_new_frame df w))
    as Hone.
  rewrite !Hone. split.
  - unfold result_rows_opt at 1. rewrite <- bind_assoc_run.
    fold (result_rows_opt
            (r ← (l ← new_frame df; _filter_by_keywords (Some l) a);
             _filter_by_keywords r b) w).
    rewrite (keywords_after_opt _ _ b w (Hone a)). by rewrite keyword_result_app.
  - by rewrite !keyword_result_app, keyword_result_comm.
Qed.





(* ===================================================================== *)
(** * Cleaning and the strict filter *)
(* ===================================================================== *)

Module StripFacts.
Import PyStr.

Lemma lstrip_head (s : string) :
  match lstrip s with "" => True | String c _ => isspace c = false end.
Proof.
  induction s as [|c s IH]; [done|]. simpl.
  destruct (isspace c) eqn:Hc; [done|]. by simpl.
Qed.

Lemma rstrip_head (s : string) :
  match s with "" => True | String c _ => isspace c = false end →
  match rstrip s with "" => True | String c _ => isspace c = false end.
Proof.
  destruct s as [|c s]; [done|]. simpl. intros Hc.
  destruct (rstrip s); [by rewrite Hc|done].
Qed.

Lemma rstrip_twice (s : string) : rstrip (rstrip s) = rstrip s.
Proof.
  induction s as [|c s IH]; [done|]. simpl.
  destruct (rstrip s) as [|x r] eqn:Hr.
  - destruct (isspace c) eqn:Hc; [done|]. simpl. by rewrite Hc.
  - simpl in *. by rewrite IH.
Qed.

Lemma strip_twice (s : string) : strip (strip s) = strip s.
Proof.
  unfold strip.
  pose proof (rstrip_head (lstrip s) (lstrip_head s)) as Hhead.
  assert (lstrip (rstrip (lstrip s)) = rstrip (lstrip s)) as ->.
  { destruct (rstrip (lstrip s)) as [|c r]; [done|]. simpl. by rewrite Hhead. }
  apply rstrip_twice.
Qed.

Lemma keep_lstrip (s : string) : re_sub_non_digits (lstrip s) = re_sub_non_digits s.
Proof.
  induction s as [|c s IH]; [done|]. simpl.
  destruct (isspace c) eqn:Hsp; [|done].
  destruct (isdigit c) eqn:Hd; [|done].
  by rewrite (PyStrFacts.digit_not_space c Hd) in Hsp.
Qed.

Lemma keep_rstrip (s : string) : re_sub_non_digits (rstrip s) = re_sub_non_digits s.
Proof.
  induction s as [|c s IH]; [done|]. simpl.
  destruct (rstrip s) as [|x r] eqn:Hr.
  - destruct (isspace c) eqn:Hsp.
    + destruct (isdigit c) eqn:Hd.
      * by rewrite (PyStrFacts.digit_not_space c Hd) in Hsp.
      * by rewrite <- IH.
    + simpl. rewrite <- IH. by destruct (isdigit c).
  - simpl in *. rewrite <- IH. by destruct (isdigit c).
Qed.

Lemma keep_strip (s : string) : re_sub_non_digits (strip s) = re_sub_non_digits s.
Proof. unfold strip. by rewrite keep_rstrip, keep_lstrip. Qed.

Lemma has_digit_keep (s t : string) :
  re_sub_non_digits s = re_sub_non_digits t → has_digit s = has_digit t.
Proof.
  intros Heq. destruct (has_digit s) eqn:Hs, (has_digit t) eqn:Ht; try done.
  - apply PyStrFacts.keep_empty_iff in Ht. rewrite <- Heq in Ht.
    apply PyStrFacts.keep_empty_iff in Ht. congruence.
  - apply PyStrFacts.keep_empty_iff in Hs. rewrite Heq in Hs.
    apply PyStrFacts.keep_empty_iff in Hs. congruence.
Qed.

Lemma digits_value_keep (s t : string) :
  re_sub_non_digits s = re_sub_non_digits t → digits_value s = digits_value t.
Proof.
  intros Heq. unfold digits_value. by rewrite <- !PyStrFacts.int_acc_keep, Heq.
Qed.

(** A text without whitespace. *)
Lemma startswith_rstrip (p s : string) :
  string_forall (λ c, negb (isspace c)) p = true →
  startswith p (rstrip s) = startswith p s.
Proof.
  revert p. induction s as [|c s IH]; intros p Hp; [done|].
  destruct p as [|a p]; [done|]. simpl in Hp.
  apply andb_true_iff in Hp as [Ha Hp]. apply negb_true_iff in Ha.
  specialize (IH p Hp). simpl.
  destruct (rstrip s) as [|x r] eqn:Hr.
  - destruct (isspace c) eqn:Hc.
    + simpl. rewrite bool_decide_false; [done|]. intros ->. congruence.
    + simpl. by rewrite IH.
  - simpl in *. by rewrite IH.
Qed.

Lemma str_in_rstrip_step (p : string) (c : ascii) (s : string) :
  str_in p (rstrip (String c s))
  = startswith p (rstrip (String c s)) || str_in p (rstrip s).
Proof.
  simpl. destruct (rstrip s) as [|x r] eqn:Hr.
  - destruct (isspace c); simpl.
    + by destruct p.
    + by rewrite orb_false_r.
  - done.
Qed.

Lemma str_in_rstrip (p s : string) :
  string_forall (λ c, negb (isspace c)) p = true →
  str_in p (rstrip s) = str_in p s.
Proof.
  intros Hp. induction s as [|c s IH]; [done|].
  rewrite str_in_rstrip_step, (startswith_rstrip p _ Hp), IH. done.
Qed.

Lemma str_in_lstrip (a : ascii) (p s : string) :
  isspace a = false → str_in (String a p) (lstrip s) = str_in (String a p) s.
Proof.
  intros Ha. induction s as [|c s IH]; [done|].
  cbn [lstrip]. destruct (isspace c) eqn:Hc; [|done].
  rewrite IH. cbn [str_in startswith].
  rewrite bool_decide_false; [done|]. intros ->. congruence.
Qed.

Lemma str_in_soles_strip (s : string) : str_in "S/" (strip s) = str_in "S/" s.
Proof. unfold strip. by rewrite str_in_rstrip, str_in_lstrip. Qed.

End StripFacts.

Lemma parse_price_soles_text (s : string) :
  _parse_price_soles (CStr s) =
    if PyStr.str_in "S/" s && has_digit s then Some (digits_value s) else None.
Proof.
  unfold _parse_price_soles. cbn [py_str].
  pose proof (parse_precio_moneda s) as Hm. pose proof (parse_precio_valor s) as Hv.
  destruct (parse_precio_con_moneda s) as [moneda val]. simpl in Hm, Hv. subst.
  destruct (PyStr.str_in "S/" s); simpl.
  - by destruct (has_digit s).
  - by destruct (PyStr.str_in "$" s).
Qed.

Lemma parse_price_soles_clean (s : string) :
  _parse_price_soles (CStr (clean_text (CStr s))) = _parse_price_soles (CStr s).
Proof.
  rewrite !parse_price_soles_text. unfold clean_text. cbn [py_str].
  pose proof (StripFacts.str_in_soles_strip s) as Hin.
  case_bool_decide as Hnone.
  - rewrite Hnone in Hin. by rewrite <- Hin.
  - rewrite Hin, (StripFacts.has_digit_keep _ _ (StripFacts.keep_strip s)).
    by rewrite (StripFacts.digits_value_keep _ _ (StripFacts.keep_strip s)).
Qed.

Lemma extract_int_clean (s : string) :
  _extract_int_from_text (CStr (clean_text (CStr s))) = _extract_int_from_text (CStr s).
Proof.
  rewrite !extract_int_search. cbn [py_str]. unfold clean_text. cbn [py_str].
  pose proof (DigitFacts.re_search_digits_strip s) as Hs.
  case_bool_decide as Hnone.
  - rewrite Hnone in Hs. by rewrite <- Hs.
  - by rewrite Hs.
Qed.

Lemma strict_keep_clean (dormitorios_req banos_req : option string)
    (price_min price_max : option Z) (b : Listing) :
  strict_keep dormitorios_req banos_req price_min price_max (clean_listing b)
  = strict_keep dormitorios_req banos_req price_min price_max b.
Proof.
  unfold strict_keep, count_keep, price_keep, clean_listing.
  cbn [dormitorios banos precio].
  by rewrite !extract_int_clean, parse_price_soles_clean.
Qed.

(** X20.  The cleaning of the text columns that [run_scrapers] does
    before it filters (trimming, and the text "None" made empty) is
    invisible to the strict filter: the filter keeps the same records of
    a cleaned frame as of the frame as it came. *)
Theorem strict_filter_ignores_cleaning (df : DataFrame)
    (dormitorios_req banos_req : option string) (price_min price_max : option Z) (w : World) :
  result_rows (l ← new_frame (clean_row <$> df);
               _filter_df_strict (Some l) dormitorios_req banos_req price_min price_max) w
  = (λ rows : list Row, clean_row <$> rows) <$>
      result_rows (l ← new_frame df;
                   _filter_df_strict (Some l) dormitorios_req banos_req
                     price_min price_max) w.
Proof.
  rewrite !result_rows_strict. cbn [fmap option_fmap option_map]. f_equal.
  unfold strict_rows.
  rewrite (filter_fmap_stable clean_row
             (λ r, strict_keep dormitorios_req banos_req price_min price_max (base r)))
    by (intros r; apply strict_keep_clean).
  by rewrite <- !list_fmap_compose.
Qed.



(* ===================================================================== *)
(** * Where the rows of a run come from *)
(* ===================================================================== *)









Section RunRows.

Context (now_isoformat : nat → string) (uuid4 : nat → string).





End RunRows.





(* ===================================================================== *)
(** * A run without network *)
(* ===================================================================== *)

Lemma source_rows_no_rows (name : string) (outcome : res (option (list Listing)))
    (args : Args) :
  raw_rows outcome = [] → source_rows name outcome args = [].
Proof.
  intros Hraw. unfold source_rows, strict_rows_of, keyword_result. rewrite Hraw. simpl.
  by repeat destruct (_ : bool).
Qed.

Lemma source_sets_no_rows (now_isoformat uuid4 : nat → string) (args : Args)
    (scrapers : list (string * extractor)) (t u : nat) :
  Forall (λ p, raw_rows (p.2 args) = []) scrapers →
  source_sets now_isoformat uuid4 args scrapers t u = [].
Proof.
  induction 1 as [|[name func] rest Hraw _ IH]; [done|].
  cbn [source_sets]. simpl in Hraw. by rewrite (source_rows_no_rows name _ args Hraw).
Qed.

(** X24.  A run without network.  When every request of the four
    extractors raises, each of them returns an empty frame, and
    [run_scrapers] with the four registered extractors returns an empty
    frame, without raising. *)
Theorem run_scrapers_offline (now_isoformat uuid4 : nat → string)
    (fetch_nestoria : string → res Nestoria.Soup)
    (re_search_group1 : string → string → option string)
    (fetch_infocasas : string → res Infocasas.Page)
    (fetch_properati fetch_doomos : string → res Nestoria.Soup)
    (args : Args) (w : World) :
  (∀ url, ∃ e, fetch_nestoria url = Raise e) →
  (∀ url, ∃ e, fetch_infocasas url = Raise e) →
  (∀ url, ∃ e, fetch_properati url = Raise e) →
  (∀ url, ∃ e, fetch_doomos url = Raise e) →
  nestoria_extractor fetch_nestoria re_search_group1 args = Ok (Some []) ∧
  infocasas_extractor fetch_infocasas args = Ok (Some []) ∧
  properati_extractor fetch_properati args = Ok (Some []) ∧
  doomos_extractor fetch_doomos args = Ok (Some []) ∧
  result_rows (run_scrapers now_isoformat uuid4
                 (nestoria_extractor fetch_nestoria re_search_group1)
                 (infocasas_extractor fetch_infocasas)
                 (properati_extractor fetch_properati)
                 (doomos_extractor fetch_doomos) args) w = Some [].
Proof.
  intros Hn Hi Hp Hd.
  assert (nestoria_extractor fetch_nestoria re_search_group1 args = Ok (Some [])) as En.
  { unfold nestoria_extractor, Nestoria.scrape_nestoria, get_page_content.
    by destruct (Hn (Nestoria.nestoria_url (arg_zona args) (arg_dormitorios args)
                       (arg_banos args) (arg_price_min args) (arg_price_max args)))
      as [e ->]. }
  assert (infocasas_extractor fetch_infocasas args = Ok (Some [])) as Ei.
  { unfold infocasas_extractor, Infocasas.scrape_infocasas, get_page_content.
    by destruct (Hi (Infocasas.infocasas_url (arg_zona args) (arg_dormitorios args)
                       (arg_banos args) (arg_price_min args) (arg_price_max args)
                       (arg_palabras_clave args))) as [e ->]. }
  assert (properati_extractor fetch_properati args = Ok (Some [])) as Ep.
  { unfold properati_extractor, Properati.scrape_properati.
    by destruct (Hp (Properati.properati_url (arg_zona args) (arg_dormitorios args)
                       (arg_banos args) (arg_price_min args) (arg_price_max args)
                       (arg_palabras_clave args))) as [e ->]. }
  assert (doomos_extractor fetch_doomos args = Ok (Some [])) as Ed.
  { unfold doomos_extractor, Doomos.scrape_doomos, get_page_content.
    by destruct (Hd (Doomos.doomos_url (arg_zona args) (arg_dormitorios args)
                       (arg_banos args) (arg_price_min args) (arg_price_max args)
                       (arg_palabras_clave args))) as [e ->]. }
  repeat (split; [done|]).
  destruct (run_scrapers_run now_isoformat uuid4
              (nestoria_extractor fetch_nestoria re_search_group1)
              (infocasas_extractor fetch_infocasas)
              (properati_extractor fetch_properati)
              (doomos_extractor fetch_doomos) args w)
    as (l & h' & entries & t' & u' & Hrun & Hl & _).
  unfold result_rows. rewrite Hrun. cbn [heap]. rewrite Hl.
  rewrite source_sets_no_rows; [done|].
  unfold SCRAPERS. repeat constructor; cbn [snd]; by rewrite ?En, ?Ei, ?Ep, ?Ed.
Qed.

Lemma run_scrapers_offline_witness :
  (∀ url : string, ∃ e, (λ _, Raise (RuntimeError "offline")) url
                        = @Raise Nestoria.Soup e) ∧
  result_rows (run_scrapers (λ n, "t" +:+ pretty n) (λ n, "id" +:+ pretty n)
                 (nestoria_extractor (λ _, Raise (RuntimeError "offline")) (λ _ _, None))
                 (infocasas_extractor (λ _, Raise (RuntimeError "offline")))
                 (properati_extractor (λ _, Raise (RuntimeError "offline")))
                 (doomos_extractor (λ _, Raise (RuntimeError "offline")))
                 (mkArgs "lince" "2" "0" None None "")) empty_world = Some [].
Proof.
  split; [intros url; by eexists|].
  apply (run_scrapers_offline (λ n, "t" +:+ pretty n) (λ n, "id" +:+ pretty n)
           (λ _, Raise (RuntimeError "offline")) (λ _ _, None)
           (λ _, Raise (RuntimeError "offline")) (λ _, Raise (RuntimeError "offline"))
           (λ _, Raise (RuntimeError "offline"))
           (mkArgs "lince" "2" "0" None None "") empty_world);
    intros url; by eexists.
Defined.

(* ===================================================================== *)
(** * An inverted price range *)
(* ===================================================================== *)



(* ===================================================================== *)
(** * Worked examples of the extractors *)
(* ===================================================================== *)

(** The zone slug of an accented, capitalised name. *)
Example slugify_zone_accents :
  slugify_zone (Latin1.lit "  Jesús  María ") = "jesus-maria".
Proof. by vm_compute. Qed.

(** The Doomos URL for a zone of the table: the value of every
    parameter is percent-encoded. *)
Example doomos_url_lurin :
  Doomos.doomos_url (Latin1.lit "Lurín") "2" "0" (Some 800) None "vista al mar"
  = "http://www.doomos.com.pe/search/?clase=1&stipo=16&pagina=1&sort=primeasc"
      +:+ "&loc_name=Lur%C3%ADn%20%28Regi%C3%B3n%20de%20Lima%29&loc_id=-353652"
      +:+ "&piezas=2&preciomin=800&keyword=vista%20al%20mar".
Proof. by vm_compute. Qed.

(** The Properati URL: "piscina" and "jardin" become amenities, the
    other keywords stay keywords. *)
Example properati_url_amenities :
  Properati.properati_url "Lince" "2" "0" None (Some 1500) "Piscina amplio jardin"
  = "https://www.properati.com.pe/s/lince/alquiler?propertyType=apartment%2Chouse"
      +:+ "&amenities=swimming_pool,garden&keyword=amplio&bedrooms=2&maxPrice=1500".
Proof. by vm_compute. Qed.

(** A page of Doomos with the same card twice and a card that raises:
    both records are kept, with the address made absolute and the counts
    read from the text of the card. *)
Example scrape_doomos_page :
  (λ r, (link r, dormitorios r, m2 r)) <$>
    Doomos.scrape_doomos
      (λ _, Ok (Nestoria.mkSoup
                  (λ _, [sample_node "/a"; broken_node; sample_node "/a"]) [] []))
      "lince" "0" "0" None None ""
  = [("http://www.doomos.com.pe/a", "2", "80"); ("http://www.doomos.com.pe/a", "2", "80")].
Proof. by vm_compute. Qed.
